(** * Be-Analytic-ETL: the IDA collector (src/main.py) and the PostgreSQL
      importer (src/connect_postgre.py), embedded and verified.

    Python text is modelled as [string] (a sequence of 8-bit characters; a
    non-ASCII letter is its UTF-8 bytes), a pandas cell as an inductive
    [cell], a DataFrame as its column labels and its rows.  Every function
    below carries the name of the source function it embeds.

    The operations keyed on an ASCII character ([in], [split], [replace],
    [count], [rstrip('0')]) act on the UTF-8 bytes exactly as Python acts
    on the characters.  The operations that look at a class of characters
    ([str.strip], [str.isdigit], the [\d] of [re]) are embedded with the
    classes [is_space] and [is_digit] below, which are Python's on every
    text that has no white space and no digit outside ASCII; a statement
    about what these operations return is made for Latin text
    ([texto_latino]: ASCII characters and the accented letters
    U+00C0..U+00FE other than ß), which is such a text. *)

From Stdlib Require Import ZArith Lia List Ascii String Bool.
From stdpp Require Import base list strings gmap.

Local Open Scope string_scope.
Local Open Scope list_scope.

(* stdpp keeps [simpl] from unfolding the append of strings; the proofs
   below compute with it. *)
Local Arguments String.append !_ _ / : simpl nomatch.

(** ** Python's [str] methods, as far as the source calls them *)

Module Py.

(** [c.isdigit()] and [c.isspace()] for an ASCII character [c]: the digits
    0 to 9; the tab, the line feed, the vertical tab, the form feed, the
    carriage return, the four separators 28 to 31 and the space. *)
Definition is_digit (c : ascii) : bool :=
  let n := nat_of_ascii c in (48 <=? n)%nat && (n <=? 57)%nat.

Definition is_space (c : ascii) : bool :=
  let n := nat_of_ascii c in
  ((9 <=? n)%nat && (n <=? 13)%nat) || ((28 <=? n)%nat && (n <=? 32)%nat).

Fixpoint all_chars (p : ascii -> bool) (s : string) : bool :=
  match s with
  | EmptyString => true
  | String c s' => p c && all_chars p s'
  end.

(** An ASCII character. *)
Definition is_ascii (c : ascii) : bool := (nat_of_ascii c <? 128)%nat.

(** [s.isdigit()]: every character is a digit and there is at least one. *)
Definition isdigit (s : string) : bool :=
  match s with
  | EmptyString => false
  | String _ _ => all_chars is_digit s
  end.

(** [c in s] for a one-character [c]. *)
Fixpoint contains_char (c : ascii) (s : string) : bool :=
  match s with
  | EmptyString => false
  | String a s' => Ascii.eqb a c || contains_char c s'
  end.

(** [s.count(c)]. *)
Fixpoint count_char (c : ascii) (s : string) : nat :=
  match s with
  | EmptyString => 0
  | String a s' => (if Ascii.eqb a c then 1 else 0) + count_char c s'
  end.

(** [s.replace(c, '')]. *)
Fixpoint remove_char (c : ascii) (s : string) : string :=
  match s with
  | EmptyString => EmptyString
  | String a s' =>
      if Ascii.eqb a c then remove_char c s' else String a (remove_char c s')
  end.

(** [s.replace(c, d)]. *)
Fixpoint replace_char (c d : ascii) (s : string) : string :=
  match s with
  | EmptyString => EmptyString
  | String a s' => String (if Ascii.eqb a c then d else a) (replace_char c d s')
  end.

(** [re.sub('[^...]', '', s)]: keep the characters of the class [keep]. *)
Fixpoint keep_chars (keep : ascii -> bool) (s : string) : string :=
  match s with
  | EmptyString => EmptyString
  | String a s' =>
      if keep a then String a (keep_chars keep s') else keep_chars keep s'
  end.

(** [s.lstrip(...)] and [s.rstrip(...)] for a class of characters. *)
Fixpoint lstrip_by (p : ascii -> bool) (s : string) : string :=
  match s with
  | EmptyString => EmptyString
  | String a s' => if p a then lstrip_by p s' else s
  end.

Fixpoint rstrip_by (p : ascii -> bool) (s : string) : string :=
  match s with
  | EmptyString => EmptyString
  | String a s' =>
      match rstrip_by p s' with
      | EmptyString => if p a then EmptyString else String a EmptyString
      | r => String a r
      end
  end.

(** [s.strip()]. *)
Definition strip (s : string) : string :=
  lstrip_by is_space (rstrip_by is_space s).

(** [s.rstrip('0')]. *)
Definition rstrip_zeros (s : string) : string :=
  rstrip_by (fun a => Ascii.eqb a "0") s.

(** [s.split(c)]: never empty, one more piece than there are separators. *)
Fixpoint split (c : ascii) (s : string) : list string :=
  match s with
  | EmptyString => [EmptyString]
  | String a s' =>
      if Ascii.eqb a c then EmptyString :: split c s'
      else match split c s' with
           | [] => [String a EmptyString]
           | p :: ps => String a p :: ps
           end
  end.

(** [sep.join(l)]. *)
Fixpoint join (sep : string) (l : list string) : string :=
  match l with
  | [] => EmptyString
  | [x] => x
  | x :: l' => x +:+ sep +:+ join sep l'
  end.

(** [sub in s]. *)
Fixpoint contains (sub s : string) : bool :=
  String.prefix sub s ||
  match s with
  | EmptyString => false
  | String _ s' => contains sub s'
  end.

(** [x in l] for a list of strings. *)
Definition in_list (x : string) (l : list string) : bool :=
  existsb (String.eqb x) l.

(** [str(n)] for an [int]. *)
Definition digit_char (d : nat) : ascii := ascii_of_nat (48 + d).

Fixpoint str_nat_fuel (fuel n : nat) (acc : string) : string :=
  match fuel with
  | O => acc
  | S fuel' =>
      let acc' := String (digit_char (n mod 10)) acc in
      if (n <? 10)%nat then acc' else str_nat_fuel fuel' (n / 10) acc'
  end.

Definition str_nat (n : nat) : string := str_nat_fuel (S n) n EmptyString.

Definition str_int (z : Z) : string :=
  if (z <? 0)%Z then String "-" (str_nat (Z.to_nat (- z)))
  else str_nat (Z.to_nat z).

(** [f'{n:0{w}d}'] for a natural number. *)
Fixpoint zero_pad (w : nat) (s : string) : string :=
  match w with
  | O => s
  | S w' => if (String.length s <? w)%nat then zero_pad w' (String "0" s) else s
  end.

End Py.

(** ** Cells of the collector's frames *)

(** The collector reads every file with [dtype = str]: a cell is text or
    missing.  The melted frame adds timestamps (the month column) and the
    consolidated frame integers (the id column); the importer reads the
    consolidated file back with inferred types, which adds floats and
    booleans, and writes [None] itself. *)
Inductive cell : Type :=
| NaN                          (* float('nan'), the missing value *)
| NaT                          (* the missing value of a datetime column *)
| PyNone
| Str (s : string)
| Int (n : Z)
| Flt (repr : string)          (* a finite float, given by its [repr] *)
| Bool (b : bool)
| Ts (year month : nat).       (* first day of a month, at midnight *)

(** [pd.isna(v)]. *)
Definition isna (v : cell) : bool :=
  match v with
  | NaN | NaT | PyNone => true
  | _ => false
  end.

(** [str(v)]. *)
Definition str (v : cell) : string :=
  match v with
  | NaN => "nan"
  | NaT => "NaT"
  | PyNone => "None"
  | Str s => s
  | Int n => Py.str_int n
  | Flt r => r
  | Bool b => if b then "True" else "False"
  | Ts y m =>
      Py.zero_pad 4 (Py.str_nat y) +:+ "-" +:+ Py.zero_pad 2 (Py.str_nat m)
      +:+ "-01 00:00:00"
  end.

Module Main.

(** *** [limpar_celula] (inside [limpar_valores_decimais]) *)

Definition limpar_celula (valor : cell) : cell :=
  if isna valor then valor
  else
    let valor_str := Py.strip (str valor) in
    if Py.contains_char "." valor_str
       && Py.isdigit (Py.remove_char "." valor_str)
    then
      match Py.split "." valor_str with
      | [parte_inteira; parte_decimal] =>
          if String.eqb (Py.remove_char "0" parte_decimal) ""
          then Str parte_inteira
          else
            let parte_decimal_limpa := Py.rstrip_zeros parte_decimal in
            if negb (String.eqb parte_decimal_limpa "")
            then Str (parte_inteira +:+ "." +:+ parte_decimal_limpa)
            else Str parte_inteira
      | _ => Str valor_str
      end
    else Str valor_str.

(** *** [limpar_valor_final] (inside [criar_dataframe_consolidado])

    [partes[1]] exists whenever the text has a period (lemma
    [split_has_two] below); the last branch of the [match] is never
    taken. *)

Definition eq_empty (valor : cell) : bool :=
  match valor with
  | Str s => String.eqb s ""
  | _ => false
  end.

Definition limpar_valor_final (valor : cell) : cell :=
  if isna valor || eq_empty valor then Str ""
  else
    let valor_str := str valor in
    if Py.contains_char "." valor_str then
      match Py.split "." valor_str with
      | parte_inteira :: parte1 :: _ =>
          let parte_decimal := Py.rstrip_zeros parte1 in
          if negb (String.eqb parte_decimal "")
          then Str (parte_inteira +:+ "." +:+ parte_decimal)
          else Str parte_inteira
      | _ => Str valor_str
      end
    else Str valor_str.

(** *** [converter_para_numero] (inside [transformar_para_formato_longo])

    Nothing in the body of the source's [try] can raise, so its [except]
    branch is left out.  The result is always text. *)

Definition valores_invalidos : list string :=
  [""; "nan"; "NaN"; "-"; "--"; "---"; "ND"; "N/D"].

(** The class kept by [re.sub(r'[^\d\.,]', '', valor_str)]. *)
Definition numeric_char (c : ascii) : bool :=
  Py.is_digit c || Ascii.eqb c "." || Ascii.eqb c ",".

Definition valor_limpo_de (valor_str : string) : string :=
  Py.keep_chars numeric_char valor_str.

(** The body of the source's [try] (lines 549 to 575), which reads nothing
    but [valor_limpo]; it looks at commas and periods only. *)
Definition formatar_valor_limpo (valor_limpo : string) : cell :=
  if Py.contains_char "," valor_limpo then
    if Py.contains_char "." valor_limpo then
      let partes_virgula := Py.split "," valor_limpo in
      let parte_inteira := Py.remove_char "." (hd "" partes_virgula) in
      if (1 <? length partes_virgula)%nat then
        let parte_decimal := nth 1 partes_virgula "" in
        Str (parte_inteira +:+ "." +:+ parte_decimal)
      else Str parte_inteira
    else Str (Py.replace_char "," "." valor_limpo)
  else if Py.contains_char "." valor_limpo then
    let partes := Py.split "." valor_limpo in
    if (2 <? length partes)%nat then Str (Py.join "" partes)
    else Str valor_limpo
  else Str valor_limpo.

Definition converter_para_numero (valor : cell) : cell :=
  if isna valor then Str ""
  else
    let valor_str := Py.strip (str valor) in
    if Py.in_list valor_str valores_invalidos then Str ""
    else
      let valor_limpo := valor_limpo_de valor_str in
      if String.eqb valor_limpo "" then Str ""
      else formatar_valor_limpo valor_limpo.

(** *** [encontrar_linha_inicio_dados]

    The raw table is read with [header = None]: its index is 0, 1, 2, ...
    and [iterrows] yields each row with its position.  [upper] is
    [str.upper]; the locator is embedded for any such function, and
    [upper_latin] below is its restriction to ASCII and to the accented
    Latin letters the marker uses. *)

Definition linha_str (linha : list cell) : string :=
  Py.join " " (map str (List.filter (fun val => negb (isna val)) linha)).

Definition marcador_espacado : string := "GRUPO ECONÔMICO".
Definition marcador_sublinhado : string := "GRUPO_ECON".

Section Locator.
Variable upper : string -> string.

Definition tem_marcador (linha : list cell) : bool :=
  Py.contains marcador_espacado (upper (linha_str linha))
  || Py.contains marcador_sublinhado (upper (linha_str linha)).

Fixpoint percorrer (idx : nat) (linhas : list (list cell)) : option nat :=
  match linhas with
  | [] => None
  | linha :: resto =>
      if tem_marcador linha then Some idx else percorrer (S idx) resto
  end.

Definition encontrar_linha_inicio_dados (df : list (list cell)) : nat :=
  match percorrer 0 df with
  | Some idx => idx
  | None => 0
  end.
End Locator.

(** [str.upper] on UTF-8 text, for ASCII letters and for the two-byte
    letters U+00E0..U+00FE (à..þ, without ÷). *)
Definition upper_ascii (c : ascii) : ascii :=
  let n := nat_of_ascii c in
  if (97 <=? n)%nat && (n <=? 122)%nat then ascii_of_nat (n - 32) else c.

Fixpoint upper_latin (s : string) : string :=
  match s with
  | EmptyString => EmptyString
  | String a s' =>
      match s' with
      | String b s'' =>
          let n := nat_of_ascii b in
          if (nat_of_ascii a =? 195)%nat && (160 <=? n)%nat && (n <=? 190)%nat
             && negb (n =? 183)%nat
          then String a (String (ascii_of_nat (n - 32)) (upper_latin s''))
          else String (upper_ascii a) (upper_latin s')
      | EmptyString => String (upper_ascii a) EmptyString
      end
  end.

(** Latin text: ASCII characters and the two-byte letters U+00C0..U+00FE
    without ß (whose upper case is two letters).  On it [upper_latin] is
    [str.upper], none of the letters is white space or a digit, and the
    classes [Py.is_space] and [Py.is_digit] are those of [str.strip],
    [str.isdigit] and [\d]. *)
Fixpoint texto_latino (s : string) : bool :=
  match s with
  | EmptyString => true
  | String a s' =>
      if Py.is_ascii a then texto_latino s'
      else
        match s' with
        | String b s'' =>
            let n := nat_of_ascii b in
            (nat_of_ascii a =? 195)%nat && (128 <=? n)%nat && (n <=? 190)%nat
            && negb (n =? 159)%nat && texto_latino s''
        | EmptyString => false
        end
  end.

(** ** Frames

    A DataFrame is its column labels (stringified, as the source does with
    [str(coluna)]) and its rows, each row holding one cell per column. *)

Record DataFrame : Type := mkDF {
  columns : list string;
  rows : list (list cell)
}.

Global Instance cell_eq_dec : EqDecision cell.
Proof. solve_decision. Defined.

(** [cols.get_loc(c)]: the position of a label. *)
Fixpoint index_of (c : string) (cols : list string) : option nat :=
  match cols with
  | [] => None
  | x :: cols' =>
      if String.eqb x c then Some 0 else option_map S (index_of c cols')
  end.

(** [row[c]] for a row of a frame whose labels are [cols]. *)
Definition get_cell (cols : list string) (row : list cell) (c : string) : cell :=
  match index_of c cols with
  | Some i => nth i row NaN
  | None => NaN
  end.

Fixpoint update_nth (i : nat) (f : cell -> cell) (row : list cell) : list cell :=
  match row, i with
  | [], _ => []
  | v :: row', O => f v :: row'
  | v :: row', S i' => v :: update_nth i' f row'
  end.

(** [df[c] = df[c].apply(f)], for a label the frame has. *)
Definition apply_column (f : cell -> cell) (c : string) (df : DataFrame)
  : DataFrame :=
  match index_of c (columns df) with
  | Some i => mkDF (columns df) (map (update_nth i f) (rows df))
  | None => df
  end.

(** [df[c] = v] for a scalar [v]: overwrite the column, or append it. *)
Definition set_column (c : string) (v : cell) (df : DataFrame) : DataFrame :=
  match index_of c (columns df) with
  | Some i => mkDF (columns df) (map (update_nth i (fun _ => v)) (rows df))
  | None => mkDF (columns df ++ [c]) (map (fun r => r ++ [v]) (rows df))
  end.

(** [df.rename(columns = d)] for a dict [d]. *)
Definition rename (d : gmap string string) (df : DataFrame) : DataFrame :=
  mkDF (map (fun c => default c (d !! c)) (columns df)) (rows df).

(** *** Regular expressions of the source: [re.match] anchors at the start
    of the text only, so a pattern matches every text it is a prefix
    pattern of. *)

Inductive pat : Type :=
| D                 (* \d *)
| L (c : ascii).    (* a literal character *)

Definition pat_ok (x : pat) (a : ascii) : bool :=
  match x with
  | D => Py.is_digit a
  | L c => Ascii.eqb a c
  end.

Fixpoint re_match (p : list pat) (s : string) : bool :=
  match p with
  | [] => true
  | x :: p' =>
      match s with
      | EmptyString => false
      | String a s' => pat_ok x a && re_match p' s'
      end
  end.

(** [r'\d{4}-\d{2}'] and [r'\d{4}-\d{2}-\d{2} \d{2}:\d{2}:\d{2}']. *)
Definition re_ano_mes : list pat := [D; D; D; D; L "-"; D; D].
Definition re_timestamp : list pat :=
  [D; D; D; D; L "-"; D; D; L "-"; D; D; L " "; D; D; L ":"; D; D; L ":"; D; D].

(** *** [datetime.strptime(s, '%Y-%m-%d %H:%M:%S')], [strftime('%Y-%m')]

    Called only on a label that [re_timestamp] matches, where it succeeds
    exactly when nothing follows the seconds and the fields name a real
    date and time. *)

Record datetime : Type := mkDatetime {
  year : nat; month : nat; day : nat; hour : nat; minute : nat; second : nat
}.

Definition digit_val (a : ascii) : nat := nat_of_ascii a - 48.

Definition leap (y : nat) : bool :=
  ((y mod 4 =? 0)%nat && negb (y mod 100 =? 0)%nat) || (y mod 400 =? 0)%nat.

Definition days_in_month (y m : nat) : nat :=
  match m with
  | 2 => if leap y then 29 else 28
  | 4 | 6 | 9 | 11 => 30
  | _ => 31
  end.

Definition strptime (s : string) : option datetime :=
  if re_match re_timestamp s && (String.length s =? 19)%nat then
    match list_ascii_of_string s with
    | [y1; y2; y3; y4; _; m1; m2; _; d1; d2; _; h1; h2; _; n1; n2; _; s1; s2] =>
        let y := 1000 * digit_val y1 + 100 * digit_val y2
                 + 10 * digit_val y3 + digit_val y4 in
        let m := 10 * digit_val m1 + digit_val m2 in
        let d := 10 * digit_val d1 + digit_val d2 in
        let h := 10 * digit_val h1 + digit_val h2 in
        let n := 10 * digit_val n1 + digit_val n2 in
        let sec := 10 * digit_val s1 + digit_val s2 in
        if (1 <=? y)%nat && (1 <=? m)%nat && (m <=? 12)%nat
           && (1 <=? d)%nat && (d <=? days_in_month y m)%nat
           && (h <=? 23)%nat && (n <=? 59)%nat && (sec <=? 59)%nat
        then Some (mkDatetime y m d h n sec)
        else None
    | _ => None
    end
  else None.

Definition strftime_ano_mes (d : datetime) : string :=
  Py.zero_pad 4 (Py.str_nat (year d)) +:+ "-"
  +:+ Py.zero_pad 2 (Py.str_nat (month d)).

(** *** [normalizar_colunas_data]

    The loop runs over the labels of [df] and renames in the copy; a
    failing [strptime] is caught and the label kept. *)

Definition normalizar_passo (df_normalizado : DataFrame) (coluna : string)
  : DataFrame :=
  let coluna_str := coluna in
  if re_match re_ano_mes coluna_str then df_normalizado
  else if re_match re_timestamp coluna_str then
    match strptime coluna_str with
    | Some data_obj =>
        let nome_normalizado := strftime_ano_mes data_obj in
        rename {[ coluna := nome_normalizado ]} df_normalizado
    | None => df_normalizado
    end
  else df_normalizado.

Definition normalizar_colunas_data (df : DataFrame) : DataFrame :=
  fold_left normalizar_passo (columns df) df.

(** *** [transformar_para_formato_longo] *)

Definition colunas_identificacao : list string :=
  ["GRUPO_ECONOMICO"; "VARIAVEL"; "OPERADORA"].

(** The two lists the classification loop fills ([if] ... [elif] ...). *)
Definition classificar_id (cols : list string) : list string :=
  List.filter (fun c => Py.in_list c colunas_identificacao) cols.

Definition classificar_data (cols : list string) : list string :=
  List.filter
    (fun c => negb (Py.in_list c colunas_identificacao) && re_match re_ano_mes c)
    cols.

(** [pd.melt(df, id_vars, value_vars, var_name, value_name)]: the value
    columns are stacked one after the other, each with all the rows in
    their order.  pandas raises [ValueError] when [value_name] is already a
    label of the frame. *)
Definition melt (df : DataFrame) (id_vars value_vars : list string)
    (var_name value_name : string) : option DataFrame :=
  if Py.in_list value_name (columns df) then None
  else
    Some (mkDF (id_vars ++ [var_name; value_name])
            (flat_map
               (fun v =>
                  map (fun r =>
                         map (get_cell (columns df) r) id_vars
                         ++ [Str v; get_cell (columns df) r v])
                      (rows df))
               value_vars)).

Section Reshaper.
(** [pd.to_datetime(., format = '%Y-%m', errors = 'coerce')] on one
    value; what it answers on a label longer than YYYY-MM depends on the
    pandas version, so the reshaper is embedded for any such function. *)
Variable to_datetime : cell -> cell.

Definition transformar_para_formato_longo (df : DataFrame) (servico : string)
  : DataFrame :=
  let colunas_id := classificar_id (columns df) in
  let colunas_data := classificar_data (columns df) in
  if (length colunas_id =? 0)%nat || (length colunas_data =? 0)%nat then
    set_column "SERVICO" (Str servico) df
  else
    match melt df colunas_id colunas_data "REFERENCIA_MES" "VALOR" with
    | Some df_longo =>
        let df_longo := apply_column to_datetime "REFERENCIA_MES" df_longo in
        let df_longo := set_column "SERVICO" (Str servico) df_longo in
        apply_column converter_para_numero "VALOR" df_longo
    | None =>
        (* except Exception: keep the wide frame *)
        set_column "SERVICO" (Str servico) df
    end.
End Reshaper.

(** The strict reading of the format (pandas 2): exactly YYYY-MM, with a
    month between 01 and 12. *)
Definition to_datetime_ano_mes (v : cell) : cell :=
  match v with
  | Str s =>
      if re_match re_ano_mes s && (String.length s =? 7)%nat then
        match list_ascii_of_string s with
        | [y1; y2; y3; y4; _; m1; m2] =>
            let m := 10 * digit_val m1 + digit_val m2 in
            if (1 <=? m)%nat && (m <=? 12)%nat then
              Ts (1000 * digit_val y1 + 100 * digit_val y2
                  + 10 * digit_val y3 + digit_val y4) m
            else NaT
        | _ => NaT
        end
      else NaT
  | Ts y m => Ts y m
  | _ => NaT
  end.

(** *** [criar_dataframe_consolidado], steps 5 to 8 *)

(** [pd.concat(dataframes, ignore_index = True)]: the labels are the union
    of the frames' labels in order of first appearance; a cell a frame does
    not have is missing.  Which missing value pandas writes depends on the
    type the column has in the result (NaT in a datetime column, NaN in a
    column of texts): [vazio c] is that value for the column [c].  The
    cells the frames have are kept as they are, which is how pandas treats
    columns of texts and of timestamps (a column of integers that gets a
    missing value would turn into floats). *)
Definition add_label (acc : list string) (c : string) : list string :=
  if Py.in_list c acc then acc else acc ++ [c].

Definition union_columns (dfs : list DataFrame) : list string :=
  fold_left (fun acc df => fold_left add_label (columns df) acc) dfs [].

Definition reindex (vazio : string -> cell) (cols : list string)
    (df : DataFrame) : list (list cell) :=
  map (fun r =>
         map (fun c =>
                if Py.in_list c (columns df) then get_cell (columns df) r c
                else vazio c)
             cols)
      (rows df).

Definition concat (vazio : string -> cell) (dfs : list DataFrame)
  : DataFrame :=
  let cols := union_columns dfs in
  mkDF cols (flat_map (reindex vazio cols) dfs).

(** The fill in the frames the collector consolidates, where the month
    column of the melted frames is the only datetime column. *)
Definition vazio_coletor (c : string) : cell :=
  if String.eqb c "REFERENCIA_MES" then NaT else NaN.

(** The cells of the frames the collector builds: every file is read with
    [dtype = str], and the reshaper adds the timestamps. *)
Definition celula_coletada (v : cell) : bool :=
  match v with
  | Str _ | NaN | NaT | Ts _ _ => true
  | _ => false
  end.

(** [df.drop_duplicates()]: the first of equal rows is kept. *)
Fixpoint keep_first (seen : list (list cell)) (l : list (list cell))
  : list (list cell) :=
  match l with
  | [] => []
  | r :: l' =>
      if decide (r ∈ seen) then keep_first seen l'
      else r :: keep_first (r :: seen) l'
  end.

Definition drop_duplicates (df : DataFrame) : DataFrame :=
  mkDF (columns df) (keep_first [] (rows df)).

(** [df.insert(0, 'id', range(1, len(df) + 1))]; pandas raises when the
    frame already has a column of that label. *)
Definition insert_id (df : DataFrame) : option DataFrame :=
  if Py.in_list "id" (columns df) then None
  else
    Some (mkDF ("id" :: columns df)
            (zip_with (fun i r => Int (Z.of_nat i) :: r)
                      (seq 1 (length (rows df))) (rows df))).

(** [df[labels]]: for each label asked for, every column that bears it. *)
Fixpoint positions (c : string) (i : nat) (cols : list string) : list nat :=
  match cols with
  | [] => []
  | x :: cols' =>
      if String.eqb x c then i :: positions c (S i) cols'
      else positions c (S i) cols'
  end.

Definition select (labels : list string) (df : DataFrame) : DataFrame :=
  let idx := flat_map (fun c => positions c 0 (columns df)) labels in
  mkDF (map (fun i => nth i (columns df) "") idx)
       (map (fun r => map (fun i => nth i r NaN) idx) (rows df)).

Definition colunas_desejadas : list string :=
  ["id"; "grupo_economico"; "servico"; "mes_referencia"; "valor"; "tipo_servico"].

Definition add_rename (cols : list string) (old new : string)
    (d : gmap string string) : gmap string string :=
  if Py.in_list old cols then <[ old := new ]> d else d.

Definition renomear_colunas (cols : list string) : gmap string string :=
  add_rename cols "SERVICO" "tipo_servico"
    (add_rename cols "VALOR" "valor"
       (add_rename cols "REFERENCIA_MES" "mes_referencia"
          (add_rename cols "VARIAVEL" "servico"
             (add_rename cols "GRUPO_ECONOMICO" "grupo_economico" ∅)))).

Definition consolidar (vazio : string -> cell) (dataframes : list DataFrame)
  : option DataFrame :=
  match dataframes with
  | [] => None          (* raise Exception('Nenhum dado pôde ser processado') *)
  | _ =>
      let df := concat vazio dataframes in
      let df := drop_duplicates df in
      let df :=
        if Py.in_list "VALOR" (columns df)
        then apply_column limpar_valor_final "VALOR" df else df in
      let renomear := renomear_colunas (columns df) in
      let df := if decide (renomear = ∅) then df else rename renomear df in
      match insert_id df with
      | None => None
      | Some df =>
          let colunas_existentes :=
            List.filter (fun c => Py.in_list c (columns df)) colunas_desejadas in
          let colunas_extras :=
            List.filter (fun c => negb (Py.in_list c colunas_desejadas))
                        (columns df) in
          Some (select (colunas_existentes ++ colunas_extras) df)
      end
  end.

(** *** [limpar_valores_decimais]

    The loop skips the identifier columns and every column whose label
    starts like a year-month, and cleans the cells of the others. *)

Definition limpar_valores_decimais_passo (df_limpo : DataFrame)
    (coluna : string) : DataFrame :=
  if Py.in_list coluna colunas_identificacao then df_limpo
  else if re_match re_ano_mes coluna then df_limpo
  else apply_column limpar_celula coluna df_limpo.

Definition limpar_valores_decimais (df : DataFrame) : DataFrame :=
  fold_left limpar_valores_decimais_passo (columns df) df.

(** *** [extrair_dados_reais]

    Here the labels are cells: the promoted header row holds text or
    missing values, the raw table's own labels are the integers 0, 1, ...
    [contem padrao texto] is [Series.str.contains(padrao, case = False,
    na = False)] on one text; the extractor is embedded for any such
    test. *)

Record Regiao : Type := mkRegiao {
  rotulos : list cell;
  linhas : list (list cell)
}.

Fixpoint posicao (col : cell) (rots : list cell) : option nat :=
  match rots with
  | [] => None
  | x :: rots' =>
      if decide (x = col) then Some 0 else option_map S (posicao col rots')
  end.

(** [linha[col]]. *)
Definition celula (rots : list cell) (linha : list cell) (col : cell) : cell :=
  match posicao col rots with
  | Some i => nth i linha NaN
  | None => NaN
  end.

(** [col and isinstance(col, str)]. *)
Definition rotulo_texto (col : cell) : bool :=
  match col with
  | Str s => negb (String.eqb s "")
  | _ => false
  end.

Definition padroes_metadados : list string :=
  ["SERVIÇO:"; "PERÍODO:"; "FONTE:"; "Para maiores informações";
   "ÍNDICE DE DESEMPENHO NO ATENDIMENTO"; "ANATEL"].

Section Extrator.
Variable upper : string -> string.
Variable contem : string -> string -> bool.

(** [dados[~dados[col].astype(str).str.contains(padrao, ...)]]. *)
Definition remover_padrao (rots : list cell) (col : cell)
    (dados : list (list cell)) (padrao : string) : list (list cell) :=
  List.filter (fun linha => negb (contem padrao (str (celula rots linha col))))
              dados.

Definition remover_metadados (rots : list cell) (dados : list (list cell))
  : list (list cell) :=
  fold_left
    (fun dados col =>
       if rotulo_texto col
       then fold_left (remover_padrao rots col) padroes_metadados dados
       else dados)
    rots dados.

(** [dados.dropna(how = 'all')]. *)
Definition dropna_all (dados : list (list cell)) : list (list cell) :=
  List.filter (fun linha => negb (forallb isna linha)) dados.

Definition extrair_dados_reais (df : Regiao) : Regiao :=
  let inicio_dados := encontrar_linha_inicio_dados upper (linhas df) in
  if (0 <? inicio_dados)%nat then
    let novos_cabecalhos := nth inicio_dados (linhas df) [] in
    let dados_reais := skipn (inicio_dados + 1) (linhas df) in
    mkRegiao novos_cabecalhos
      (dropna_all (remover_metadados novos_cabecalhos dados_reais))
  else df.
End Extrator.

(** *** [processar_arquivo_csv] and [processar_arquivo_ods], from the table
    read from the file on

    The frame handed on carries the labels as texts ([str(coluna)], which is
    how every later stage reads them).  The renaming uses a dict with the
    first two labels as keys, so the second entry wins when they are
    equal. *)



Section Processar.
Variable upper : string -> string.
Variable contem : string -> string -> bool.
Variable to_datetime : cell -> cell.


End Processar.

(** The reading of [case = False] on ASCII and accented Latin letters:
    the phrase occurs in the text once both are upper-cased. *)
Definition contem_latin (padrao texto : string) : bool :=
  Py.contains (upper_latin padrao) (upper_latin texto).

(** *** The catalogue: [identificar_servico], [extrair_ano_titulo],
    [extrair_urls_relevantes], and the routing of
    [processar_arquivo_individual] *)

(** [re.search(p, s)] for a pattern of fixed length: the text of the
    leftmost match. *)
Fixpoint take_chars (n : nat) (s : string) : string :=
  match n, s with
  | S n', String a s' => String a (take_chars n' s')
  | _, _ => EmptyString
  end.

Fixpoint re_search (p : list pat) (s : string) : option string :=
  if re_match p s then Some (take_chars (length p) s)
  else
    match s with
    | EmptyString => None
    | String _ s' => re_search p s'
    end.

(** [int(text)] for a text of digits. *)
Fixpoint int_digits (acc : nat) (s : string) : nat :=
  match s with
  | EmptyString => acc
  | String a s' => int_digits (10 * acc + digit_val a) s'
  end.

Definition extrair_ano_titulo (titulo : string) : option nat :=
  option_map (int_digits 0) (re_search [D; D; D; D] titulo).

(** One entry of the API's [recursos]; a key that is absent reads as the
    empty text ([recurso.get(key, '')]). *)
Record recurso : Type := mkRecurso {
  r_link : string;
  r_titulo : string;
  r_formato : string
}.

Record url_info : Type := mkUrlInfo {
  url : string;
  titulo : string;
  formato : string;
  ano : option nat;
  servico : string
}.

Inductive encaminhamento : Type :=
| SemConteudo            (* the download failed: None *)
| ParaODS                (* processar_arquivo_ods *)
| ParaCSV                (* processar_arquivo_csv *)
| NaoSuportado.          (* 'Formato não suportado': None *)

Section Catalogo.
Variable upper : string -> string.

Definition identificar_servico (titulo : string) : string :=
  let titulo_upper := upper titulo in
  if Py.contains "SCM" titulo_upper then "SCM"
  else if Py.contains "SMP" titulo_upper then "SMP"
  else if Py.contains "STFC" titulo_upper then "STFC"
  else "OUTROS".

Definition extrair_urls_passo (rec : recurso) : list url_info :=
  let link := r_link rec in
  let titulo := r_titulo rec in
  let formato := r_formato rec in
  if String.eqb link "" then []
  else
    let link_corrigido := Py.replace_char "\" "/" link in
    let titulo_upper := upper titulo in
    if existsb (fun servico => Py.contains servico titulo_upper)
               ["SCM"; "SMP"; "STFC"]
    then
      if Py.contains "ODS" (upper formato)
         || Py.contains ".ODS" (upper link_corrigido)
         || Py.contains ".CSV" (upper link_corrigido)
      then [mkUrlInfo link_corrigido titulo formato
              (extrair_ano_titulo titulo) (identificar_servico titulo)]
      else []
    else [].

Definition extrair_urls_relevantes (recursos : list recurso) : list url_info :=
  flat_map extrair_urls_passo recursos.

(** Which processor [processar_arquivo_individual] hands the content to;
    [baixou] tells whether [baixar_arquivo] returned a content. *)
Definition processar_arquivo_individual (baixou : bool) (info : url_info)
  : encaminhamento :=
  if negb baixou then SemConteudo
  else
    let url := upper (url info) in
    let formato := upper (formato info) in
    if Py.contains ".ODS" url || Py.contains "ODS" formato then ParaODS
    else if Py.contains ".CSV" url || Py.contains "CSV" formato then ParaCSV
    else NaoSuportado.
End Catalogo.

End Main.

(** ** The importer (src/connect_postgre.py) *)

Module ConnectPostgre.
Import Main.

(** *** The relational sink, as psycopg2 and PostgreSQL present it

    [create_connection] never turns autocommit on, so the first [execute]
    of a connection opens a transaction; PostgreSQL runs [DROP TABLE] and
    [CREATE TABLE] inside it like any other statement.  A connection is
    therefore the committed database together with the database as the
    open transaction sees it. *)

Inductive sqlval : Type :=
| SqlNull
| SqlTimestamp (year month : nat)
| SqlInt (n : Z)
| SqlFloat (repr : string)
| SqlText (s : string).

Global Instance sqlval_eq_dec : EqDecision sqlval.
Proof. solve_decision. Defined.

Record table : Type := mkTable {
  tcolumns : list string;          (* the column definitions, in order *)
  trows : list (list sqlval)
}.

Record connection : Type := mkConn {
  committed : gmap string table;
  working : gmap string table
}.

Definition connect (db : gmap string table) : connection := mkConn db db.

Definition commit (c : connection) : connection :=
  mkConn (working c) (working c).

Definition rollback (c : connection) : connection :=
  mkConn (committed c) (committed c).

(** [DROP TABLE IF EXISTS name CASCADE].  The database is modelled as its
    tables; the views and the constraints that CASCADE removes with the
    table are outside the model. *)
Definition execute_drop (name : string) (c : connection) : connection :=
  mkConn (committed c) (delete name (working c)).

Inductive dtype : Type :=
| int64 | float64 | bool_ | datetime64 | object.

Definition pandas_to_sql_type (d : dtype) : string :=
  match d with
  | int64 => "INTEGER"
  | float64 => "REAL"
  | bool_ => "BOOLEAN"
  | datetime64 => "TIMESTAMP"
  | object => "TEXT"
  end.

Definition type_mapping : gmap string string :=
  {[ "id" := "INTEGER PRIMARY KEY";
     "grupo_economico" := "TEXT";
     "servico" := "TEXT";
     "mes_referencia" := "DATE";
     "valor" := "DOUBLE PRECISION";
     "tipo_servico" := "TEXT" ]}.

(** The batch insert's per-value coercion, of each cell as its column holds
    it: that is how [iterrows] hands the cells of a row as soon as one
    column holds texts, which is the case of the file the collector
    writes. *)
Definition to_sql (val : cell) : sqlval :=
  if isna val then SqlNull
  else
    match val with
    | Ts y m => SqlTimestamp y m
    | Int n => SqlInt n
    | Flt r => SqlFloat r
    | _ => SqlText (str val)
    end.

Definition data_tuples (df : DataFrame) : list (list sqlval) :=
  map (map to_sql) (rows df).

Section Importer.
(** What the importer takes from its libraries and from the server:
    [str.lower], [pd.to_datetime(., errors = 'coerce')], the dtype pandas
    gave each column of the file, and the server's verdicts on a
    [CREATE TABLE] and on one row of an [INSERT]. *)
Variable lower : string -> string.
Variable to_datetime : cell -> cell.
Variable dtype_de : string -> dtype.
Variable ddl_ok : list string -> bool.
Variable accepts : table -> list sqlval -> bool.

Definition get_column_type_for_your_table (column_name : string) (d : dtype)
  : string :=
  let clean_col := Py.replace_char " " "_" (lower (Py.strip column_name)) in
  match type_mapping !! clean_col with
  | Some t => t
  | None => pandas_to_sql_type d
  end.

Definition normalizar_nome (col : string) : string :=
  lower (Py.replace_char "." "_"
           (Py.replace_char "-" "_" (Py.replace_char " " "_" col))).

Definition preprocess_dataframe (df : DataFrame) : DataFrame :=
  let df :=
    if Py.in_list "referencia_mes" (columns df)
    then apply_column to_datetime "referencia_mes" df else df in
  let df :=
    if Py.in_list "valor" (columns df)
    then apply_column (fun v => if eq_empty v then PyNone else v) "valor" df
    else df in
  mkDF (map normalizar_nome (columns df)) (rows df).

(** [CREATE TABLE name (...)]: fails when the server refuses the
    definition or the table exists. *)
Definition execute_create (name : string) (columns_def : list string)
    (c : connection) : option connection :=
  if ddl_ok columns_def then
    match working c !! name with
    | Some _ => None
    | None =>
        Some (mkConn (committed c)
                (<[ name := mkTable columns_def [] ]> (working c)))
    end
  else None.

(** [cursor.executemany(insert_query, data_tuples)]: row after row, and
    the first row the server refuses raises.  The table records each row
    as it was sent. *)
Fixpoint insert_rows (t : table) (tuples : list (list sqlval)) : option table :=
  match tuples with
  | [] => Some t
  | r :: tuples' =>
      if accepts t r
      then insert_rows (mkTable (tcolumns t) (trows t ++ [r])) tuples'
      else None
  end.

Definition executemany (name : string) (tuples : list (list sqlval))
    (c : connection) : option connection :=
  match working c !! name with
  | None => None
  | Some t =>
      match insert_rows t tuples with
      | None => None
      | Some t' => Some (mkConn (committed c) (<[ name := t' ]> (working c)))
      end
  end.

(** The loop that prepares the column definitions of [CREATE TABLE]. *)
Definition montar_columns_def (df : DataFrame) : list string :=
  map (fun col =>
         col +:+ " " +:+ get_column_type_for_your_table col (dtype_de col))
      (columns df).

(** [create_table_from_csv], from the frame [pd.read_csv] returned on a
    fresh connection to the database [db]: the outcome and the connection
    it leaves. *)
Definition create_table_from_csv (db : gmap string table) (df : DataFrame)
    (table_name : string) : bool * connection :=
  let conn := connect db in
  let df := preprocess_dataframe df in
  let columns_def := montar_columns_def df in
  let conn := execute_drop table_name conn in
  match execute_create table_name columns_def conn with
  | None => (false, rollback conn)
  | Some conn =>
      match executemany table_name (data_tuples df) conn with
      | None => (false, rollback conn)
      | Some conn => (true, commit conn)
      end
  end.
End Importer.

(** [str.lower] on ASCII letters. *)
Fixpoint lower_ascii (s : string) : string :=
  match s with
  | EmptyString => EmptyString
  | String a s' =>
      let n := nat_of_ascii a in
      String (if (65 <=? n)%nat && (n <=? 90)%nat
              then ascii_of_nat (n + 32) else a) (lower_ascii s')
  end.

(** A server's check, for the examples: the first column is the
    primary key, so a row is refused when its first value is NULL or is
    already in the table. *)
Definition chave_primaria (t : table) (r : list sqlval) : bool :=
  match r with
  | [] => false
  | SqlNull :: _ => false
  | k :: _ => negb (bool_decide (k ∈ map (hd SqlNull) (trows t)))
  end.

End ConnectPostgre.

(** ** The specification's own words, for comparison with the code *)

Module Spec.

(** Decimal trim of [integer.fraction]: strip the trailing zeros of the
    fraction, and drop the point when nothing is left of it. *)
Definition decimal_trim (integer fraction : string) : string :=
  let fraction' := Py.rstrip_zeros fraction in
  if String.eqb fraction' "" then integer
  else integer +:+ "." +:+ fraction'.

(** Locale coercion, step 3: the periods left of the last comma are
    thousands separators and go, that comma becomes the decimal point. *)
Fixpoint cut_last (c : ascii) (s : string) : option (string * string) :=
  match s with
  | EmptyString => None
  | String a s' =>
      match cut_last c s' with
      | Some (l, r) => Some (String a l, r)
      | None => if Ascii.eqb a c then Some (EmptyString, s') else None
      end
  end.

Definition comma_decimal (limpo : string) : string :=
  match cut_last "," limpo with
  | Some (l, r) => Py.remove_char "." l +:+ "." +:+ r
  | None => limpo
  end.

(** The consolidator's renaming of the semantic columns to their final
    published names. *)
Definition published_name (c : string) : string :=
  if String.eqb c "GRUPO_ECONOMICO" then "grupo_economico"
  else if String.eqb c "VARIAVEL" then "servico"
  else if String.eqb c "REFERENCIA_MES" then "mes_referencia"
  else if String.eqb c "VALOR" then "valor"
  else if String.eqb c "SERVICO" then "tipo_servico"
  else c.

(** The rows of a list, each at its first occurrence: the row at position
    [i] stays when no earlier position holds an equal row. *)
Definition primeiras_ocorrencias (l : list (list cell)) : list (list cell) :=
  flat_map
    (fun i =>
       match l !! i with
       | Some r => if decide (r ∈ take i l) then [] else [r]
       | None => []
       end)
    (seq 0 (length l)).

(** The last character of a text ([s[-1]]), when there is one. *)
Fixpoint last_char (s : string) : option ascii :=
  match s with
  | EmptyString => None
  | String a EmptyString => Some a
  | String _ s' => last_char s'
  end.

(** The characters of a canonical decimal text: digits and the period. *)
Definition decimal_char (a : ascii) : bool :=
  Py.is_digit a || Ascii.eqb a ".".

(** A column the loop of [limpar_valores_decimais] skips. *)
Definition coluna_ignorada (c : string) : bool :=
  Py.in_list c Main.colunas_identificacao
  || Main.re_match Main.re_ano_mes c.

(** What that loop does, at the column [c], to one row of a frame of
    labels [cols]. *)
Definition passo_linha (cols : list string) (r : list cell) (c : string)
  : list cell :=
  if coluna_ignorada c then r
  else match Main.index_of c cols with
       | Some i => Main.update_nth i Main.limpar_celula r
       | None => r
       end.

(** A row the extractor keeps when it strips the metadata: no metadata
    phrase in a column whose label is a text. *)
Definition sem_metadados (contem : string -> string -> bool)
    (rots : list cell) (linha : list cell) : bool :=
  forallb
    (fun col =>
       negb (Main.rotulo_texto col)
       || forallb
            (fun padrao =>
               negb (contem padrao (str (Main.celula rots linha col))))
            Main.padroes_metadados)
    rots.

End Spec.

(** * Facts about the text operations *)

Module PyFacts.
Import Py.

Lemma append_empty_r (s : string) : s +:+ "" = s.
Proof. induction s as [|a s IH]; simpl; [reflexivity | now rewrite IH]. Qed.

Lemma append_assoc (a b c : string) : (a +:+ b) +:+ c = a +:+ (b +:+ c).
Proof. induction a as [|x a IH]; simpl; [reflexivity | now rewrite IH]. Qed.

Lemma all_chars_app p (a b : string) :
  all_chars p (a +:+ b) = all_chars p a && all_chars p b.
Proof.
  induction a as [|x a IH]; simpl; [reflexivity |].
  rewrite IH. now rewrite andb_assoc.
Qed.

Lemma contains_char_app c (a b : string) :
  contains_char c (a +:+ b) = contains_char c a || contains_char c b.
Proof.
  induction a as [|x a IH]; simpl; [reflexivity |].
  rewrite IH. now rewrite orb_assoc.
Qed.

Lemma remove_char_app c (a b : string) :
  remove_char c (a +:+ b) = remove_char c a +:+ remove_char c b.
Proof.
  induction a as [|x a IH]; simpl; [reflexivity |].
  destruct (Ascii.eqb x c); simpl; now rewrite IH.
Qed.

Lemma remove_char_absent c (s : string) :
  contains_char c s = false -> remove_char c s = s.
Proof.
  induction s as [|x s IH]; simpl; [reflexivity |].
  destruct (Ascii.eqb x c); simpl; [discriminate |].
  intros H. now rewrite IH.
Qed.

Lemma contains_char_remove c (s : string) :
  contains_char c (remove_char c s) = false.
Proof.
  induction s as [|x s IH]; simpl; [reflexivity |].
  destruct (Ascii.eqb x c) eqn:E; simpl; [assumption |].
  now rewrite E.
Qed.

Lemma count_char_absent c (s : string) :
  contains_char c s = false <-> count_char c s = 0.
Proof.
  induction s as [|x s IH]; simpl; [tauto |].
  destruct (Ascii.eqb x c); simpl; [split; [discriminate | lia] | exact IH].
Qed.

Lemma count_char_app c (a b : string) :
  count_char c (a +:+ b) = count_char c a + count_char c b.
Proof. induction a as [|x a IH]; simpl; [reflexivity | rewrite IH; lia]. Qed.

(** A class of characters that excludes [c] excludes it from the text. *)
Lemma all_chars_absent p c (s : string) :
  p c = false -> all_chars p s = true -> contains_char c s = false.
Proof.
  intros Hc. induction s as [|x s IH]; simpl; [reflexivity |].
  intros [Hx Hs]%andb_true_iff.
  destruct (Ascii.eqb_spec x c) as [->|_]; [congruence | now apply IH].
Qed.

Lemma all_chars_impl (p q : ascii -> bool) (s : string) :
  (forall a, p a = true -> q a = true) ->
  all_chars p s = true -> all_chars q s = true.
Proof.
  intros Hpq. induction s as [|x s IH]; simpl; [reflexivity |].
  intros [Hx Hs]%andb_true_iff. rewrite (Hpq _ Hx). now apply IH.
Qed.

(** *** [split] *)

Lemma split_not_nil c (s : string) : split c s <> [].
Proof.
  induction s as [|x s IH]; simpl; [discriminate |].
  destruct (Ascii.eqb x c); [discriminate |].
  destruct (split c s); [contradiction | discriminate].
Qed.

Lemma split_absent c (s : string) :
  contains_char c s = false -> split c s = [s].
Proof.
  induction s as [|x s IH]; simpl; [reflexivity |].
  destruct (Ascii.eqb x c); simpl; [discriminate |].
  intros H. now rewrite IH.
Qed.

Lemma split_app c (a b : string) :
  contains_char c a = false ->
  split c (a +:+ String c b) = a :: split c b.
Proof.
  induction a as [|x a IH]; simpl.
  - intros _. now rewrite Ascii.eqb_refl.
  - destruct (Ascii.eqb x c); simpl; [discriminate |].
    intros H. now rewrite IH.
Qed.

(** A text that has [c] splits at the first one. *)
Lemma contains_char_cut c (s : string) :
  contains_char c s = true ->
  exists a b, s = a +:+ String c b /\ contains_char c a = false.
Proof.
  induction s as [|x s IH]; simpl; [discriminate |].
  destruct (Ascii.eqb_spec x c) as [->|Hne]; simpl.
  - intros _. now exists "", s.
  - intros (a & b & -> & Ha)%IH. exists (String x a), b. split; [reflexivity |].
    simpl. destruct (Ascii.eqb_spec x c); [contradiction | assumption].
Qed.

(** A text that has [c] has at least two pieces. *)
Lemma split_has_two c (s : string) :
  contains_char c s = true -> exists a b rest, split c s = a :: b :: rest.
Proof.
  intros (a & b & -> & Ha)%contains_char_cut.
  rewrite split_app by assumption.
  destruct (split c b) as [|p ps] eqn:E; [now apply split_not_nil in E |].
  now exists a, p, ps.
Qed.

Lemma split_length c (s : string) : length (split c s) = S (count_char c s).
Proof.
  induction s as [|x s IH]; simpl; [reflexivity |].
  destruct (Ascii.eqb x c); simpl; [now rewrite IH |].
  destruct (split c s) eqn:E; simpl in *; [discriminate | exact IH].
Qed.

Lemma split_pieces c (s : string) :
  Forall (fun p => contains_char c p = false) (split c s).
Proof.
  induction s as [|x s IH]; simpl; [now repeat constructor |].
  destruct (Ascii.eqb x c) eqn:E; [now constructor |].
  destruct (split c s) as [|p ps]; [now repeat constructor; simpl; rewrite E |].
  inversion IH; subst. constructor; [| assumption].
  simpl. now rewrite E.
Qed.

Lemma join_empty_split c (s : string) : join "" (split c s) = remove_char c s.
Proof.
  induction s as [|x s IH]; simpl; [reflexivity |].
  destruct (Ascii.eqb x c) eqn:E.
  - destruct (split c s) eqn:Es; [now apply split_not_nil in Es |].
    simpl in *. exact IH.
  - destruct (split c s) as [|p ps] eqn:Es; [now apply split_not_nil in Es |].
    rewrite <- IH. destruct ps; reflexivity.
Qed.

Lemma join_split c (s : string) : join (String c "") (split c s) = s.
Proof.
  induction s as [|x s IH]; simpl; [reflexivity |].
  destruct (Ascii.eqb_spec x c) as [->|Hne].
  - destruct (split c s) eqn:Es; [now apply split_not_nil in Es |].
    change (String c (join (String c "") (s0 :: l)) = String c s).
    now rewrite IH.
  - destruct (split c s) as [|p ps] eqn:Es; [now apply split_not_nil in Es |].
    rewrite <- IH. destruct ps; reflexivity.
Qed.

(** Two pieces: the text is the first, the separator, the second. *)
Lemma split_two c (s a b : string) :
  split c s = [a; b] -> s = a +:+ String c b.
Proof. intros H. rewrite <- (join_split c s), H. reflexivity. Qed.

(** *** [rstrip], [lstrip], [strip] *)

Lemma rstrip_by_empty p (s : string) :
  rstrip_by p s = "" <-> all_chars p s = true.
Proof.
  induction s as [|x s IH]; simpl; [tauto |].
  destruct (rstrip_by p s) eqn:E.
  - destruct (p x); simpl; [tauto |]. split; discriminate.
  - split; [discriminate |]. intros [_ H]%andb_true_iff.
    apply IH in H. discriminate.
Qed.

Lemma rstrip_by_fixed p (s : string) :
  rstrip_by p (rstrip_by p s) = rstrip_by p s.
Proof.
  induction s as [|x s IH]; simpl; [reflexivity |].
  destruct (rstrip_by p s) eqn:E.
  - destruct (p x) eqn:Ex; simpl; [reflexivity | now rewrite Ex].
  - simpl. simpl in IH. now rewrite IH.
Qed.

Lemma rstrip_by_tail p x (s : string) :
  rstrip_by p (String x s) = String x s -> rstrip_by p s = s.
Proof.
  simpl. destruct (rstrip_by p s) eqn:E.
  - destruct (p x); [discriminate | now intros [= <-]].
  - now intros [= <-].
Qed.

Lemma all_chars_rstrip q p (s : string) :
  all_chars q s = true -> all_chars q (rstrip_by p s) = true.
Proof.
  induction s as [|x s IH]; simpl; [reflexivity |].
  intros [Hx Hs]%andb_true_iff. specialize (IH Hs).
  destruct (rstrip_by p s) eqn:E.
  - destruct (p x); simpl; [reflexivity | now rewrite Hx].
  - simpl. simpl in IH. now rewrite Hx, IH.
Qed.

Lemma contains_char_rstrip c p (s : string) :
  contains_char c s = false -> contains_char c (rstrip_by p s) = false.
Proof.
  induction s as [|x s IH]; simpl; [reflexivity |].
  intros [Hx Hs]%orb_false_iff. specialize (IH Hs).
  destruct (rstrip_by p s) eqn:E.
  - destruct (p x); simpl; [reflexivity | now rewrite Hx].
  - simpl. simpl in IH. now rewrite Hx, IH.
Qed.

Lemma rstrip_by_clean p (s : string) :
  all_chars (fun a => negb (p a)) s = true -> rstrip_by p s = s.
Proof.
  induction s as [|x s IH]; simpl; [reflexivity |].
  intros [Hx Hs]%andb_true_iff. rewrite (IH Hs).
  destruct s; [| reflexivity].
  now apply negb_true_iff in Hx as ->.
Qed.

Lemma lstrip_by_fixed p (s : string) :
  lstrip_by p (lstrip_by p s) = lstrip_by p s.
Proof.
  induction s as [|x s IH]; simpl; [reflexivity |].
  destruct (p x) eqn:Ex; [assumption |]. simpl. now rewrite Ex.
Qed.

Lemma lstrip_by_clean p (s : string) :
  all_chars (fun a => negb (p a)) s = true -> lstrip_by p s = s.
Proof.
  destruct s as [|x s]; simpl; [reflexivity |].
  intros [Hx _]%andb_true_iff. now apply negb_true_iff in Hx as ->.
Qed.

(** Stripping on the left keeps a text stripped on the right. *)
Lemma rstrip_lstrip p (s : string) :
  rstrip_by p s = s -> rstrip_by p (lstrip_by p s) = lstrip_by p s.
Proof.
  induction s as [|x s IH]; [reflexivity |].
  intros H. cbn [lstrip_by]. destruct (p x); [| assumption].
  apply IH. now apply rstrip_by_tail in H.
Qed.

Lemma strip_fixed (s : string) : strip (strip s) = strip s.
Proof.
  unfold strip.
  rewrite (rstrip_lstrip is_space (rstrip_by is_space s)).
  - apply lstrip_by_fixed.
  - apply rstrip_by_fixed.
Qed.

Lemma strip_clean (s : string) :
  all_chars (fun a => negb (is_space a)) s = true -> strip s = s.
Proof.
  intros H. unfold strip. rewrite rstrip_by_clean by assumption.
  now apply lstrip_by_clean.
Qed.

(** Digits, the period and the comma are not white space. *)
Lemma numeric_not_space (a : ascii) :
  is_digit a || Ascii.eqb a "." || Ascii.eqb a "," = true ->
  negb (is_space a) = true.
Proof.
  destruct a as [[] [] [] [] [] [] [] []]; vm_compute; congruence.
Qed.

Lemma digit_not_space (a : ascii) :
  is_digit a = true -> negb (is_space a) = true.
Proof. intros H. apply numeric_not_space. now rewrite H. Qed.

Lemma strip_digits (s : string) : all_chars is_digit s = true -> strip s = s.
Proof.
  intros H. apply strip_clean.
  revert H. apply all_chars_impl, digit_not_space.
Qed.

Lemma isdigit_all (s : string) :
  isdigit s = true <-> s <> "" /\ all_chars is_digit s = true.
Proof.
  destruct s; simpl; [split; [discriminate | now intros [[] _]] |].
  split; [now split | tauto].
Qed.

End PyFacts.

(** * Decimal trim: [limpar_celula] and [limpar_valor_final] *)

Module TrimFacts.
Import Py PyFacts Main.

Lemma remove_char_empty c (s : string) :
  remove_char c s = "" <-> all_chars (fun a => Ascii.eqb a c) s = true.
Proof.
  induction s as [|x s IH]; simpl; [tauto |].
  destruct (Ascii.eqb x c); simpl; [exact IH | split; discriminate].
Qed.

Lemma removed_zeros_empty (f : string) :
  String.eqb (remove_char "0" f) "" = String.eqb (rstrip_zeros f) "".
Proof.
  destruct (String.eqb_spec (remove_char "0" f) "") as [H|H];
    destruct (String.eqb_spec (rstrip_zeros f) "") as [H'|H']; try reflexivity.
  - apply remove_char_empty in H. now apply rstrip_by_empty in H.
  - apply rstrip_by_empty in H'. now apply remove_char_empty in H'.
Qed.

(** The body of [limpar_celula], with its dead branch folded away. *)
Lemma limpar_celula_eq (v : cell) :
  isna v = false ->
  limpar_celula v =
    let t := strip (str v) in
    if contains_char "." t && isdigit (remove_char "." t) then
      match split "." t with
      | [i; f] => Str (Spec.decimal_trim i f)
      | _ => Str t
      end
    else Str t.
Proof.
  intros Hna. unfold limpar_celula. rewrite Hna. cbv zeta.
  destruct (contains_char "." (strip (str v)) && _); [| reflexivity].
  destruct (split "." (strip (str v))) as [|i [|f [|? ?]]]; try reflexivity.
  unfold Spec.decimal_trim. cbv zeta. rewrite removed_zeros_empty.
  now destruct (String.eqb (rstrip_zeros f) "").
Qed.

Lemma limpar_valor_final_eq (v : cell) :
  isna v = false -> eq_empty v = false ->
  limpar_valor_final v =
    let s := str v in
    if contains_char "." s then
      match split "." s with
      | i :: f :: _ => Str (Spec.decimal_trim i f)
      | _ => Str s
      end
    else Str s.
Proof.
  intros Hna He. unfold limpar_valor_final. rewrite Hna, He. cbv zeta. simpl.
  destruct (contains_char "." (str v)); [| reflexivity].
  destruct (split "." (str v)) as [|i [|f ?]]; try reflexivity.
  unfold Spec.decimal_trim. cbv zeta.
  now destruct (String.eqb (rstrip_zeros f) "").
Qed.

Lemma split_decimal (i f : string) :
  contains_char "." i = false -> contains_char "." f = false ->
  split "." (i +:+ "." +:+ f) = [i; f].
Proof.
  intros Hi Hf. change (i +:+ "." +:+ f) with (i +:+ String "." f).
  rewrite split_app by assumption. now rewrite split_absent.
Qed.

Lemma digits_no_point (s : string) :
  all_chars is_digit s = true -> contains_char "." s = false.
Proof. now apply all_chars_absent. Qed.

Lemma contains_point_decimal (i f : string) :
  contains_char "." (i +:+ "." +:+ f) = true.
Proof.
  change (i +:+ "." +:+ f) with (i +:+ String "." f).
  rewrite contains_char_app. simpl. now rewrite orb_true_r.
Qed.

Lemma remove_point_decimal (i f : string) :
  contains_char "." i = false -> contains_char "." f = false ->
  remove_char "." (i +:+ "." +:+ f) = i +:+ f.
Proof.
  intros Hi Hf. change (i +:+ "." +:+ f) with (i +:+ String "." f).
  rewrite remove_char_app. simpl.
  now rewrite !remove_char_absent by assumption.
Qed.

Lemma isdigit_app (i f : string) :
  all_chars is_digit i = true -> all_chars is_digit f = true ->
  i <> "" \/ f <> "" -> isdigit (i +:+ f) = true.
Proof.
  intros Hi Hf Hne. apply isdigit_all. split.
  - destruct i; simpl; [| discriminate]. now destruct Hne.
  - now rewrite all_chars_app, Hi, Hf.
Qed.

(** Digits, one period, digits (one side may be empty): trimmed. *)
Lemma limpar_celula_decimal (s i f : string) :
  strip s = i +:+ "." +:+ f ->
  all_chars is_digit i = true -> all_chars is_digit f = true ->
  i <> "" \/ f <> "" ->
  limpar_celula (Str s) = Str (Spec.decimal_trim i f).
Proof.
  intros Hs Hi Hf Hne. rewrite limpar_celula_eq by reflexivity.
  cbv zeta. cbn [str]. rewrite Hs.
  pose proof (digits_no_point _ Hi) as Hpi.
  pose proof (digits_no_point _ Hf) as Hpf.
  rewrite contains_point_decimal, remove_point_decimal by assumption.
  rewrite isdigit_app by assumption. cbn [andb].
  now rewrite split_decimal.
Qed.

(** What the test of [limpar_celula] says of a text of two pieces. *)
Lemma split_digits (t i f : string) :
  isdigit (remove_char "." t) = true -> split "." t = [i; f] ->
  t = i +:+ "." +:+ f
  /\ all_chars is_digit i = true /\ all_chars is_digit f = true
  /\ (i <> "" \/ f <> "").
Proof.
  intros Hd Hsp.
  pose proof (split_pieces "." t) as Hp. rewrite Hsp in Hp.
  inversion Hp as [|? ? Hpi Hp']; subst. inversion Hp' as [|? ? Hpf _]; subst.
  apply split_two in Hsp. change (i +:+ String "." f) with (i +:+ "." +:+ f) in Hsp.
  split; [assumption |]. rewrite Hsp in Hd.
  rewrite remove_point_decimal in Hd by assumption.
  apply isdigit_all in Hd as [Hne Hd]. rewrite all_chars_app in Hd.
  apply andb_true_iff in Hd as [Hi Hf]. repeat split; try assumption.
  destruct i; [right | left; discriminate].
  intros ->. now apply Hne.
Qed.

(** Any other text: returned without its surrounding white space. *)
Lemma limpar_celula_other (s : string) :
  (forall i f, strip s = i +:+ "." +:+ f ->
               all_chars is_digit i = true -> all_chars is_digit f = true ->
               i <> "" \/ f <> "" -> False) ->
  limpar_celula (Str s) = Str (strip s).
Proof.
  intros Hno. rewrite limpar_celula_eq by reflexivity. cbv zeta. cbn [str].
  destruct (contains_char "." (strip s) && isdigit (remove_char "." (strip s)))
    eqn:Hc; [| reflexivity].
  destruct (split "." (strip s)) as [|i [|f [|? ?]]] eqn:Hsp; try reflexivity.
  exfalso. apply andb_true_iff in Hc as [_ Hd].
  destruct (split_digits _ _ _ Hd Hsp) as (Ht & Hi & Hf & Hne).
  exact (Hno i f Ht Hi Hf Hne).
Qed.

(** One period: the zeros after it are trimmed, whatever the characters. *)
Lemma limpar_valor_final_decimal (i f : string) :
  contains_char "." i = false -> contains_char "." f = false ->
  limpar_valor_final (Str (i +:+ "." +:+ f)) = Str (Spec.decimal_trim i f).
Proof.
  intros Hi Hf. rewrite limpar_valor_final_eq; [| reflexivity |].
  - cbv zeta. cbn [str].
    now rewrite contains_point_decimal, split_decimal.
  - simpl. destruct i; reflexivity.
Qed.

Lemma limpar_valor_final_plain (s : string) :
  contains_char "." s = false -> limpar_valor_final (Str s) = Str s.
Proof.
  intros Hs. destruct s as [|a s]; [reflexivity |].
  rewrite limpar_valor_final_eq by reflexivity.
  cbv zeta. cbn [str]. now rewrite Hs.
Qed.

(** *** Idempotence *)

Lemma limpar_celula_stripped (v : cell) :
  isna v = false -> limpar_celula (Str (strip (str v))) = limpar_celula v.
Proof.
  intros Hna. rewrite (limpar_celula_eq v Hna).
  rewrite limpar_celula_eq by reflexivity.
  cbv zeta. cbn [str]. now rewrite strip_fixed.
Qed.

Lemma numeric_decimal_clean (i d : string) :
  all_chars is_digit i = true -> all_chars is_digit d = true ->
  strip (i +:+ "." +:+ d) = i +:+ "." +:+ d.
Proof.
  intros Hi Hd. apply strip_clean.
  change (i +:+ "." +:+ d) with (i +:+ String "." d).
  rewrite all_chars_app. simpl.
  rewrite (all_chars_impl is_digit _ i digit_not_space Hi).
  now rewrite (all_chars_impl is_digit _ d digit_not_space Hd).
Qed.

Lemma decimal_trim_fixed (i d : string) :
  rstrip_zeros d <> "" ->
  Spec.decimal_trim i (rstrip_zeros d) = i +:+ "." +:+ rstrip_zeros d.
Proof.
  intros Hd. unfold Spec.decimal_trim, rstrip_zeros in *. cbv zeta.
  rewrite rstrip_by_fixed.
  now destruct (String.eqb_spec (rstrip_by (fun a => Ascii.eqb a "0") d) "").
Qed.

Lemma limpar_celula_idem (v : cell) :
  limpar_celula (limpar_celula v) = limpar_celula v.
Proof.
  destruct (isna v) eqn:Hna.
  { assert (limpar_celula v = v) as ->; [| unfold limpar_celula; now rewrite Hna].
    unfold limpar_celula. now rewrite Hna. }
  pose proof (limpar_celula_eq v Hna) as E. cbv zeta in E.
  destruct (contains_char "." (strip (str v))
            && isdigit (remove_char "." (strip (str v)))) eqn:Hc.
  2: { rewrite E at 1. rewrite limpar_celula_stripped by assumption.
       now rewrite E. }
  destruct (split "." (strip (str v))) as [|i [|f [|? ?]]] eqn:Hsp;
    try (rewrite E at 1; rewrite limpar_celula_stripped by assumption;
         now rewrite E).
  apply andb_true_iff in Hc as [_ Hd].
  destruct (split_digits _ _ _ Hd Hsp) as (Ht & Hi & Hf & _).
  rewrite E. unfold Spec.decimal_trim. cbv zeta.
  destruct (String.eqb_spec (rstrip_zeros f) "") as [Hz|Hz].
  - rewrite limpar_celula_other; cbn [str]; rewrite strip_digits by assumption;
      [reflexivity |].
    intros i' f' Hif _ _ _. apply (f_equal (contains_char ".")) in Hif.
    rewrite contains_point_decimal, digits_no_point in Hif by assumption.
    discriminate.
  - assert (all_chars is_digit (rstrip_zeros f) = true) as Hf'
      by now apply all_chars_rstrip.
    rewrite (limpar_celula_decimal _ i (rstrip_zeros f)); try assumption.
    + now rewrite decimal_trim_fixed.
    + now apply numeric_decimal_clean.
    + now right.
Qed.

Lemma limpar_valor_final_idem (v : cell) :
  limpar_valor_final (limpar_valor_final v) = limpar_valor_final v.
Proof.
  destruct (isna v || eq_empty v) eqn:Hna.
  { unfold limpar_valor_final at 2. rewrite Hna.
    unfold limpar_valor_final. now rewrite Hna. }
  apply orb_false_iff in Hna as [Hna He].
  rewrite (limpar_valor_final_eq v Hna He). cbv zeta.
  destruct (contains_char "." (str v)) eqn:Hc;
    [| now apply limpar_valor_final_plain].
  destruct (contains_char_cut _ _ Hc) as (a & b & Hab & Ha).
  rewrite Hab, split_app by assumption.
  destruct (split "." b) as [|f rest] eqn:Hsp; [now apply split_not_nil in Hsp |].
  assert (contains_char "." f = false) as Hf.
  { pose proof (split_pieces "." b) as Hp. rewrite Hsp in Hp.
    now inversion Hp. }
  unfold Spec.decimal_trim. cbv zeta.
  destruct (String.eqb_spec (rstrip_zeros f) "") as [Hz|Hz].
  - now apply limpar_valor_final_plain.
  - rewrite limpar_valor_final_decimal; [now rewrite decimal_trim_fixed | |];
      [assumption | now apply contains_char_rstrip].
Qed.

End TrimFacts.

(** * Locale coercion: [converter_para_numero] *)

Module CoerceFacts.
Import Py PyFacts Main.

(** Every sentinel is made of characters the cleaning removes. *)
Lemma invalidos_limpo (t : string) :
  in_list t valores_invalidos = true -> valor_limpo_de t = "".
Proof.
  unfold in_list, valores_invalidos. simpl. intros H.
  repeat (apply orb_true_iff in H as [H|H];
          [apply String.eqb_eq in H; subst; reflexivity |]).
  discriminate.
Qed.

(** The source's [try] block, with its dead branch folded away. *)
Lemma formatar_valor_limpo_eq (limpo : string) :
  formatar_valor_limpo limpo =
    if contains_char "," limpo then
      if contains_char "." limpo then
        Str (remove_char "." (hd "" (split "," limpo))
             +:+ "." +:+ nth 1 (split "," limpo) "")
      else Str (replace_char "," "." limpo)
    else if contains_char "." limpo then
      if (2 <? length (split "." limpo))%nat then Str (remove_char "." limpo)
      else Str limpo
    else Str limpo.
Proof.
  unfold formatar_valor_limpo. cbv zeta.
  destruct (contains_char "," limpo) eqn:Hc.
  - destruct (contains_char "." _); [| reflexivity].
    rewrite split_length.
    apply not_false_iff_true in Hc.
    rewrite count_char_absent in Hc.
    destruct (count_char "," _); [congruence | reflexivity].
  - destruct (contains_char "." _); [| reflexivity].
    now rewrite join_empty_split.
Qed.

(** [converter_para_numero] on a text is that block on the cleaned text:
    the sentinel test and the emptiness test are special cases of it. *)
Lemma converter_para_numero_limpo (s : string) :
  converter_para_numero (Str s)
  = formatar_valor_limpo (valor_limpo_de (strip s)).
Proof.
  unfold converter_para_numero. cbn [isna str]. cbv zeta.
  destruct (in_list (strip s) valores_invalidos) eqn:Hinv.
  { now rewrite (invalidos_limpo _ Hinv). }
  destruct (String.eqb_spec (valor_limpo_de (strip s)) "") as [->|_];
    reflexivity.
Qed.

(** The body of [converter_para_numero] as a function of the cleaned
    text. *)
Lemma converter_para_numero_eq (s : string) :
  converter_para_numero (Str s) =
    let limpo := valor_limpo_de (strip s) in
    if contains_char "," limpo then
      if contains_char "." limpo then
        Str (remove_char "." (hd "" (split "," limpo))
             +:+ "." +:+ nth 1 (split "," limpo) "")
      else Str (replace_char "," "." limpo)
    else if contains_char "." limpo then
      if (2 <? length (split "." limpo))%nat then Str (remove_char "." limpo)
      else Str limpo
    else Str limpo.
Proof.
  rewrite converter_para_numero_limpo. apply formatar_valor_limpo_eq.
Qed.

Lemma strip_blank (s : string) : all_chars is_space s = true -> strip s = "".
Proof.
  intros H. unfold strip. now apply rstrip_by_empty in H as ->.
Qed.

Lemma keep_chars_all p (s : string) :
  all_chars p s = true -> keep_chars p s = s.
Proof.
  induction s as [|a s IH]; simpl; [reflexivity |].
  intros [Ha Hs]%andb_true_iff. now rewrite Ha, IH.
Qed.

Lemma cut_last_app c (a b : string) :
  contains_char c b = false ->
  Spec.cut_last c (a +:+ String c b) = Some (a, b).
Proof.
  intros Hb.
  assert (Spec.cut_last c b = None) as Hnone.
  { clear a. induction b as [|x b IH]; simpl in *; [reflexivity |].
    apply orb_false_iff in Hb as [Hx Hb]. now rewrite IH, Hx. }
  induction a as [|x a IH]; simpl.
  - now rewrite Hnone, Ascii.eqb_refl.
  - now rewrite IH.
Qed.

End CoerceFacts.

(** * The header locator *)

Module LocatorFacts.
Import Main.

Section Percorrer.
Variable upper : string -> string.

(** The scan answers the position of the first row with the marker. *)
Lemma percorrer_first (linhas : list (list cell)) :
  forall (idx i : nat) (linha : list cell),
    linhas !! i = Some linha ->
    tem_marcador upper linha = true ->
    (forall j l, j < i -> linhas !! j = Some l -> tem_marcador upper l = false) ->
    percorrer upper idx linhas = Some (idx + i).
Proof.
  induction linhas as [|l0 linhas IH]; intros idx i linha Hi Hm Hbefore.
  - discriminate.
  - destruct i as [|i]; simpl in *.
    + injection Hi as ->. rewrite Hm. f_equal. lia.
    + rewrite (Hbefore 0 l0) by (reflexivity || lia).
      rewrite (IH (S idx) i linha Hi Hm); [f_equal; lia |].
      intros j l Hj Hl. apply (Hbefore (S j) l); [lia | exact Hl].
Qed.

Lemma percorrer_none (linhas : list (list cell)) :
  forall idx : nat,
    (forall linha, In linha linhas -> tem_marcador upper linha = false) ->
    percorrer upper idx linhas = None.
Proof.
  induction linhas as [|l0 linhas IH]; intros idx Hall; [reflexivity |].
  simpl. rewrite (Hall l0) by now left.
  apply IH. intros linha Hin. apply Hall. now right.
Qed.
End Percorrer.

(** *** [upper_latin] goes through a text letter by letter *)

Lemma upper_latin_cons (x : ascii) (s : string) :
  nat_of_ascii x <> 195 ->
  upper_latin (String x s) = String (upper_ascii x) (upper_latin s).
Proof.
  intros Hx. cbn [upper_latin]. destruct s as [|y s]; [reflexivity |].
  apply Nat.eqb_neq in Hx. now rewrite Hx.
Qed.

Lemma is_ascii_not_195 (x : ascii) :
  Py.is_ascii x = true -> nat_of_ascii x <> 195.
Proof. unfold Py.is_ascii. intros H%Nat.ltb_lt. lia. Qed.

(** A two-byte letter is turned into a two-byte letter, whatever
    follows. *)
Lemma upper_latin_195 (y : ascii) :
  nat_of_ascii y <= 190 ->
  exists y', forall t,
    upper_latin (String (ascii_of_nat 195) (String y t))
    = String (ascii_of_nat 195) (String y' (upper_latin t)).
Proof.
  intros Hle.
  exists (if (160 <=? nat_of_ascii y)%nat && (nat_of_ascii y <=? 190)%nat
             && negb (nat_of_ascii y =? 183)%nat
          then ascii_of_nat (nat_of_ascii y - 32) else upper_ascii y).
  intros t.
  change (upper_latin (String (ascii_of_nat 195) (String y t)))
    with (if (nat_of_ascii (ascii_of_nat 195) =? 195)%nat
             && (160 <=? nat_of_ascii y)%nat && (nat_of_ascii y <=? 190)%nat
             && negb (nat_of_ascii y =? 183)%nat
          then String (ascii_of_nat 195)
                 (String (ascii_of_nat (nat_of_ascii y - 32)) (upper_latin t))
          else String (upper_ascii (ascii_of_nat 195))
                 (upper_latin (String y t))).
  change ((nat_of_ascii (ascii_of_nat 195) =? 195)%nat) with true.
  cbn [andb].
  destruct ((160 <=? nat_of_ascii y)%nat && (nat_of_ascii y <=? 190)%nat
            && negb (nat_of_ascii y =? 183)%nat); [reflexivity |].
  rewrite upper_latin_cons by lia. reflexivity.
Qed.

Lemma texto_latino_app (a b : string) :
  texto_latino a = true -> texto_latino (a +:+ b) = texto_latino b.
Proof.
  remember (String.length a) as n eqn:Hn.
  revert a Hn. induction n as [n IH] using lt_wf_ind. intros a Hn Ha.
  destruct a as [|x a]; [reflexivity |].
  cbn [texto_latino] in Ha.
  change (String x a +:+ b) with (String x (a +:+ b)). cbn [texto_latino].
  destruct (Py.is_ascii x).
  - apply (IH (String.length a)); [subst n; simpl; lia | reflexivity | exact Ha].
  - destruct a as [|y a]; [discriminate |].
    change (String y a +:+ b) with (String y (a +:+ b)). cbv zeta in *.
    apply andb_true_iff in Ha as [Ha Hl]. rewrite Ha. cbn [andb].
    apply (IH (String.length a)); [subst n; simpl; lia | reflexivity | exact Hl].
Qed.

(** On a Latin text followed by any text, the upper case of the whole is
    the upper case of the parts. *)
Lemma upper_latin_app (a b : string) :
  texto_latino a = true ->
  upper_latin (a +:+ b) = upper_latin a +:+ upper_latin b.
Proof.
  remember (String.length a) as n eqn:Hn.
  revert a Hn. induction n as [n IH] using lt_wf_ind. intros a Hn Ha.
  destruct a as [|x a]; [reflexivity |].
  cbn [texto_latino] in Ha. destruct (Py.is_ascii x) eqn:Hx.
  - change (String x a +:+ b) with (String x (a +:+ b)).
    rewrite !upper_latin_cons by now apply is_ascii_not_195.
    change (String ?c ?u +:+ ?v) with (String c (u +:+ v)). f_equal.
    apply (IH (String.length a)); [subst n; simpl; lia | reflexivity | exact Ha].
  - destruct a as [|y a]; [discriminate |].
    apply andb_true_iff in Ha as [Ha Hl]. apply andb_true_iff in Ha as [Ha _].
    apply andb_true_iff in Ha as [Ha Hle]. apply andb_true_iff in Ha as [Hc _].
    apply Nat.eqb_eq in Hc. apply Nat.leb_le in Hle.
    assert (x = ascii_of_nat 195) as ->
      by (rewrite <- Hc; symmetry; apply ascii_nat_embedding).
    change (String (ascii_of_nat 195) (String y a) +:+ b)
      with (String (ascii_of_nat 195) (String y (a +:+ b))).
    destruct (upper_latin_195 y Hle) as [y' E]. rewrite !E.
    change (String ?c (String ?d ?u) +:+ ?v) with (String c (String d (u +:+ v))).
    do 2 f_equal.
    apply (IH (String.length a)); [subst n; simpl; lia | reflexivity | exact Hl].
Qed.

(** *** [in] on texts *)

Lemma prefix_app (m y : string) : String.prefix m (m +:+ y) = true.
Proof.
  induction m as [|c m IH]; simpl; [now destruct y |].
  destruct (ascii_dec c c); [exact IH | contradiction].
Qed.

Lemma contains_prefix (m s : string) :
  String.prefix m s = true -> Py.contains m s = true.
Proof. intros H. destruct s; simpl in *; now rewrite H. Qed.

Lemma contains_app_r (m x z : string) :
  Py.contains m z = true -> Py.contains m (x +:+ z) = true.
Proof.
  intros H. induction x as [|c x IH]; [exact H |].
  change (String c x +:+ z) with (String c (x +:+ z)).
  cbn [Py.contains]. rewrite IH. apply orb_true_r.
Qed.

Lemma contains_middle (m x y : string) :
  Py.contains m (x +:+ m +:+ y) = true.
Proof. apply contains_app_r, contains_prefix, prefix_app. Qed.

End LocatorFacts.

(** * Frames: labels, positions, columns *)

Module FrameFacts.
Import Py Main.

Lemma in_list_In (x : string) (l : list string) :
  in_list x l = true <-> In x l.
Proof.
  unfold in_list. rewrite existsb_exists. split.
  - intros (y & Hy & Heq). apply String.eqb_eq in Heq. now subst.
  - intros Hx. exists x. split; [assumption | apply String.eqb_refl].
Qed.

Lemma in_list_not_In (x : string) (l : list string) :
  in_list x l = false <-> ~ In x l.
Proof.
  rewrite <- in_list_In. destruct (in_list x l); split; congruence.
Qed.

(** [re.match] looks at the start only: a longer pattern matches less. *)
Lemma re_match_prefix (p q : list pat) (s : string) :
  re_match (p ++ q) s = true -> re_match p s = true.
Proof.
  revert s. induction p as [|x p IH]; intros s; simpl; [reflexivity |].
  destruct s as [|a s]; [discriminate |].
  intros [Hx Hs]%andb_true_iff. rewrite Hx. now apply IH.
Qed.

Lemma timestamp_is_ano_mes (s : string) :
  re_match re_timestamp s = true -> re_match re_ano_mes s = true.
Proof.
  change re_timestamp with
    (re_ano_mes ++ [L "-"; D; D; L " "; D; D; L ":"; D; D; L ":"; D; D]).
  apply re_match_prefix.
Qed.

(** The second branch of the loop of [normalizar_colunas_data] is never
    taken: each step leaves the frame as it is. *)
Lemma normalizar_passo_id (df : DataFrame) (coluna : string) :
  normalizar_passo df coluna = df.
Proof.
  unfold normalizar_passo. cbv zeta.
  destruct (re_match re_ano_mes coluna) eqn:Ham; [reflexivity |].
  destruct (re_match re_timestamp coluna) eqn:Hts; [| reflexivity].
  apply timestamp_is_ano_mes in Hts. congruence.
Qed.

Lemma normalizar_colunas_data_id (df : DataFrame) :
  normalizar_colunas_data df = df.
Proof.
  unfold normalizar_colunas_data. generalize (columns df) as cols.
  induction cols as [|c cols IH]; simpl; [reflexivity |].
  now rewrite normalizar_passo_id.
Qed.

(** *** Positions of labels *)

Lemma index_of_None (c : string) (cols : list string) :
  index_of c cols = None <-> ~ In c cols.
Proof.
  induction cols as [|x cols IH]; simpl; [tauto |].
  destruct (String.eqb_spec x c) as [->|Hne].
  - split; [discriminate | intros H; exfalso; apply H; now left].
  - destruct (index_of c cols); simpl.
    + split; [discriminate |]. intros H.
      assert (~ In c cols) as Hc by tauto. apply IH in Hc. discriminate.
    + split; [| reflexivity]. intros _ [H|H]; [congruence | now apply IH].
Qed.

Lemma index_of_app_r (c : string) (l1 l2 : list string) :
  ~ In c l1 ->
  index_of c (l1 ++ l2) = option_map (fun i => length l1 + i) (index_of c l2).
Proof.
  induction l1 as [|x l1 IH]; simpl; intros Hc.
  - now destruct (index_of c l2).
  - destruct (String.eqb_spec x c) as [->|_]; [exfalso; apply Hc; now left |].
    rewrite IH by tauto. now destruct (index_of c l2).
Qed.

Lemma index_of_app_None (c : string) (l1 l2 : list string) :
  ~ In c l1 -> ~ In c l2 -> index_of c (l1 ++ l2) = None.
Proof.
  intros H1 H2. apply index_of_None. rewrite in_app_iff. tauto.
Qed.

Lemma update_nth_app (f : cell -> cell) (l1 l2 : list cell) (i : nat) :
  update_nth (length l1 + i) f (l1 ++ l2) = l1 ++ update_nth i f l2.
Proof. induction l1 as [|x l1 IH]; simpl; [reflexivity | now rewrite IH]. Qed.

Lemma update_nth_length (f : cell -> cell) (i : nat) (r : list cell) :
  length (update_nth i f r) = length r.
Proof.
  revert i. induction r as [|x r IH]; intros [|i]; simpl; auto.
Qed.

Lemma map_flat_map {A B C : Type} (g : B -> C) (h : A -> list B) (l : list A) :
  map g (flat_map h l) = flat_map (fun x => map g (h x)) l.
Proof.
  induction l as [|x l IH]; simpl; [reflexivity |].
  now rewrite map_app, IH.
Qed.


(** *** The classification of the labels *)

Lemma classificar_id_In (c : string) (cols : list string) :
  In c (classificar_id cols) -> In c colunas_identificacao.
Proof.
  unfold classificar_id. intros [_ H]%filter_In. now apply in_list_In.
Qed.

Lemma not_id_label (c : string) (cols : list string) :
  ~ In c colunas_identificacao -> ~ In c (classificar_id cols).
Proof. intros H Hin. apply H. eapply classificar_id_In, Hin. Qed.

(** *** The reshaper on a frame [melt] accepts *)

Section ReshaperFacts.
Variable to_datetime : cell -> cell.

Lemma transformar_fallback (df : DataFrame) (servico : string) :
  In "VALOR" (columns df) ->
  transformar_para_formato_longo to_datetime df servico
  = set_column "SERVICO" (Str servico) df.
Proof.
  intros HV. unfold transformar_para_formato_longo, melt. cbv zeta.
  apply in_list_In in HV. rewrite HV.
  now destruct (_ || _).
Qed.

Lemma transformar_melted (df : DataFrame) (servico : string) :
  ~ In "VALOR" (columns df) ->
  classificar_id (columns df) <> [] ->
  classificar_data (columns df) <> [] ->
  transformar_para_formato_longo to_datetime df servico
  = mkDF (classificar_id (columns df) ++ ["REFERENCIA_MES"; "VALOR"; "SERVICO"])
      (flat_map
         (fun d =>
            map (fun r =>
                   map (get_cell (columns df) r) (classificar_id (columns df))
                   ++ [to_datetime (Str d);
                       converter_para_numero (get_cell (columns df) r d);
                       Str servico])
                (rows df))
         (classificar_data (columns df))).
Proof.
  intros HV Hid Hdata.
  unfold transformar_para_formato_longo, melt. cbv zeta.
  destruct (classificar_id (columns df)) as [|i0 ids0] eqn:Eid;
    [congruence |].
  destruct (classificar_data (columns df)) as [|d0 ds0] eqn:Edata;
    [congruence |].
  rewrite <- Eid, <- Edata. rewrite Eid at 1. rewrite Edata at 1.
  cbn [length Nat.eqb orb].
  apply in_list_not_In in HV. rewrite HV.
  set (ids := classificar_id (columns df)).
  set (datas := classificar_data (columns df)).
  assert (~ In "REFERENCIA_MES" ids) as HnR.
  { apply not_id_label. vm_compute. intuition discriminate. }
  assert (~ In "VALOR" ids) as HnV.
  { apply not_id_label. vm_compute. intuition discriminate. }
  assert (~ In "SERVICO" ids) as HnS.
  { apply not_id_label. vm_compute. intuition discriminate. }
  unfold apply_column at 2. cbn [columns rows].
  rewrite (index_of_app_r "REFERENCIA_MES" ids) by assumption.
  cbn [index_of String.eqb Ascii.eqb Bool.eqb option_map].
  unfold set_column. cbn [columns rows].
  rewrite (index_of_app_None "SERVICO" ids)
    by (assumption || (vm_compute; intuition discriminate)).
  unfold apply_column. cbn [columns rows].
  rewrite <- app_assoc.
  rewrite (index_of_app_r "VALOR" ids) by assumption.
  cbn [app].
  replace (index_of "VALOR" ["REFERENCIA_MES"; "VALOR"; "SERVICO"])
    with (Some 1) by reflexivity.
  cbn [option_map]. f_equal.
  rewrite !map_map, map_flat_map.
  apply flat_map_ext. intros d. rewrite map_map.
  apply map_ext. intros r.
  set (idvals := map (get_cell (columns df) r) ids).
  assert (length ids = length idvals) as ->
    by (unfold idvals; now rewrite length_map).
  rewrite update_nth_app. cbn [update_nth].
  rewrite <- app_assoc. rewrite update_nth_app. reflexivity.
Qed.
End ReshaperFacts.

End FrameFacts.

(** * The consolidator: concat, drop_duplicates, insert, select *)

Module ConsolidarFacts.
Import Py Main FrameFacts.

(** *** The union of the labels has no duplicate *)

Lemma add_label_NoDup (acc : list string) (c : string) :
  List.NoDup acc -> List.NoDup (add_label acc c).
Proof.
  intros Hacc. unfold add_label. destruct (in_list c acc) eqn:E; [assumption |].
  apply in_list_not_In in E. apply List.NoDup_app; [assumption | |].
  - constructor; [simpl; tauto | constructor].
  - intros a Ha [<-|[]]. contradiction.
Qed.

Lemma fold_add_label_NoDup (cols acc : list string) :
  List.NoDup acc -> List.NoDup (fold_left add_label cols acc).
Proof.
  revert acc. induction cols as [|c cols IH]; intros acc Hacc; simpl;
    [assumption |].
  now apply IH, add_label_NoDup.
Qed.

Lemma union_columns_NoDup (dfs : list DataFrame) :
  List.NoDup (union_columns dfs).
Proof.
  unfold union_columns.
  assert (forall acc, List.NoDup acc ->
            List.NoDup (fold_left
              (fun acc df => fold_left add_label (columns df) acc) dfs acc)) as H.
  { induction dfs as [|df dfs IH]; intros acc Hacc; simpl; [assumption |].
    now apply IH, fold_add_label_NoDup. }
  apply H. constructor.
Qed.

(** *** [drop_duplicates] keeps the first of equal rows, in order *)

Lemma keep_first_sublist (l seen : list (list cell)) :
  sublist (keep_first seen l) l.
Proof.
  revert seen. induction l as [|r l IH]; intros seen; simpl; [constructor |].
  destruct (decide (r ∈ seen)); [apply sublist_cons | apply sublist_skip];
    apply IH.
Qed.

Lemma keep_first_In (l seen : list (list cell)) (r : list cell) :
  In r (keep_first seen l) <-> In r l /\ ~ In r seen.
Proof.
  revert seen. induction l as [|x l IH]; intros seen; simpl; [tauto |].
  destruct (decide (x ∈ seen)) as [Hx|Hx]; rewrite list_elem_of_In in Hx.
  - rewrite IH. split; [tauto |]. intros [[<-|H] Hs]; tauto.
  - simpl. rewrite IH. simpl. split.
    + intros [<-|[H Hs]]; tauto.
    + intros [[<-|H] Hs]; [tauto |].
      destruct (decide (x = r)) as [->|Hne]; [tauto |]. right. tauto.
Qed.

Lemma keep_first_NoDup (l seen : list (list cell)) :
  List.NoDup (keep_first seen l).
Proof.
  revert seen. induction l as [|x l IH]; intros seen; simpl; [constructor |].
  destruct (decide (x ∈ seen)); [apply IH |].
  constructor; [| apply IH].
  rewrite keep_first_In. simpl. tauto.
Qed.

(** [keep_first] keeps the row at a position exactly when no earlier
    position (and no row seen before) holds an equal row. *)
Lemma keep_first_posicoes (l seen : list (list cell)) :
  keep_first seen l
  = flat_map
      (fun i =>
         match l !! i with
         | Some r => if decide (r ∈ seen ++ take i l) then [] else [r]
         | None => []
         end)
      (seq 0 (length l)).
Proof.
  revert seen. induction l as [|x l IH]; intros seen; [reflexivity |].
  cbn [keep_first length seq flat_map]. rewrite <- seq_shift, flat_map_concat_map.
  rewrite map_map, <- flat_map_concat_map.
  cbn [lookup list_lookup take]. rewrite app_nil_r.
  destruct (decide (x ∈ seen)) as [Hx|Hx].
  - cbn [app]. rewrite IH. apply flat_map_ext. intros i.
    cbn [lookup list_lookup take].
    destruct (l !! i) as [r|]; [| reflexivity].
    destruct (decide (r ∈ seen ++ take i l)) as [H|H];
      destruct (decide (r ∈ seen ++ x :: take i l)) as [H'|H'];
      try reflexivity; exfalso.
    + apply H'. rewrite elem_of_app, elem_of_cons.
      rewrite elem_of_app in H. tauto.
    + apply H. rewrite elem_of_app.
      rewrite elem_of_app, elem_of_cons in H'.
      destruct H' as [H'|[->|H']]; tauto.
  - cbn [app]. f_equal. rewrite IH. apply flat_map_ext. intros i.
    cbn [lookup list_lookup take].
    destruct (l !! i) as [r|]; [| reflexivity].
    destruct (decide (r ∈ (x :: seen) ++ take i l)) as [H|H];
      destruct (decide (r ∈ seen ++ x :: take i l)) as [H'|H'];
      try reflexivity; exfalso.
    + apply H'. rewrite elem_of_app, elem_of_cons.
      rewrite elem_of_app, elem_of_cons in H. tauto.
    + apply H. rewrite elem_of_app, elem_of_cons.
      rewrite elem_of_app, elem_of_cons in H'. tauto.
Qed.

Lemma drop_duplicates_primeiras (df : DataFrame) :
  rows (drop_duplicates df) = Spec.primeiras_ocorrencias (rows df).
Proof. unfold drop_duplicates. cbn [rows]. apply keep_first_posicoes. Qed.

(** *** Cells by label *)

Lemma index_of_nth (c : string) (cols : list string) :
  forall k, index_of c cols = Some k -> nth k cols "" = c /\ k < length cols.
Proof.
  induction cols as [|x cols IH]; simpl; intros k; [discriminate |].
  destruct (String.eqb_spec x c) as [->|Hne].
  - intros [= <-]. split; [reflexivity | lia].
  - destruct (index_of c cols) as [k'|]; simpl; [| discriminate].
    intros [= <-]. destruct (IH k' eq_refl). split; [assumption | lia].
Qed.

Lemma index_of_In (c : string) (cols : list string) :
  In c cols -> exists k, index_of c cols = Some k.
Proof.
  intros Hin. destruct (index_of c cols) as [k|] eqn:E; [now exists k |].
  now apply index_of_None in E.
Qed.

(** Distinct labels sit at distinct positions. *)
Lemma index_of_inj (c c' : string) (cols : list string) (k : nat) :
  index_of c cols = Some k -> index_of c' cols = Some k -> c = c'.
Proof.
  intros H H'. apply index_of_nth in H as [<- _].
  now apply index_of_nth in H' as [<- _].
Qed.

Lemma get_cell_map_self (g : string -> cell) (l : list string) (c : string) :
  In c l -> get_cell l (map g l) c = g c.
Proof.
  unfold get_cell. induction l as [|x l IH]; simpl; [tauto |].
  destruct (String.eqb_spec x c) as [->|Hne]; [reflexivity |].
  intros [H|H]; [contradiction |]. specialize (IH H).
  destruct (index_of c l); simpl; exact IH.
Qed.

Lemma get_cell_cons (x c : string) (cols : list string) (v : cell)
    (r : list cell) :
  x <> c -> get_cell (x :: cols) (v :: r) c = get_cell cols r c.
Proof.
  intros Hne. unfold get_cell. simpl.
  destruct (String.eqb_spec x c); [contradiction |].
  now destruct (index_of c cols).
Qed.

(** Renaming the labels without collision does not move the cells. *)
Lemma index_of_map (f : string -> string) (cols : list string) (c : string) :
  (forall x y, In x cols -> In y cols -> f x = f y -> x = y) ->
  In c cols -> index_of (f c) (map f cols) = index_of c cols.
Proof.
  induction cols as [|x cols IH]; simpl; [tauto |].
  intros Hinj Hc.
  destruct (String.eqb_spec x c) as [->|Hne].
  - now rewrite String.eqb_refl.
  - destruct (String.eqb_spec (f x) (f c)) as [Heq|_].
    + exfalso. apply Hne. apply Hinj; [now left | assumption | assumption].
    + rewrite IH; [reflexivity | | tauto].
      intros a b Ha Hb. apply Hinj; now right.
Qed.

Lemma get_cell_map (f : string -> string) (cols : list string)
    (r : list cell) (c : string) :
  (forall x y, In x cols -> In y cols -> f x = f y -> x = y) ->
  In c cols -> get_cell (map f cols) r (f c) = get_cell cols r c.
Proof.
  intros Hinj Hc. unfold get_cell. now rewrite index_of_map.
Qed.

Lemma nth_update_nth (f : cell -> cell) (r : list cell) :
  forall i j : nat,
    nth i (update_nth j f r) NaN
    = if (i =? j)%nat && (j <? length r)%nat then f (nth i r NaN)
      else nth i r NaN.
Proof.
  induction r as [|v r IH]; intros i j.
  - destruct i, j; cbn; rewrite ?andb_false_r; reflexivity.
  - destruct j as [|j], i as [|i]; cbn; try reflexivity.
    rewrite IH. reflexivity.
Qed.

(** Applying [f] to the column [c'] changes the cells of that column only. *)
Lemma get_cell_update (f : cell -> cell) (cols : list string)
    (r : list cell) (c c' : string) (j : nat) :
  length r = length cols -> index_of c' cols = Some j -> In c cols ->
  get_cell cols (update_nth j f r) c
  = if String.eqb c c' then f (get_cell cols r c) else get_cell cols r c.
Proof.
  intros Hlen Hj Hc. unfold get_cell.
  destruct (index_of_In _ _ Hc) as [i Hi]. rewrite Hi, nth_update_nth.
  destruct (String.eqb_spec c c') as [->|Hne].
  - assert (i = j) as -> by congruence.
    rewrite Nat.eqb_refl. apply index_of_nth in Hj as [_ Hj].
    rewrite <- Hlen in Hj. apply Nat.ltb_lt in Hj. now rewrite Hj.
  - destruct (Nat.eqb_spec i j) as [->|_]; [| reflexivity].
    exfalso. apply Hne. eapply index_of_inj; eassumption.
Qed.

(** *** [df[labels]] on distinct labels *)

Lemma positions_NoDup (c : string) (cols : list string) :
  List.NoDup cols ->
  forall i, positions c i cols
            = match index_of c cols with
              | Some k => [i + k]
              | None => []
              end.
Proof.
  induction cols as [|x cols IH]; intros Hnd i; simpl; [reflexivity |].
  inversion Hnd as [|? ? Hx Hnd']; subst.
  rewrite (IH Hnd' (S i)).
  destruct (String.eqb_spec x c) as [->|Hne].
  - apply index_of_None in Hx. rewrite Hx. f_equal. lia.
  - destruct (index_of c cols); simpl; [f_equal; lia | reflexivity].
Qed.

Lemma select_NoDup (labels : list string) (df : DataFrame) :
  List.NoDup (columns df) ->
  (forall c, In c labels -> In c (columns df)) ->
  select labels df
  = mkDF labels (map (fun r => map (get_cell (columns df) r) labels) (rows df)).
Proof.
  intros Hnd Hsub. unfold select. cbv zeta.
  assert (flat_map (fun c => positions c 0 (columns df)) labels
          = map (fun c => match index_of c (columns df) with
                          | Some k => k
                          | None => 0
                          end) labels) as ->.
  { induction labels as [|c labels IH]; simpl; [reflexivity |].
    rewrite IH by (intros; apply Hsub; now right).
    rewrite positions_NoDup by assumption.
    destruct (index_of_In c (columns df)) as [k ->]; [apply Hsub; now left |].
    reflexivity. }
  f_equal.
  - rewrite map_map. rewrite <- (map_id labels) at 2.
    apply map_ext_in. intros c Hc.
    destruct (index_of_In c (columns df) (Hsub c Hc)) as [k Hk]. rewrite Hk.
    now apply index_of_nth in Hk as [-> _].
  - apply map_ext. intros r. rewrite map_map.
    apply map_ext_in. intros c Hc. unfold get_cell.
    destruct (index_of_In c (columns df) (Hsub c Hc)) as [k ->]. reflexivity.
Qed.

(** *** The renaming to the published names *)

Lemma add_rename_lookup (cols : list string) (old new : string)
    (d : gmap string string) (c : string) :
  add_rename cols old new d !! c
  = if decide (old = c)
    then (if in_list old cols then Some new else d !! c)
    else d !! c.
Proof.
  unfold add_rename. destruct (in_list old cols); case_decide; subst;
    [by rewrite lookup_insert_eq | by rewrite lookup_insert_ne | done | done].
Qed.

Lemma renomear_lookup (cols : list string) (c : string) :
  In c cols ->
  default c (renomear_colunas cols !! c) = Spec.published_name c.
Proof.
  intros Hin. apply in_list_In in Hin. unfold renomear_colunas.
  rewrite !add_rename_lookup, lookup_empty. unfold Spec.published_name.
  repeat case_decide; subst; rewrite ?Hin; try reflexivity.
  destruct (String.eqb_spec c "GRUPO_ECONOMICO"); [congruence |].
  destruct (String.eqb_spec c "VARIAVEL"); [congruence |].
  destruct (String.eqb_spec c "REFERENCIA_MES"); [congruence |].
  destruct (String.eqb_spec c "VALOR"); [congruence |].
  destruct (String.eqb_spec c "SERVICO"); [congruence |].
  reflexivity.
Qed.

Lemma rename_or_not (d : gmap string string) (df : DataFrame) :
  (if decide (d = ∅) then df else rename d df) = rename d df.
Proof.
  case_decide; [| reflexivity]. subst. destruct df as [cols rws].
  unfold rename. cbn [columns rows]. f_equal.
  rewrite <- (map_id cols) at 1. apply map_ext. intros c.
  now rewrite lookup_empty.
Qed.

Lemma published_cases (c : string) :
  Spec.published_name c = c
  \/ (c = "GRUPO_ECONOMICO" /\ Spec.published_name c = "grupo_economico")
  \/ (c = "VARIAVEL" /\ Spec.published_name c = "servico")
  \/ (c = "REFERENCIA_MES" /\ Spec.published_name c = "mes_referencia")
  \/ (c = "VALOR" /\ Spec.published_name c = "valor")
  \/ (c = "SERVICO" /\ Spec.published_name c = "tipo_servico").
Proof.
  unfold Spec.published_name.
  destruct (String.eqb_spec c "GRUPO_ECONOMICO"); [tauto |].
  destruct (String.eqb_spec c "VARIAVEL"); [tauto |].
  destruct (String.eqb_spec c "REFERENCIA_MES"); [tauto |].
  destruct (String.eqb_spec c "VALOR"); [tauto |].
  destruct (String.eqb_spec c "SERVICO"); [tauto |].
  now left.
Qed.

(** Without collision, the renaming is one to one on the labels. *)
Lemma published_inj (cols : list string) :
  (forall c, In c cols -> In (Spec.published_name c) cols ->
             Spec.published_name c = c) ->
  forall x y, In x cols -> In y cols ->
              Spec.published_name x = Spec.published_name y -> x = y.
Proof.
  intros Hcol x y Hx Hy Heq.
  pose proof (Hcol x Hx) as Cx. pose proof (Hcol y Hy) as Cy.
  destruct (published_cases x) as [Ex|Ex]; destruct (published_cases y) as [Ey|Ey].
  - congruence.
  - rewrite <- Heq, Ex in Cy. specialize (Cy Hx). congruence.
  - rewrite Heq, Ey in Cx. specialize (Cx Hy). congruence.
  - clear Cx Cy Hx Hy.
    repeat (destruct Ex as [Ex|Ex]); destruct Ex as [-> Ex];
      repeat (destruct Ey as [Ey|Ey]); destruct Ey as [-> Ey];
      (reflexivity || (rewrite Ex, Ey in Heq; discriminate)).
Qed.

Lemma published_not_id (c : string) :
  c <> "id" -> Spec.published_name c <> "id".
Proof.
  intros Hc. destruct (published_cases c) as [E|E]; [congruence |].
  repeat (destruct E as [E|E]); destruct E as [_ ->]; discriminate.
Qed.

(** *** The stages of [consolidar] *)

Lemma concat_rows_length (vazio : string -> cell) (dfs : list DataFrame)
    (r : list cell) :
  In r (rows (concat vazio dfs)) -> length r = length (union_columns dfs).
Proof.
  unfold concat. cbn [rows]. intros (df & _ & Hr)%in_flat_map.
  unfold reindex in Hr. apply in_map_iff in Hr as (r0 & <- & _).
  apply length_map.
Qed.

Lemma insert_id_lookup (rws : list (list cell)) (n k : nat) (r : list cell) :
  zip_with (fun i r => Int (Z.of_nat i) :: r) (seq 1 n) rws !! k = Some r ->
  exists r0, rws !! k = Some r0 /\ r = Int (Z.of_nat (S k)) :: r0.
Proof.
  intros (i & r0 & -> & Hi & Hr)%lookup_zip_with_Some.
  apply lookup_seq in Hi as [-> _]. now exists r0.
Qed.

(** The two lists [consolidar] selects, once 'id' has been inserted. *)
Lemma labels_eq (pcols : list string) :
  ~ In "id" pcols ->
  List.filter (fun c => in_list c ("id" :: pcols)) colunas_desejadas
  ++ List.filter (fun c => negb (in_list c colunas_desejadas)) ("id" :: pcols)
  = "id" :: List.filter (fun c => in_list c pcols)
              ["grupo_economico"; "servico"; "mes_referencia"; "valor";
               "tipo_servico"]
    ++ List.filter (fun c => negb (in_list c colunas_desejadas)) pcols.
Proof.
  intros Hid.
  assert (forall (f : string -> bool) x l,
            f x = true -> List.filter f (x :: l) = x :: List.filter f l) as E1
    by (intros f x l H; simpl; now rewrite H).
  assert (forall (f : string -> bool) x l,
            f x = false -> List.filter f (x :: l) = List.filter f l) as E2
    by (intros f x l H; simpl; now rewrite H).
  unfold colunas_desejadas at 1.
  rewrite E1 by reflexivity. rewrite (E2 _ "id" pcols) by reflexivity.
  cbn [app].
  rewrite (filter_ext_in (fun c => in_list c ("id" :: pcols))
             (fun c => in_list c pcols)); [reflexivity |].
  intros c Hc. unfold in_list. cbn [existsb].
  destruct (String.eqb_spec c "id") as [->|_]; [| reflexivity].
  exfalso. simpl in Hc. intuition discriminate.
Qed.

(** The frame [consolidar] answers, stage by stage. *)
Lemma consolidar_eq (vazio : string -> cell) (dfs : list DataFrame) :
  dfs <> [] ->
  ~ In "id" (union_columns dfs) ->
  (forall c, In c (union_columns dfs) ->
             In (Spec.published_name c) (union_columns dfs) ->
             Spec.published_name c = c) ->
  let cols := union_columns dfs in
  let pcols := map Spec.published_name cols in
  let dedup := rows (drop_duplicates (concat vazio dfs)) in
  let g := match index_of "VALOR" cols with
           | Some j => update_nth j limpar_valor_final
           | None => fun r => r
           end in
  let labels :=
    "id" :: List.filter (fun c => in_list c pcols)
              ["grupo_economico"; "servico"; "mes_referencia"; "valor";
               "tipo_servico"]
    ++ List.filter (fun c => negb (in_list c colunas_desejadas)) pcols in
  consolidar vazio dfs
  = Some (mkDF labels
            (map (fun r => map (get_cell ("id" :: pcols) r) labels)
               (zip_with (fun i r => Int (Z.of_nat i) :: r)
                  (seq 1 (length dedup)) (map g dedup))))
  /\ List.NoDup ("id" :: pcols)
  /\ (forall c, In c labels -> In c ("id" :: pcols))
  /\ (forall c, In c pcols -> In c labels).
Proof.
  intros Hne Hid Hcol cols pcols dedup g labels.
  assert (~ In "id" pcols) as Hidp.
  { intros (c & Hc & Hin)%in_map_iff. revert Hc. apply published_not_id.
    intros ->. contradiction. }
  assert (List.NoDup ("id" :: pcols)) as Hnd.
  { constructor; [assumption |].
    apply Finite.Injective_map_NoDup_in;
      [now apply published_inj | apply union_columns_NoDup]. }
  assert (forall c, In c labels -> In c ("id" :: pcols)) as Hsub.
  { intros c [<-|Hc]; [now left |]. right.
    apply in_app_iff in Hc as [Hc|Hc]; apply filter_In in Hc as [Hc1 Hc2].
    - now apply in_list_In.
    - assumption. }
  assert (forall c, In c pcols -> In c labels) as Hsup.
  { intros c Hc. right. apply in_app_iff.
    destruct (in_list c colunas_desejadas) eqn:Hd.
    - left. apply filter_In. split; [| now apply in_list_In].
      apply in_list_In in Hd. destruct Hd as [<-|Hd]; [contradiction | exact Hd].
    - right. apply filter_In. split; [assumption | now rewrite Hd]. }
  split; [| now repeat split].
  unfold consolidar. destruct dfs as [|df0 dfs']; [congruence |].
  cbv zeta. rewrite rename_or_not.
  set (df2 := if in_list "VALOR"
                     (columns (drop_duplicates (concat vazio (df0 :: dfs'))))
              then apply_column limpar_valor_final "VALOR"
                     (drop_duplicates (concat vazio (df0 :: dfs')))
              else drop_duplicates (concat vazio (df0 :: dfs'))).
  assert (df2 = mkDF cols (map g dedup)) as ->.
  { unfold df2, apply_column, g, dedup. cbn [columns drop_duplicates concat].
    fold cols. destruct (in_list "VALOR" cols) eqn:HV.
    - apply in_list_In in HV. destruct (index_of_In _ _ HV) as [j ->].
      reflexivity.
    - apply in_list_not_In, index_of_None in HV. rewrite HV.
      now rewrite map_id. }
  unfold rename, insert_id. cbn [columns rows].
  assert (map (fun c => default c (renomear_colunas cols !! c)) cols = pcols)
    as ->.
  { apply map_ext_in. intros c Hc. now apply renomear_lookup. }
  rewrite (proj2 (in_list_not_In _ _) Hidp).
  rewrite select_NoDup; cbn [columns rows]; rewrite ?labels_eq by assumption.
  - now rewrite length_map.
  - exact Hnd.
  - exact Hsub.
Qed.

Lemma lookup_map_Some {A B : Type} (f : A -> B) (l : list A) (k : nat) (y : B) :
  map f l !! k = Some y -> exists x, l !! k = Some x /\ y = f x.
Proof.
  revert k. induction l as [|a l IH]; intros [|k]; simpl; try discriminate.
  - intros [= <-]. now exists a.
  - apply IH.
Qed.

End ConsolidarFacts.

(** * The importer: transaction and coercion *)

Module ImporterFacts.
Import Py Main FrameFacts ConsolidarFacts ConnectPostgre.

Section Facts.
Variable lower : string -> string.
Variable to_datetime : cell -> cell.
Variable dtype_de : string -> dtype.
Variable ddl_ok : list string -> bool.
Variable accepts : table -> list sqlval -> bool.

(** The column definitions [create_table_from_csv] sends. *)
Local Abbreviation columns_def_of df :=
  (montar_columns_def lower dtype_de
     (preprocess_dataframe lower to_datetime df)).

Lemma insert_rows_Some (tuples : list (list sqlval)) :
  forall t t', insert_rows accepts t tuples = Some t' ->
               tcolumns t' = tcolumns t /\ trows t' = trows t ++ tuples.
Proof.
  induction tuples as [|r tuples IH]; intros t t'; simpl.
  - intros [= <-]. now rewrite app_nil_r.
  - destruct (accepts t r); [| discriminate].
    intros H. apply IH in H as [Hc Hr]. cbn [tcolumns trows] in *.
    split; [assumption |]. now rewrite Hr, <- app_assoc.
Qed.

(** The three outcomes of the call, on a fresh connection to [db]. *)
Lemma create_table_from_csv_eq (db : gmap string table) (df : DataFrame)
    (name : string) :
  create_table_from_csv lower to_datetime dtype_de ddl_ok accepts db df name
  = if ddl_ok (columns_def_of df) then
      match insert_rows accepts (mkTable (columns_def_of df) [])
              (data_tuples (preprocess_dataframe lower to_datetime df)) with
      | Some t' =>
          (true, mkConn (<[ name := t' ]> (delete name db))
                        (<[ name := t' ]> (delete name db)))
      | None => (false, mkConn db db)
      end
    else (false, mkConn db db).
Proof.
  unfold create_table_from_csv, execute_create, executemany, execute_drop,
    connect, rollback, commit. cbv zeta. cbn [committed working].
  destruct (ddl_ok (columns_def_of df)); [| reflexivity].
  rewrite lookup_delete_eq. cbn [committed working].
  rewrite lookup_insert_eq.
  destruct (insert_rows _ _ _); [| reflexivity].
  cbn [committed working]. now rewrite insert_insert_eq.
Qed.

(** What [preprocess_dataframe] leaves in the rows. *)
Lemma preprocess_rows (df : DataFrame) (j : nat) :
  index_of "valor" (columns df) = Some j ->
  exists g : list cell -> list cell,
    rows (preprocess_dataframe lower to_datetime df)
    = map (fun r => update_nth j (fun v => if eq_empty v then PyNone else v)
                      (g r))
          (rows df)
    /\ forall r, length (g r) = length r
    /\ (nth j (g r) NaN = nth j r NaN).
Proof.
  intros Hj. unfold preprocess_dataframe. cbv zeta. cbn [rows].
  assert (In "valor" (columns df)) as Hin.
  { destruct (in_dec string_dec "valor" (columns df)) as [H|H];
      [exact H |]. apply index_of_None in H. congruence. }
  set (df1 := if in_list "referencia_mes" (columns df)
              then apply_column to_datetime "referencia_mes" df else df).
  assert (columns df1 = columns df
          /\ exists g, rows df1 = map g (rows df)
               /\ forall r, length (g r) = length r
                            /\ nth j (g r) NaN = nth j r NaN)
    as (Hcols & g & Hrows & Hg).
  { unfold df1. destruct (in_list "referencia_mes" (columns df)) eqn:Href.
    - apply in_list_In in Href. destruct (index_of_In _ _ Href) as [i Hi].
      unfold apply_column. rewrite Hi. cbn [columns rows].
      split; [reflexivity |]. exists (update_nth i to_datetime).
      split; [reflexivity |]. intros r. split; [apply update_nth_length |].
      rewrite nth_update_nth.
      destruct (Nat.eqb_spec j i) as [->|_]; [| reflexivity].
      exfalso. assert ("valor" = "referencia_mes") by
        (eapply index_of_inj; eassumption). discriminate.
    - split; [reflexivity |]. exists (fun r => r).
      split; [now rewrite map_id | now intros r]. }
  rewrite Hcols. apply in_list_In in Hin. rewrite Hin.
  unfold apply_column. rewrite Hcols, Hj. cbn [rows].
  exists g. split; [now rewrite Hrows, map_map | exact Hg].
Qed.

(** A cell the replacement has seen never becomes the empty text. *)
Lemma to_sql_replaced (v : cell) :
  to_sql (if eq_empty v then PyNone else v) <> SqlText "".
Proof.
  destruct v as [| | |s|n|r|b|y m]; try discriminate.
  - destruct s; discriminate.
  - destruct b; discriminate.
Qed.

Lemma data_tuples_valor (df : DataFrame) (j : nat) (t : list sqlval) :
  index_of "valor" (columns df) = Some j ->
  In t (data_tuples (preprocess_dataframe lower to_datetime df)) ->
  nth j t SqlNull <> SqlText "".
Proof.
  intros Hj Ht. destruct (preprocess_rows df j Hj) as (g & Hrows & _).
  unfold data_tuples in Ht. rewrite Hrows in Ht.
  apply in_map_iff in Ht as (r' & <- & Hr').
  apply in_map_iff in Hr' as (r & <- & _).
  destruct (Nat.lt_ge_cases j (length (g r))) as [Hlt|Hge].
  - rewrite (nth_indep _ SqlNull (to_sql NaN))
      by now rewrite length_map, update_nth_length.
    rewrite map_nth, nth_update_nth, Nat.eqb_refl.
    apply Nat.ltb_lt in Hlt. rewrite Hlt. apply to_sql_replaced.
  - rewrite nth_overflow; [discriminate |].
    now rewrite length_map, update_nth_length.
Qed.
End Facts.

End ImporterFacts.

(** * The claims *)

Import Py PyFacts Main TrimFacts CoerceFacts LocatorFacts FrameFacts.
Import ConsolidarFacts.

(** The specification's examples of the decimal trim, at both sites. *)
Example trim_examples :
  map limpar_celula [Str "15.00"; Str "15.50"; Str "15.5"; Str "abc"]
    = [Str "15"; Str "15.5"; Str "15.5"; Str "abc"]
  /\ map limpar_valor_final [Str "15.00"; Str "15.50"; Str "15.5"; Str "abc"]
    = [Str "15"; Str "15.5"; Str "15.5"; Str "abc"].
Proof. split; reflexivity. Qed.

(** C3, as stated, fails: after consolidation a null value does not pass
    through unchanged ([limpar_valor_final] turns it into the empty text),
    and before the reshape a text that is no decimal does not pass through
    unchanged either ([limpar_celula] strips its surrounding white space). *)
Lemma C3_decimal_trim_counterexample :
  limpar_valor_final NaN <> NaN
  /\ limpar_celula (Str " abc") <> Str " abc".
Proof. split; vm_compute; discriminate. Qed.

(** C3, amended: decimal trim at the two call sites.
    [limpar_celula], on a Latin text, works on the text
    without its surrounding white space: digits, one period, digits (one
    side may be empty, not both) has the trailing zeros of the fraction
    stripped and the period dropped when nothing is left of the fraction;
    any other text, the lone period among them, is returned stripped of its
    surrounding white space; null is returned unchanged.
    [limpar_valor_final] trims in the same way a text with exactly one
    period, whatever its characters, returns a text without a period
    unchanged, and maps null to the empty text. *)
Theorem C3_decimal_trim_amended :
  (forall s i f : string,
      texto_latino s = true ->
      strip s = i +:+ "." +:+ f ->
      all_chars is_digit i = true -> all_chars is_digit f = true ->
      i <> "" \/ f <> "" ->
      limpar_celula (Str s) = Str (Spec.decimal_trim i f))
  /\ (forall s : string,
      texto_latino s = true ->
      (forall i f, strip s = i +:+ "." +:+ f ->
                   all_chars is_digit i = true ->
                   all_chars is_digit f = true ->
                   i <> "" \/ f <> "" -> False) ->
      limpar_celula (Str s) = Str (strip s))
  /\ (forall s : string,
      texto_latino s = true -> strip s = "." ->
      limpar_celula (Str s) = Str ".")
  /\ (forall v : cell, isna v = true -> limpar_celula v = v)
  /\ (forall i f : string,
      contains_char "." i = false -> contains_char "." f = false ->
      limpar_valor_final (Str (i +:+ "." +:+ f)) = Str (Spec.decimal_trim i f))
  /\ (forall s : string,
      contains_char "." s = false -> limpar_valor_final (Str s) = Str s)
  /\ (forall v : cell, isna v = true -> limpar_valor_final v = Str "").
Proof.
  split; [intros s i f _; apply limpar_celula_decimal |].
  split; [intros s _; apply limpar_celula_other |].
  split.
  { intros s _ Hs. rewrite limpar_celula_other; [now rewrite Hs |].
    rewrite Hs. intros i f Hif _ _ Hne.
    destruct i as [|a i].
    - destruct f as [|b f]; [destruct Hne as [H|H]; now apply H | discriminate].
    - injection Hif as _ Hif. destruct i; discriminate. }
  split; [intros v Hv; unfold limpar_celula; now rewrite Hv |].
  split; [exact limpar_valor_final_decimal |].
  split; [exact limpar_valor_final_plain |].
  intros v Hv. unfold limpar_valor_final. now rewrite Hv.
Qed.

Lemma C3_decimal_trim_amended_witness :
  limpar_celula (Str " 15.50 ") = Str "15.5"
  /\ limpar_celula (Str " abc ") = Str "abc"
  /\ limpar_celula (Str " . ") = Str "."
  /\ limpar_celula NaN = NaN
  /\ limpar_valor_final (Str "15.00") = Str "15"
  /\ limpar_valor_final (Str "abc") = Str "abc"
  /\ limpar_valor_final NaN = Str "".
Proof.
  destruct C3_decimal_trim_amended as (H1 & H2 & H3 & H4 & H5 & H6 & H7).
  split; [| split; [| split; [| split; [| split; [| split]]]]].
  - apply (H1 " 15.50 " "15" "50");
      [reflexivity | reflexivity | reflexivity | reflexivity |].
    left. discriminate.
  - apply (H2 " abc "); [reflexivity |]. intros i f Hif _ _ _.
    apply (f_equal (contains_char ".")) in Hif.
    rewrite contains_point_decimal in Hif. vm_compute in Hif. discriminate.
  - apply (H3 " . "); reflexivity.
  - apply (H4 NaN). reflexivity.
  - apply (H5 "15" "00"); reflexivity.
  - apply (H6 "abc"). reflexivity.
  - apply (H7 NaN). reflexivity.
Defined.

(** C8: decimal trim is idempotent.  For every text [x], trimming twice
    gives what trimming once gives, with [limpar_celula] (before the
    reshape) and with [limpar_valor_final] (after consolidation). *)
Theorem C8_decimal_trim_idempotent (x : string) :
  limpar_celula (limpar_celula (Str x)) = limpar_celula (Str x)
  /\ limpar_valor_final (limpar_valor_final (Str x)) = limpar_valor_final (Str x).
Proof. split; [apply limpar_celula_idem | apply limpar_valor_final_idem]. Qed.

(** The specification's examples of the locale coercion. *)
Example coerce_examples :
  map converter_para_numero
      [Str "1.234,56"; Str "1234,56"; Str "1.234.56"; Str "ND"; Str ""; Str "42"]
    = [Str "1234.56"; Str "1234.56"; Str "123456"; Str ""; Str ""; Str "42"].
Proof. reflexivity. Qed.

(** C4, as stated, fails on a text with more than one comma: the code
    cuts at the first comma and keeps what lies between the first and the
    second, so of "1.5,2,3" it returns "15.2", where the periods left of the
    last comma removed and that comma made the decimal point give
    "15,2.3". *)
Lemma C4_comma_period_counterexample :
  converter_para_numero (Str "1.5,2,3") = Str "15.2"
  /\ Spec.comma_decimal (valor_limpo_de (strip "1.5,2,3")) = "15,2.3"
  /\ converter_para_numero (Str "1.5,2,3")
     <> Str (Spec.comma_decimal (valor_limpo_de (strip "1.5,2,3"))).
Proof. repeat split; vm_compute; discriminate. Qed.

(** C4, amended: when the cleaned text has exactly one comma and at least
    one period, the periods left of the comma are removed and the comma
    becomes a period, which is what the specification's rule gives there;
    when it has commas and no period, every comma becomes a period.  This
    is the source's [try] block, and it holds of every cleaned text; the
    cleaned text of a Latin text is that text without its surrounding white
    space and without every character but the digits, the comma and the
    period. *)
Theorem C4_comma_period_amended :
  (forall limpo a b : string,
      limpo = a +:+ "," +:+ b ->
      contains_char "," a = false -> contains_char "," b = false ->
      contains_char "." limpo = true ->
      formatar_valor_limpo limpo = Str (remove_char "." a +:+ "." +:+ b)
      /\ formatar_valor_limpo limpo = Str (Spec.comma_decimal limpo))
  /\ (forall limpo : string,
      contains_char "," limpo = true -> contains_char "." limpo = false ->
      formatar_valor_limpo limpo = Str (replace_char "," "." limpo))
  /\ (forall s : string,
      texto_latino s = true ->
      converter_para_numero (Str s)
      = formatar_valor_limpo
          (keep_chars
             (fun c => is_digit c || Ascii.eqb c "." || Ascii.eqb c ",")
             (strip s))).
Proof.
  split; [| split].
  - intros limpo a b -> Ha Hb Hp.
    change (a +:+ "," +:+ b) with (a +:+ String "," b) in *.
    assert (formatar_valor_limpo (a +:+ String "," b)
            = Str (remove_char "." a +:+ "." +:+ b)) as E.
    { rewrite formatar_valor_limpo_eq. rewrite Hp.
      rewrite contains_char_app. cbn [contains_char].
      rewrite Ascii.eqb_refl, orb_true_r.
      rewrite split_app, split_absent by assumption. reflexivity. }
    split; [exact E |].
    rewrite E. unfold Spec.comma_decimal.
    now rewrite cut_last_app.
  - intros limpo Hc Hp. rewrite formatar_valor_limpo_eq.
    now rewrite Hc, Hp.
  - intros s _. apply converter_para_numero_limpo.
Qed.

Lemma C4_comma_period_amended_witness :
  converter_para_numero (Str "R$ 1.234,56") = Str "1234.56"
  /\ converter_para_numero (Str "1234,56") = Str "1234.56".
Proof.
  destruct C4_comma_period_amended as (H1 & H2 & H3).
  split.
  - rewrite (H3 "R$ 1.234,56") by reflexivity.
    apply (H1 _ "1.234" "56"); reflexivity.
  - rewrite (H3 "1234,56") by reflexivity.
    apply H2; reflexivity.
Defined.

(** C5: with no comma and two or more periods after the cleaning, all the
    periods are removed; with no comma and at most one period the cleaned
    text is returned as it is (so a text of digits with at most one period
    is returned unchanged); null, blank text and the sentinel tokens give
    the empty text.  The first two hold of every cleaned text (they are
    the source's [try] block); the cleaned text of a Latin text is that
    text without its surrounding white space and without every character
    but the digits, the comma and the period. *)
Theorem C5_periods_and_missing :
  (forall limpo : string,
      contains_char "," limpo = false ->
      2 <= count_char "." limpo ->
      formatar_valor_limpo limpo = Str (remove_char "." limpo))
  /\ (forall limpo : string,
      contains_char "," limpo = false ->
      count_char "." limpo <= 1 ->
      formatar_valor_limpo limpo = Str limpo)
  /\ (forall s : string,
      texto_latino s = true ->
      converter_para_numero (Str s)
      = formatar_valor_limpo
          (keep_chars
             (fun c => is_digit c || Ascii.eqb c "." || Ascii.eqb c ",")
             (strip s)))
  /\ (forall s : string,
      all_chars (fun a => is_digit a || Ascii.eqb a ".") s = true ->
      count_char "." s <= 1 ->
      converter_para_numero (Str s) = Str s)
  /\ (forall v : cell, isna v = true -> converter_para_numero v = Str "")
  /\ (forall s : string,
      all_chars is_space s = true -> converter_para_numero (Str s) = Str "")
  /\ (forall s : string,
      In (strip s) ["-"; "--"; "---"; "ND"; "N/D"; "nan"; "NaN"] ->
      converter_para_numero (Str s) = Str "").
Proof.
  assert (forall limpo : string,
      contains_char "," limpo = false ->
      count_char "." limpo <= 1 ->
      formatar_valor_limpo limpo = Str limpo) as Hone.
  { intros limpo Hc Hn. rewrite formatar_valor_limpo_eq. rewrite Hc.
    destruct (contains_char "." _); [| reflexivity].
    rewrite split_length.
    destruct (count_char "." _) as [|[|n]]; [reflexivity | reflexivity | lia]. }
  split; [| split; [exact Hone | split; [| split; [| split; [| split]]]]].
  - intros limpo Hc Hn. rewrite formatar_valor_limpo_eq. rewrite Hc.
    destruct (contains_char "." _) eqn:Hp.
    + rewrite split_length.
      destruct (count_char "." _) as [|[|n]]; [lia | lia | reflexivity].
    + apply count_char_absent in Hp. lia.
  - intros s _. apply converter_para_numero_limpo.
  - intros s Hall Hn.
    assert (strip s = s) as Hs.
    { apply strip_clean. revert Hall. apply all_chars_impl.
      intros a Ha. apply numeric_not_space. now rewrite Ha. }
    assert (valor_limpo_de s = s) as Hl.
    { apply keep_chars_all. revert Hall. apply all_chars_impl.
      intros a Ha. unfold numeric_char. now rewrite Ha. }
    rewrite converter_para_numero_limpo, Hs, Hl.
    apply Hone; [| assumption].
    revert Hall. apply all_chars_absent. reflexivity.
  - intros v Hv. unfold converter_para_numero. now rewrite Hv.
  - intros s Hs. unfold converter_para_numero. cbn [isna str]. cbv zeta.
    now rewrite (strip_blank s Hs).
  - intros s Hs. unfold converter_para_numero. cbn [isna str]. cbv zeta.
    simpl in Hs.
    repeat (destruct Hs as [<-|Hs]; [reflexivity |]). contradiction.
Qed.

Lemma C5_periods_and_missing_witness :
  converter_para_numero (Str "1.234.56") = Str "123456"
  /\ converter_para_numero (Str "R$ 42") = Str "42"
  /\ converter_para_numero (Str "4.2") = Str "4.2"
  /\ converter_para_numero NaN = Str ""
  /\ converter_para_numero (Str "   ") = Str ""
  /\ converter_para_numero (Str " N/D ") = Str "".
Proof.
  destruct C5_periods_and_missing as (H1 & H2 & H3 & H4 & H5 & H6 & H7).
  split; [| split; [| split; [| split; [| split]]]].
  - rewrite (H3 "1.234.56") by reflexivity.
    apply H1; [reflexivity | vm_compute; lia].
  - rewrite (H3 "R$ 42") by reflexivity.
    apply H2; [reflexivity | vm_compute; lia].
  - apply (H4 "4.2"); [reflexivity | vm_compute; lia].
  - apply (H5 NaN). reflexivity.
  - apply (H6 "   "). reflexivity.
  - apply (H7 " N/D "). vm_compute. tauto.
Defined.

(** The specification's example of the header location: the marker in row
    3, in either case, and no marker at all. *)
Example locator_examples :
  encontrar_linha_inicio_dados upper_latin
    [[Str "Anatel"]; [NaN; NaN]; [Str "Periodo"; Str "2020"];
     [Str "Grupo Econômico"; Str "Variável"; Str "2020-01"];
     [Str "OI"; Str "x"; Str "1"]] = 3
  /\ encontrar_linha_inicio_dados upper_latin
    [[Str "a"; Str "b"]; [Str "c"; NaN]] = 0.
Proof. split; reflexivity. Qed.

(** C6: the header locator returns the zero-based position of the first
    row whose text contains, case-insensitively, 'GRUPO ECONÔMICO' or
    'GRUPO_ECON', and 0 when no row does; it is a total function, so it
    never raises.  The text of a row is the texts of its cells that are not
    missing, joined by one space.  Case-insensitively: the text is put in
    upper case before the markers are looked for, so that a row whose text
    has, anywhere, a marker written in any mix of cases is a match; this is
    stated on Latin text, where [str.upper] is [upper_latin]. *)
Theorem C6_header_locator (upper : string -> string) (df : list (list cell)) :
  (forall s, texto_latino s = true -> upper s = upper_latin s) ->
  let texto := fun linha : list cell =>
    join " " (map str (List.filter (fun val => negb (isna val)) linha)) in
  let marcada := fun linha : list cell =>
    contains "GRUPO ECONÔMICO" (upper (texto linha))
    || contains "GRUPO_ECON" (upper (texto linha)) in
  (forall (i : nat) (linha : list cell),
      df !! i = Some linha ->
      marcada linha = true ->
      (forall j l, j < i -> df !! j = Some l -> marcada l = false) ->
      encontrar_linha_inicio_dados upper df = i)
  /\ ((forall linha, In linha df -> marcada linha = false) ->
      encontrar_linha_inicio_dados upper df = 0)
  /\ (forall (linha : list cell) (a t b : string),
      texto linha = a +:+ t +:+ b ->
      texto_latino a = true -> texto_latino t = true ->
      texto_latino b = true ->
      upper_latin t = "GRUPO ECONÔMICO" \/ upper_latin t = "GRUPO_ECON" ->
      marcada linha = true).
Proof.
  intros Hupper texto marcada.
  split; [| split].
  - intros i linha Hi Hm Hbefore. unfold encontrar_linha_inicio_dados.
    now rewrite (percorrer_first upper df 0 i linha Hi Hm Hbefore).
  - intros Hnone. unfold encontrar_linha_inicio_dados.
    now rewrite (percorrer_none upper df 0 Hnone).
  - intros linha a t b Htxt Ha Ht Hb Hm. unfold marcada. rewrite Htxt.
    assert (texto_latino (a +:+ t +:+ b) = true) as Hl.
    { rewrite !texto_latino_app by assumption. exact Hb. }
    rewrite (Hupper _ Hl).
    rewrite upper_latin_app by assumption.
    rewrite upper_latin_app by assumption.
    destruct Hm as [-> | ->].
    + now rewrite contains_middle.
    + rewrite (contains_middle "GRUPO_ECON"). apply orb_true_r.
Qed.

Lemma C6_header_locator_witness :
  encontrar_linha_inicio_dados upper_latin
    [[Str "Anatel"]; [Str "grupo"; NaN; Str "econômico"];
     [Str "GRUPO_ECONOMICO"]] = 1
  /\ encontrar_linha_inicio_dados upper_latin [[Str "a"]; [NaN]] = 0
  /\ contains "GRUPO ECONÔMICO"
       (upper_latin
          (join " " (map str (List.filter (fun val => negb (isna val))
                                [Str "IDA -"; NaN; Str "Grupo Econômico"]))))
     || contains "GRUPO_ECON"
          (upper_latin
             (join " " (map str (List.filter (fun val => negb (isna val))
                                   [Str "IDA -"; NaN; Str "Grupo Econômico"]))))
     = true.
Proof.
  split; [| split].
  - apply (proj1 (C6_header_locator upper_latin _ (fun s _ => eq_refl))
             1 [Str "grupo"; NaN; Str "econômico"]).
    + reflexivity.
    + reflexivity.
    + intros j l Hj Hl. destruct j as [|j]; [| lia].
      injection Hl as <-. reflexivity.
  - apply (proj1 (proj2 (C6_header_locator upper_latin _ (fun s _ => eq_refl)))).
    intros linha [<-|[<-|[]]]; reflexivity.
  - apply (proj2 (proj2 (C6_header_locator upper_latin [] (fun s _ => eq_refl)))
             [Str "IDA -"; NaN; Str "Grupo Econômico"]
             "IDA - " "Grupo Econômico" "");
      try reflexivity.
    now left.
Defined.

(** C1: the claim is what the docstring of [normalizar_colunas_data]
    promises, and what the code misses.  Here the code is evaluated: a label
    that is a full timestamp also matches the year-month pattern at its
    start, so the loop skips it; the normalizer returns every frame as it
    received it, the label '2013-01-01 00:00:00' is not renamed to
    '2013-01' (the name the skipped branch would have given it), and the
    classification then takes it, unchanged, as a period column. *)
Theorem C1_timestamp_label_not_renamed :
  (forall df : DataFrame, normalizar_colunas_data df = df)
  /\ (let df := mkDF ["GRUPO_ECONOMICO"; "VARIAVEL"; "2013-01-01 00:00:00"]
                     [[Str "OI"; Str "x"; Str "1.0"]] in
      columns (normalizar_colunas_data df)
        = ["GRUPO_ECONOMICO"; "VARIAVEL"; "2013-01-01 00:00:00"]
      /\ option_map strftime_ano_mes (strptime "2013-01-01 00:00:00")
        = Some "2013-01"
      /\ classificar_data (columns (normalizar_colunas_data df))
        = ["2013-01-01 00:00:00"]).
Proof.
  split; [exact normalizar_colunas_data_id |].
  cbv zeta. rewrite normalizar_colunas_data_id. repeat split.
Qed.




(** C7, as stated, fails when no resource could be reshaped: the wide
    frames have no period and no value column, and the consolidated frame
    then starts with id, grupo_economico, servico, tipo_servico, not with
    the six names of the fixed prefix. *)
Lemma C7_consolidation_counterexample :
  let wide := mkDF ["GRUPO_ECONOMICO"; "VARIAVEL"; "Total"; "SERVICO"]
                   [[Str "OI"; Str "x"; Str "1,50"; Str "SMP"]] in
  transformar_para_formato_longo to_datetime_ano_mes
    (mkDF ["GRUPO_ECONOMICO"; "VARIAVEL"; "Total"] [[Str "OI"; Str "x"; Str "1,50"]])
    "SMP" = wide
  /\ exists out,
      consolidar vazio_coletor [wide] = Some out
      /\ columns out
         = ["id"; "grupo_economico"; "servico"; "tipo_servico"; "Total"]
      /\ ~ exists rest, columns out = colunas_desejadas ++ rest.
Proof.
  cbv zeta. split; [reflexivity |].
  eexists. split; [vm_compute; reflexivity |].
  split; [reflexivity |].
  intros [rest H]. vm_compute in H. discriminate.
Qed.

(** C7, amended: when the frames hold the cells the collector builds (texts,
    timestamps, missing values), no frame has a label 'id' and the renaming
    to the published names does not collide with a label already there, the
    consolidation succeeds and: the first column is id; then come those of
    grupo_economico, servico, mes_referencia, valor, tipo_servico that
    exist, in that order, then the remaining columns in their existing
    order; the rows are the rows of the concatenation (frame after frame,
    each row with the missing value under the labels its frame lacks) in
    their order, each kept at its first occurrence only; row k (from 0) has
    id k + 1, so the ids are 1..N for the N rows left by the deduplication;
    and each row holds, under the published names, the cells of the row it
    comes from, the value cell trimmed. *)
Theorem C7_consolidation_amended (vazio : string -> cell)
    (dfs : list DataFrame) :
  dfs <> [] ->
  Forall (fun df => List.NoDup (columns df)) dfs ->
  Forall (fun df =>
            Forall (fun r => length r = length (columns df)
                             /\ forallb celula_coletada r = true)
                   (rows df)) dfs ->
  ~ In "id" (union_columns dfs) ->
  (forall c, In c (union_columns dfs) ->
             In (Spec.published_name c) (union_columns dfs) ->
             Spec.published_name c = c) ->
  let cols := union_columns dfs in
  let juntas :=
    flat_map
      (fun df =>
         map (fun r =>
                map (fun c =>
                       if in_list c (columns df) then get_cell (columns df) r c
                       else vazio c)
                    cols)
             (rows df))
      dfs in
  let dedup := Spec.primeiras_ocorrencias juntas in
  exists out,
    consolidar vazio dfs = Some out
    /\ columns out
       = "id" :: List.filter
                   (fun c => in_list c (map Spec.published_name cols))
                   ["grupo_economico"; "servico"; "mes_referencia"; "valor";
                    "tipo_servico"]
         ++ List.filter (fun c => negb (in_list c colunas_desejadas))
              (map Spec.published_name cols)
    /\ length (rows out) = length dedup
    /\ sublist dedup juntas
    /\ List.NoDup dedup
    /\ (forall r, In r juntas -> In r dedup)
    /\ forall (k : nat) (ro rd : list cell),
        rows out !! k = Some ro -> dedup !! k = Some rd ->
        get_cell (columns out) ro "id" = Int (Z.of_nat (S k))
        /\ forall c, In c cols ->
             get_cell (columns out) ro (Spec.published_name c)
             = if String.eqb c "VALOR"
               then limpar_valor_final (get_cell cols rd c)
               else get_cell cols rd c.
Proof.
  intros Hne _ _ Hid Hcol cols juntas dedup.
  destruct (consolidar_eq vazio dfs Hne Hid Hcol) as (E & Hnd & Hsub & Hsup).
  cbv zeta in E, Hnd, Hsub, Hsup. fold cols in E, Hnd, Hsub, Hsup.
  assert (rows (drop_duplicates (concat vazio dfs)) = dedup) as Hd
    by apply drop_duplicates_primeiras.
  rewrite Hd in E.
  assert (dedup = keep_first [] juntas) as Hk
    by (rewrite <- Hd; reflexivity).
  eexists. split; [exact E |]. cbn [columns rows].
  split; [reflexivity |].
  split.
  { rewrite length_map, length_zip_with, length_seq, length_map. lia. }
  split; [rewrite Hk; apply keep_first_sublist |].
  split; [rewrite Hk; apply keep_first_NoDup |].
  split.
  { intros r Hr. rewrite Hk. apply keep_first_In. split; [exact Hr | tauto]. }
  intros k ro rd Hro Hrd.
  apply lookup_map_Some in Hro as (r4 & Hr4 & ->).
  apply insert_id_lookup in Hr4 as (r3 & Hr3 & ->).
  apply lookup_map_Some in Hr3 as (rd' & Hrd' & ->).
  assert (rd' = rd) as -> by congruence.
  split.
  - rewrite get_cell_map_self by now left. reflexivity.
  - intros c Hc.
    assert (In (Spec.published_name c) (map Spec.published_name cols)) as Hpc
      by now apply in_map.
    rewrite get_cell_map_self by now apply Hsup.
    rewrite get_cell_cons.
    2: { intros Heq. inversion Hnd as [|? ? Hn _]; subst. apply Hn.
         now rewrite Heq. }
    rewrite get_cell_map by (try apply published_inj; assumption).
    assert (length rd = length cols) as Hlen.
    { apply (concat_rows_length vazio).
      apply list_elem_of_lookup_2, list_elem_of_In in Hrd.
      rewrite Hk in Hrd. apply keep_first_In in Hrd. tauto. }
    destruct (index_of "VALOR" cols) as [j|] eqn:Hj.
    + now apply get_cell_update.
    + apply index_of_None in Hj.
      destruct (String.eqb_spec c "VALOR") as [->|_]; [contradiction |].
      reflexivity.
Qed.

Lemma C7_consolidation_amended_witness :
  exists out,
    consolidar vazio_coletor
      [mkDF ["GRUPO_ECONOMICO"; "VARIAVEL"; "REFERENCIA_MES"; "VALOR"; "SERVICO"]
            [[Str "OI"; Str "x"; Ts 2020 1; Str "1.50"; Str "SCM"];
             [Str "OI"; Str "x"; Ts 2020 2; Str "2"; Str "SCM"];
             [Str "OI"; Str "x"; Ts 2020 1; Str "1.50"; Str "SCM"]];
       mkDF ["GRUPO_ECONOMICO"; "VARIAVEL"; "Total"; "SERVICO"]
            [[Str "TIM"; Str "y"; Str "7"; Str "SMP"]]] = Some out
    /\ columns out
       = ["id"; "grupo_economico"; "servico"; "mes_referencia"; "valor";
          "tipo_servico"; "Total"]
    /\ length (rows out) = 3.
Proof.
  destruct (C7_consolidation_amended vazio_coletor
      [mkDF ["GRUPO_ECONOMICO"; "VARIAVEL"; "REFERENCIA_MES"; "VALOR"; "SERVICO"]
            [[Str "OI"; Str "x"; Ts 2020 1; Str "1.50"; Str "SCM"];
             [Str "OI"; Str "x"; Ts 2020 2; Str "2"; Str "SCM"];
             [Str "OI"; Str "x"; Ts 2020 1; Str "1.50"; Str "SCM"]];
       mkDF ["GRUPO_ECONOMICO"; "VARIAVEL"; "Total"; "SERVICO"]
            [[Str "TIM"; Str "y"; Str "7"; Str "SMP"]]])
    as (out & E & Hc & Hl & _).
  - discriminate.
  - repeat constructor; vm_compute; intuition discriminate.
  - repeat constructor.
  - vm_compute. intuition discriminate.
  - intros c Hc. vm_compute in Hc.
    repeat (destruct Hc as [<-|Hc]; [vm_compute; intuition discriminate |]).
    contradiction.
  - exists out. split; [exact E |]. split; [exact Hc | exact Hl].
Defined.

Import ConnectPostgre ImporterFacts.

(** C2, as stated, fails: the table creation does not survive the
    rollback.  On an empty database, with a file whose second row repeats
    the primary key, the insert fails, the call answers False, and the
    table the same call had created is not there: [DROP TABLE],
    [CREATE TABLE] and the inserts all ran in the one transaction that
    [rollback] discards. *)
Lemma C2_rollback_counterexample :
  let df := mkDF ["id"; "valor"] [[Int 1; Flt "1.5"]; [Int 1; Flt "2.5"]] in
  let r := create_table_from_csv lower_ascii to_datetime_ano_mes
             (fun _ => float64) (fun _ => true) chave_primaria ∅ df "dados_ida" in
  fst r = false
  /\ committed (snd r) !! "dados_ida" = None
  /\ working (snd r) !! "dados_ida" = None.
Proof. cbv zeta. rewrite create_table_from_csv_eq. repeat split. Qed.

(** C2, amended: if the batch insert fails, the call answers False and the
    rollback leaves the database exactly as it was before the call: no
    inserted row persists, and neither do the [CREATE TABLE] nor the
    [DROP TABLE] of the same call (a table of that name that existed before
    is back with its rows; if there was none, there is none). *)
Theorem C2_rollback_amended
    (lower : string -> string) (to_datetime : cell -> cell)
    (dtype_de : string -> dtype) (ddl_ok : list string -> bool)
    (accepts : table -> list sqlval -> bool)
    (db : gmap string table) (df : DataFrame) (table_name : string) :
  let df' := preprocess_dataframe lower to_datetime df in
  let columns_def := montar_columns_def lower dtype_de df' in
  ddl_ok columns_def = true ->
  insert_rows accepts (mkTable columns_def []) (data_tuples df') = None ->
  create_table_from_csv lower to_datetime dtype_de ddl_ok accepts db df
    table_name
  = (false, mkConn db db).
Proof.
  cbv zeta. intros Hddl Hins.
  rewrite create_table_from_csv_eq. now rewrite Hddl, Hins.
Qed.

Lemma C2_rollback_amended_witness :
  let old := mkTable ["id INTEGER PRIMARY KEY"] [[SqlInt 7]] in
  create_table_from_csv lower_ascii to_datetime_ano_mes
    (fun _ => float64) (fun _ => true) chave_primaria
    {[ "dados_ida" := old ]}
    (mkDF ["id"; "valor"] [[Int 1; Flt "1.5"]; [Int 1; Flt "2.5"]])
    "dados_ida"
  = (false, mkConn {[ "dados_ida" := old ]} {[ "dados_ida" := old ]}).
Proof.
  cbv zeta. apply C2_rollback_amended; reflexivity.
Defined.

(** C10: when the frame read from the file has a column labelled valor,
    every empty text in it is replaced by None by [preprocess_dataframe]
    and goes to the server as NULL; and when the load succeeds, the rows of
    the loaded table are the coerced rows, none of which has the empty text
    in that column. *)
Theorem C10_empty_valor_is_null
    (lower : string -> string) (to_datetime : cell -> cell)
    (dtype_de : string -> dtype) (ddl_ok : list string -> bool)
    (accepts : table -> list sqlval -> bool)
    (df : DataFrame) (j : nat) :
  index_of "valor" (columns df) = Some j ->
  (forall (k : nat) (r : list cell),
      rows df !! k = Some r -> nth j r NaN = Str "" ->
      exists r' t,
        rows (preprocess_dataframe lower to_datetime df) !! k = Some r'
        /\ nth j r' NaN = PyNone
        /\ data_tuples (preprocess_dataframe lower to_datetime df) !! k = Some t
        /\ nth j t (SqlText "") = SqlNull)
  /\ (forall (db : gmap string table) (table_name : string) (conn : connection),
      create_table_from_csv lower to_datetime dtype_de ddl_ok accepts db df
        table_name = (true, conn) ->
      exists t,
        committed conn !! table_name = Some t
        /\ trows t = data_tuples (preprocess_dataframe lower to_datetime df)
        /\ forall row, In row (trows t) -> nth j row SqlNull <> SqlText "").
Proof.
  intros Hj. split.
  - intros k r Hr Hempty.
    destruct (preprocess_rows lower to_datetime df j Hj) as (g & Hrows & Hg).
    destruct (Hg r) as [Hlen Hnth].
    assert (j < length r) as Hlt.
    { destruct (Nat.lt_ge_cases j (length r)) as [H|H]; [exact H |].
      rewrite nth_overflow in Hempty by assumption. discriminate. }
    set (f := fun v : cell => if eq_empty v then PyNone else v) in *.
    assert (nth j (update_nth j f (g r)) NaN = PyNone) as Hnone.
    { rewrite nth_update_nth, Nat.eqb_refl, Hlen.
      apply Nat.ltb_lt in Hlt. rewrite Hlt, Hnth, Hempty. reflexivity. }
    exists (update_nth j f (g r)), (map to_sql (update_nth j f (g r))).
    assert (rows (preprocess_dataframe lower to_datetime df) !! k
            = Some (update_nth j f (g r))) as Hk.
    { rewrite Hrows.
      change (map (fun r0 => update_nth j f (g r0)) (rows df))
        with ((fun r0 => update_nth j f (g r0)) <$> rows df).
      now rewrite list_lookup_fmap, Hr. }
    split; [exact Hk |]. split; [exact Hnone |]. split.
    + unfold data_tuples.
      change (map (map to_sql) ?l) with (map to_sql <$> l).
      now rewrite list_lookup_fmap, Hk.
    + rewrite (nth_indep _ (SqlText "") (to_sql NaN))
        by (rewrite length_map, update_nth_length; lia).
      now rewrite map_nth, Hnone.
  - intros db table_name conn Hcall.
    rewrite create_table_from_csv_eq in Hcall.
    destruct (ddl_ok _); [| discriminate].
    destruct (insert_rows _ _ _) as [t|] eqn:Hins; [| discriminate].
    injection Hcall as <-. cbn [committed].
    apply insert_rows_Some in Hins as [_ Hrows]. cbn [trows app] in Hrows.
    exists t. split; [apply lookup_insert_eq |]. split; [exact Hrows |].
    intros row Hrow. rewrite Hrows in Hrow.
    eapply data_tuples_valor; eassumption.
Qed.

Lemma C10_empty_valor_is_null_witness :
  let df := mkDF ["id"; "valor"] [[Int 1; Str ""]; [Int 2; Flt "1.5"]] in
  exists t,
    committed
      (snd (create_table_from_csv lower_ascii to_datetime_ano_mes
              (fun _ => object) (fun _ => true) chave_primaria ∅ df "dados_ida"))
    !! "dados_ida" = Some t
    /\ trows t = [[SqlInt 1; SqlNull]; [SqlInt 2; SqlFloat "1.5"]].
Proof.
  cbv zeta.
  destruct (proj2 (C10_empty_valor_is_null lower_ascii to_datetime_ano_mes
                     (fun _ => object) (fun _ => true) chave_primaria
                     (mkDF ["id"; "valor"] [[Int 1; Str ""]; [Int 2; Flt "1.5"]])
                     1 eq_refl)
              ∅ "dados_ida"
              (snd (create_table_from_csv lower_ascii to_datetime_ano_mes
                      (fun _ => object) (fun _ => true) chave_primaria ∅
                      (mkDF ["id"; "valor"]
                            [[Int 1; Str ""]; [Int 2; Flt "1.5"]])
                      "dados_ida")))
    as (t & Ht & Hrows & _).
  - rewrite create_table_from_csv_eq. reflexivity.
  - exists t. split; [exact Ht |]. rewrite Hrows. reflexivity.
Defined.

(** * Further properties of the text functions *)

Module TextExtra.
Import Py PyFacts Main TrimFacts CoerceFacts.

Lemma all_chars_remove p c (s : string) :
  all_chars p s = true -> all_chars p (remove_char c s) = true.
Proof.
  induction s as [|a s IH]; simpl; [reflexivity |].
  intros [Ha Hs]%andb_true_iff.
  destruct (Ascii.eqb a c); simpl; [now apply IH | now rewrite Ha, IH].
Qed.

Lemma all_chars_keep p (s : string) : all_chars p (keep_chars p s) = true.
Proof.
  induction s as [|a s IH]; simpl; [reflexivity |].
  destruct (p a) eqn:Ha; simpl; [now rewrite Ha | assumption].
Qed.

Lemma all_chars_split p c (s : string) :
  all_chars p s = true ->
  Forall (fun x => all_chars p x = true) (split c s).
Proof.
  induction s as [|a s IH]; simpl; [now repeat constructor |].
  intros [Ha Hs]%andb_true_iff. specialize (IH Hs).
  destruct (Ascii.eqb a c); [now constructor |].
  destruct (split c s) as [|x xs]; [repeat constructor; simpl; now rewrite Ha |].
  inversion IH; subst. constructor; [simpl; now rewrite Ha | assumption].
Qed.

Lemma numeric_no_comma (s : string) :
  all_chars numeric_char s = true -> contains_char "," s = false ->
  all_chars Spec.decimal_char s = true.
Proof.
  induction s as [|a s IH]; simpl; [reflexivity |].
  intros [Ha Hs]%andb_true_iff [Hc Hcs]%orb_false_iff.
  rewrite IH by assumption. unfold numeric_char in Ha. unfold Spec.decimal_char.
  rewrite Hc, orb_false_r in Ha. now rewrite Ha.
Qed.

Lemma numeric_replace_comma (s : string) :
  all_chars numeric_char s = true ->
  all_chars Spec.decimal_char (replace_char "," "." s) = true.
Proof.
  induction s as [|a s IH]; simpl; [reflexivity |].
  intros [Ha Hs]%andb_true_iff. rewrite IH by assumption.
  destruct (Ascii.eqb a ",") eqn:Hc; [reflexivity |].
  unfold numeric_char in Ha. unfold Spec.decimal_char.
  rewrite Hc, orb_false_r in Ha. now rewrite Ha.
Qed.

Lemma decimal_remove_point (s : string) :
  all_chars numeric_char s = true -> contains_char "," s = false ->
  all_chars Spec.decimal_char (remove_char "." s) = true.
Proof.
  intros Hs Hc. apply all_chars_remove. now apply numeric_no_comma.
Qed.

Lemma converter_para_numero_str (v : cell) :
  converter_para_numero v
  = if isna v then Str "" else converter_para_numero (Str (str v)).
Proof. unfold converter_para_numero. now destruct (isna v). Qed.

Lemma converter_para_numero_decimal (v : cell) :
  exists s, converter_para_numero v = Str s /\ all_chars Spec.decimal_char s = true.
Proof.
  rewrite converter_para_numero_str.
  destruct (isna v); [now exists "" |].
  rewrite converter_para_numero_eq. cbv zeta.
  set (limpo := valor_limpo_de (strip (str v))).
  assert (all_chars numeric_char limpo = true) as Hnum
    by apply all_chars_keep.
  pose proof (all_chars_split numeric_char "," limpo Hnum) as Hparts.
  pose proof (split_pieces "," limpo) as Hnocomma.
  destruct (contains_char "," limpo) eqn:Hc.
  - destruct (contains_char "." limpo) eqn:Hp.
    + eexists. split; [reflexivity |].
      destruct (split "," limpo) as [|p0 [|p1 rest]]; cbn [hd nth].
      * reflexivity.
      * inversion Hparts; subst. inversion Hnocomma; subst.
        change (remove_char "." p0 +:+ "." +:+ "")
          with (remove_char "." p0 +:+ String "." "").
        rewrite all_chars_app, decimal_remove_point by assumption.
        reflexivity.
      * inversion Hparts as [|? ? H0 Hp']; subst.
        inversion Hp' as [|? ? H1 _]; subst.
        inversion Hnocomma as [|? ? C0 Hc']; subst.
        inversion Hc' as [|? ? C1 _]; subst.
        change (remove_char "." p0 +:+ "." +:+ p1)
          with (remove_char "." p0 +:+ String "." p1).
        rewrite all_chars_app, decimal_remove_point by assumption.
        cbn [all_chars andb]. unfold Spec.decimal_char at 1. cbn.
        now apply numeric_no_comma.
    + eexists. split; [reflexivity |]. now apply numeric_replace_comma.
  - destruct (contains_char "." limpo).
    + destruct (2 <? length (split "." limpo))%nat; eexists;
        (split; [reflexivity |]);
        [now apply decimal_remove_point | now apply numeric_no_comma].
    + eexists. split; [reflexivity |]. now apply numeric_no_comma.
Qed.

(** *** The last character *)

Lemma last_char_app (a b : string) :
  b <> "" -> Spec.last_char (a +:+ b) = Spec.last_char b.
Proof.
  intros Hb. induction a as [|x a IH]; [reflexivity |].
  cbn [String.append]. cbn [Spec.last_char]. rewrite IH.
  destruct (a +:+ b) eqn:E; [| reflexivity].
  destruct a; [now subst | discriminate].
Qed.

Lemma last_char_contains (s : string) (a : ascii) :
  Spec.last_char s = Some a -> contains_char a s = true.
Proof.
  induction s as [|x s IH]; [discriminate |].
  cbn [Spec.last_char contains_char]. destruct s as [|y s].
  - intros [= ->]. now rewrite Ascii.eqb_refl.
  - intros H. rewrite (IH H). apply orb_true_r.
Qed.

Lemma rstrip_by_last p (s : string) (a : ascii) :
  rstrip_by p s = s -> Spec.last_char s = Some a -> p a = false.
Proof.
  induction s as [|x s IH]; [discriminate |].
  intros Hfix Hlast. pose proof (rstrip_by_tail p x s Hfix) as Hs.
  cbn [Spec.last_char] in Hlast. destruct s as [|y s].
  - injection Hlast as ->. simpl in Hfix.
    destruct (p a); [discriminate | reflexivity].
  - now apply IH.
Qed.

Lemma limpar_valor_final_shape (v : cell) :
  exists s,
    limpar_valor_final v = Str s
    /\ count_char "." s <= 1
    /\ (contains_char "." s = true ->
        Spec.last_char s <> Some "0"%char /\ Spec.last_char s <> Some "."%char).
Proof.
  destruct (isna v || eq_empty v) eqn:Hna.
  { exists "". unfold limpar_valor_final. rewrite Hna.
    repeat split; simpl; (lia || discriminate). }
  apply orb_false_iff in Hna as [Hna He].
  rewrite (limpar_valor_final_eq v Hna He). cbv zeta.
  destruct (contains_char "." (str v)) eqn:Hc.
  2: { exists (str v). split; [reflexivity |]. split; [| congruence].
       apply count_char_absent in Hc. lia. }
  destruct (split_has_two _ _ Hc) as (i & f & rest & Hsp). rewrite Hsp.
  pose proof (split_pieces "." (str v)) as Hp. rewrite Hsp in Hp.
  inversion Hp as [|? ? Hi Hp']; subst. inversion Hp' as [|? ? Hf _]; subst.
  unfold Spec.decimal_trim. cbv zeta.
  destruct (String.eqb_spec (rstrip_zeros f) "") as [Hz|Hz].
  - exists i. split; [reflexivity |]. split; [| congruence].
    apply count_char_absent in Hi. lia.
  - exists (i +:+ "." +:+ rstrip_zeros f). split; [reflexivity |].
    assert (contains_char "." (rstrip_zeros f) = false) as Hf'
      by now apply contains_char_rstrip.
    change (i +:+ "." +:+ rstrip_zeros f)
      with (i +:+ String "." (rstrip_zeros f)).
    split.
    + rewrite count_char_app. cbn [count_char]. rewrite Ascii.eqb_refl.
      apply count_char_absent in Hi, Hf'. lia.
    + intros _.
      change (i +:+ String "." (rstrip_zeros f))
        with (i +:+ ("." +:+ rstrip_zeros f)).
      rewrite <- append_assoc, last_char_app by assumption. split.
      * intros Hl.
        pose proof (rstrip_by_last _ _ _ (rstrip_by_fixed _ f) Hl) as H0.
        discriminate.
      * intros Hl. apply last_char_contains in Hl. congruence.
Qed.

End TextExtra.

(** * Further properties of the frame functions *)

Module FrameExtra.
Import Py PyFacts Main TrimFacts FrameFacts ConsolidarFacts TextExtra.

(** *** [limpar_valores_decimais] *)

Lemma limpar_passo_rows (cols : list string) (df : DataFrame) (c : string) :
  columns df = cols ->
  limpar_valores_decimais_passo df c
  = mkDF cols (map (fun r => Spec.passo_linha cols r c) (rows df)).
Proof.
  intros <-. unfold limpar_valores_decimais_passo, Spec.passo_linha, Spec.coluna_ignorada.
  destruct df as [cols rws]. cbn [columns rows].
  destruct (in_list c colunas_identificacao); cbn [orb];
    [now rewrite map_id |].
  destruct (re_match re_ano_mes c); [now rewrite map_id |].
  unfold apply_column. cbn [columns rows].
  destruct (index_of c cols); [reflexivity | now rewrite map_id].
Qed.

Lemma limpar_fold_rows (cols cs : list string) :
  forall df, columns df = cols ->
    fold_left limpar_valores_decimais_passo cs df
    = mkDF cols (map (fun r => fold_left (Spec.passo_linha cols) cs r) (rows df)).
Proof.
  induction cs as [|c cs IH]; intros df Hc; simpl.
  - rewrite map_id. destruct df; simpl in *; now subst.
  - rewrite (limpar_passo_rows cols df c Hc).
    rewrite IH by reflexivity. cbn [rows]. now rewrite map_map.
Qed.



(** A position no cleaned column sits at keeps its cell. *)
Lemma fold_passo_other cols cs j :
  (forall c, In c cs -> Spec.coluna_ignorada c = false ->
             index_of c cols <> Some j) ->
  forall r, nth j (fold_left (Spec.passo_linha cols) cs r) NaN = nth j r NaN.
Proof.
  induction cs as [|c cs IH]; intros Hno r; simpl; [reflexivity |].
  rewrite IH by (intros; apply Hno; [now right | assumption]).
  unfold Spec.passo_linha. destruct (Spec.coluna_ignorada c) eqn:Hig; [reflexivity |].
  destruct (index_of c cols) as [i|] eqn:Hi; [| reflexivity].
  rewrite nth_update_nth.
  destruct (Nat.eqb_spec j i) as [->|_]; [| reflexivity].
  exfalso. now apply (Hno c (or_introl eq_refl) Hig).
Qed.



Lemma limpar_valores_decimais_rows (df : DataFrame) :
  limpar_valores_decimais df
  = mkDF (columns df)
      (map (fun r => fold_left (Spec.passo_linha (columns df)) (columns df) r)
           (rows df)).
Proof. unfold limpar_valores_decimais. now apply limpar_fold_rows. Qed.

Lemma limpar_linha_ignorada (cols : list string) (r : list cell) (c : string) :
  Spec.coluna_ignorada c = true ->
  get_cell cols (fold_left (Spec.passo_linha cols) cols r) c = get_cell cols r c.
Proof.
  intros Hig. unfold get_cell.
  destruct (index_of c cols) as [j|] eqn:Hj; [| reflexivity].
  apply fold_passo_other. intros c' _ Hig' Hj'.
  assert (c' = c) by (eapply index_of_inj; eassumption). congruence.
Qed.


(** *** [set_column] and the reshaper *)

Lemma set_column_get (c : string) (v : cell) (df : DataFrame) (r : list cell) :
  Forall (fun r => length r = length (columns df)) (rows df) ->
  In r (rows (set_column c v df)) ->
  get_cell (columns (set_column c v df)) r c = v.
Proof.
  intros Hwf. rewrite List.Forall_forall in Hwf.
  unfold set_column, get_cell.
  destruct (index_of c (columns df)) as [i|] eqn:Hi; cbn [columns rows].
  - intros (r0 & <- & Hr0)%in_map_iff. rewrite Hi, nth_update_nth.
    rewrite Nat.eqb_refl. apply index_of_nth in Hi as [_ Hi].
    rewrite (Hwf r0 Hr0). apply Nat.ltb_lt in Hi. now rewrite Hi.
  - intros (r0 & <- & Hr0)%in_map_iff.
    apply index_of_None in Hi.
    rewrite index_of_app_r by assumption. cbn [index_of].
    rewrite String.eqb_refl. cbn [option_map].
    rewrite <- (Hwf r0 Hr0), Nat.add_0_r, app_nth2 by lia.
    now rewrite Nat.sub_diag.
Qed.

Lemma set_column_length (c : string) (v : cell) (df : DataFrame) :
  length (rows (set_column c v df)) = length (rows df).
Proof.
  unfold set_column. destruct (index_of c (columns df)); cbn [rows];
    apply length_map.
Qed.

Lemma flat_map_ext_in {A B : Type} (f g : A -> list B) (l : list A) :
  (forall a, In a l -> f a = g a) -> flat_map f l = flat_map g l.
Proof.
  induction l as [|a l IH]; intros H; simpl; [reflexivity |].
  rewrite (H a) by now left. rewrite IH; [reflexivity |].
  intros; apply H; now right.
Qed.

Lemma classificar_id_ignorada (c : string) (cols : list string) :
  In c (classificar_id cols) -> Spec.coluna_ignorada c = true.
Proof.
  unfold classificar_id, Spec.coluna_ignorada. intros [_ H]%filter_In.
  now rewrite H.
Qed.

Lemma classificar_data_ignorada (c : string) (cols : list string) :
  In c (classificar_data cols) -> Spec.coluna_ignorada c = true.
Proof.
  unfold classificar_data, Spec.coluna_ignorada. intros [_ H]%filter_In.
  apply andb_true_iff in H as [_ ->]. apply orb_true_r.
Qed.

End FrameExtra.

(** * The reshaper, on every path *)

Module ReshapeExtra.
Import Py PyFacts Main FrameFacts ConsolidarFacts TextExtra FrameExtra.

Section Paths.
Variable to_datetime : cell -> cell.

(** No identifier column or no period column: the wide fallback. *)
Lemma transformar_wide (df : DataFrame) (servico : string) :
  classificar_id (columns df) = [] \/ classificar_data (columns df) = [] ->
  transformar_para_formato_longo to_datetime df servico
  = set_column "SERVICO" (Str servico) df.
Proof.
  intros H. unfold transformar_para_formato_longo. cbv zeta.
  destruct H as [-> | ->]; cbn [length Nat.eqb orb];
    [reflexivity | now rewrite orb_true_r].
Qed.

(** The three paths of the reshaper. *)
Lemma transformar_paths (df : DataFrame) (servico : string) :
  transformar_para_formato_longo to_datetime df servico
  = set_column "SERVICO" (Str servico) df
  \/ (~ In "VALOR" (columns df)
      /\ classificar_id (columns df) <> []
      /\ classificar_data (columns df) <> []).
Proof.
  destruct (classificar_id (columns df)) as [|i ids] eqn:Eid;
    [left; apply transformar_wide; now left |].
  destruct (classificar_data (columns df)) as [|d ds] eqn:Ed;
    [left; apply transformar_wide; now right |].
  destruct (in_dec string_dec "VALOR" (columns df)) as [HV|HV].
  - left. now apply transformar_fallback.
  - right. now repeat split.
Qed.

(** A row of the melted frame, cell by cell. *)
Lemma melted_row (df : DataFrame) (servico : string) (r : list cell) :
  ~ In "VALOR" (columns df) ->
  classificar_id (columns df) <> [] ->
  classificar_data (columns df) <> [] ->
  let out := transformar_para_formato_longo to_datetime df servico in
  In r (rows out) ->
  exists d r0,
    In d (classificar_data (columns df)) /\ In r0 (rows df)
    /\ get_cell (columns out) r "REFERENCIA_MES" = to_datetime (Str d)
    /\ get_cell (columns out) r "VALOR"
       = converter_para_numero (get_cell (columns df) r0 d)
    /\ get_cell (columns out) r "SERVICO" = Str servico.
Proof.
  intros HV Hid Hdata. cbv zeta.
  rewrite (transformar_melted to_datetime df servico HV Hid Hdata).
  cbn [columns rows].
  intros (d & Hd & Hr)%in_flat_map. apply in_map_iff in Hr as (r0 & <- & Hr0).
  exists d, r0. split; [assumption |]. split; [assumption |].
  set (ids := classificar_id (columns df)).
  set (idvals := map (get_cell (columns df) r0) ids).
  assert (length idvals = length ids) as Hlen by apply length_map.
  assert (~ In "REFERENCIA_MES" ids) as HnR
    by (apply not_id_label; vm_compute; intuition discriminate).
  assert (~ In "VALOR" ids) as HnV
    by (apply not_id_label; vm_compute; intuition discriminate).
  assert (~ In "SERVICO" ids) as HnS
    by (apply not_id_label; vm_compute; intuition discriminate).
  unfold get_cell. rewrite !index_of_app_r by assumption.
  cbn [index_of String.eqb Ascii.eqb Bool.eqb option_map].
  rewrite <- Hlen. rewrite !app_nth2_plus. repeat split.
Qed.
End Paths.

End ReshapeExtra.

(** * The extractor and the catalogue *)

Module ExtractExtra.
Import Py PyFacts Main LocatorFacts FrameFacts.

Lemma fold_left_filter {A B : Type} (P : B -> A -> bool) (xs : list B) :
  forall l : list A,
    fold_left (fun l x => List.filter (P x) l) xs l
    = List.filter (fun a => forallb (fun x => P x a) xs) l.
Proof.
  induction xs as [|x xs IH]; intros l; simpl.
  - induction l as [|a l IHl]; simpl; [reflexivity | now rewrite <- IHl].
  - rewrite IH. clear IH. induction l as [|a l IHl]; simpl; [reflexivity |].
    destruct (P x a); simpl; [| exact IHl].
    destruct (forallb (fun x0 => P x0 a) xs); [now rewrite IHl | exact IHl].
Qed.

Lemma filter_sublist {A : Type} (P : A -> bool) (l : list A) :
  sublist (List.filter P l) l.
Proof.
  induction l as [|a l IH]; simpl; [constructor |].
  destruct (P a); [now apply sublist_skip | now apply sublist_cons].
Qed.

Section ExtratorFacts.
Variable upper : string -> string.
Variable contem : string -> string -> bool.

Lemma filter_true {A : Type} (l : list A) :
  List.filter (fun _ => true) l = l.
Proof. induction l as [|a l IH]; simpl; [reflexivity | now rewrite IH]. Qed.

Lemma filter_filter {A : Type} (P Q : A -> bool) (l : list A) :
  List.filter P (List.filter Q l) = List.filter (fun a => Q a && P a) l.
Proof.
  induction l as [|a l IH]; simpl; [reflexivity |].
  destruct (Q a); simpl; [destruct (P a); now rewrite IH | exact IH].
Qed.

Lemma remover_fold (rots cs : list cell) :
  forall dados,
    fold_left
      (fun dados col =>
         if rotulo_texto col
         then fold_left (remover_padrao contem rots col) padroes_metadados dados
         else dados)
      cs dados
    = List.filter
        (fun linha =>
           forallb
             (fun col =>
                negb (rotulo_texto col)
                || forallb
                     (fun padrao =>
                        negb (contem padrao (str (celula rots linha col))))
                     padroes_metadados)
             cs)
        dados.
Proof.
  induction cs as [|col cs IH]; intros dados.
  - cbn [fold_left forallb]. now rewrite filter_true.
  - cbn [fold_left forallb]. rewrite IH.
    destruct (rotulo_texto col); cbn [negb orb].
    + unfold remover_padrao at 1.
      rewrite (fold_left_filter
                 (fun padrao linha =>
                    negb (contem padrao (str (celula rots linha col))))).
      apply filter_filter.
    + reflexivity.
Qed.

Lemma remover_metadados_filter (rots : list cell) (dados : list (list cell)) :
  remover_metadados contem rots dados
  = List.filter (Spec.sem_metadados contem rots) dados.
Proof. apply remover_fold. Qed.

Lemma extrair_unchanged (df : Regiao) :
  encontrar_linha_inicio_dados upper (linhas df) = 0 ->
  extrair_dados_reais upper contem df = df.
Proof. intros H. unfold extrair_dados_reais. now rewrite H. Qed.

Lemma extrair_promoted (df : Regiao) (i : nat) (header : list cell) :
  0 < i -> linhas df !! i = Some header ->
  encontrar_linha_inicio_dados upper (linhas df) = i ->
  extrair_dados_reais upper contem df
  = mkRegiao header
      (List.filter
         (fun linha => negb (forallb isna linha) && Spec.sem_metadados contem header linha)
         (skipn (S i) (linhas df))).
Proof.
  intros Hi Hh He. unfold extrair_dados_reais. rewrite He. cbv zeta.
  apply Nat.ltb_lt in Hi. rewrite Hi.
  rewrite nth_lookup, Hh. cbn [default]. rewrite Nat.add_1_r.
  rewrite remover_metadados_filter. unfold dropna_all. f_equal.
  rewrite filter_filter. apply filter_ext. intros linha. apply andb_comm.
Qed.
End ExtratorFacts.

(** *** [re.search] and the year of a title *)

Lemma re_search_first (p : list pat) (a b : string) :
  re_match p b = true ->
  (forall a1 a2, a = a1 +:+ a2 -> a2 <> "" -> re_match p (a2 +:+ b) = false) ->
  re_search p (a +:+ b) = Some (take_chars (length p) b).
Proof.
  intros Hb. induction a as [|x a IH]; intros Hno.
  - cbn [String.append]. destruct b; simpl in *; now rewrite Hb.
  - cbn [String.append re_search].
    change (String x (a +:+ b)) with (String x a +:+ b).
    rewrite (Hno "" (String x a)) by (reflexivity || discriminate).
    apply IH. intros a1 a2 -> Ha2. now apply (Hno (String x a1) a2).
Qed.

Lemma re_search_none (p : list pat) (s : string) :
  re_search p s = None <->
  (forall a b, s = a +:+ b -> re_match p b = false).
Proof.
  induction s as [|x s IH].
  - cbn [re_search]. destruct (re_match p "") eqn:E.
    + split; [discriminate |]. intros H. rewrite (H "" "") in E by reflexivity.
      discriminate.
    + split; [| reflexivity]. intros _ a b Hab.
      destruct a; [| discriminate]. simpl in Hab. now subst.
  - cbn [re_search]. destruct (re_match p (String x s)) eqn:E.
    + split; [discriminate |]. intros H.
      rewrite (H "" (String x s)) in E by reflexivity. discriminate.
    + rewrite IH. split.
      * intros H a b Hab. destruct a as [|y a].
        -- simpl in Hab. now subst.
        -- injection Hab as -> ->. now apply (H a b).
      * intros H a b ->. now apply (H (String x a) b).
Qed.

Lemma re_search_digits (s m : string) :
  re_search [D; D; D; D] s = Some m ->
  exists a b c d : ascii,
    m = String a (String b (String c (String d "")))
    /\ is_digit a = true /\ is_digit b = true
    /\ is_digit c = true /\ is_digit d = true.
Proof.
  induction s as [|x s IH]; cbn [re_search].
  - cbn. discriminate.
  - destruct (re_match [D; D; D; D] (String x s)) eqn:E; [| exact IH].
    intros [= <-]. cbn in E.
    destruct s as [|b [|c [|d s]]]; cbn in E;
      rewrite ?andb_false_r in E; try discriminate.
    apply andb_true_iff in E as [Ha E]. apply andb_true_iff in E as [Hb E].
    apply andb_true_iff in E as [Hc E]. apply andb_true_iff in E as [Hd _].
    exists x, b, c, d. now repeat split.
Qed.

Lemma digit_val_le (a : ascii) : is_digit a = true -> digit_val a <= 9.
Proof.
  unfold is_digit, digit_val. cbv zeta.
  intros [H1 H2]%andb_true_iff. apply Nat.leb_le in H1, H2. lia.
Qed.



End ExtractExtra.

(** * Consolidation and import, further *)

Module ConsolidarExtra.
Import Py Main FrameFacts ConsolidarFacts ConnectPostgre ImporterFacts.

Lemma add_label_In (acc : list string) (c x : string) :
  In x (add_label acc c) <-> In x acc \/ x = c.
Proof.
  unfold add_label. destruct (in_list c acc) eqn:E.
  - apply in_list_In in E. split; [tauto |]. intros [H| ->]; assumption.
  - rewrite in_app_iff. simpl. intuition.
Qed.

Lemma fold_add_label_In (cs acc : list string) (x : string) :
  In x (fold_left add_label cs acc) <-> In x acc \/ In x cs.
Proof.
  revert acc. induction cs as [|c cs IH]; intros acc; simpl; [tauto |].
  rewrite IH, add_label_In. intuition.
Qed.

Lemma fold_add_label_absorb (cs acc : list string) :
  (forall c, In c cs -> In c acc) -> fold_left add_label cs acc = acc.
Proof.
  revert acc. induction cs as [|c cs IH]; intros acc H; simpl; [reflexivity |].
  assert (add_label acc c = acc) as ->.
  { unfold add_label. now rewrite (proj2 (in_list_In c acc) (H c (or_introl eq_refl))). }
  apply IH. intros; apply H; now right.
Qed.

Lemma union_columns_acc (dfs : list DataFrame) (acc : list string) (x : string) :
  In x (fold_left (fun acc df => fold_left add_label (columns df) acc) dfs acc)
  <-> In x acc \/ exists df, In df dfs /\ In x (columns df).
Proof.
  revert acc. induction dfs as [|d dfs IH]; intros acc; simpl.
  - split; [tauto |]. intros [H|(df & [] & _)]. exact H.
  - rewrite IH, fold_add_label_In. split.
    + intros [[H|H]|(df & Hdf & Hx)]; [tauto | right; exists d; tauto |].
      right. exists df. tauto.
    + intros [H|(df & [<-|Hdf] & Hx)]; [tauto | tauto |].
      right. exists df. tauto.
Qed.

Lemma union_columns_In (dfs : list DataFrame) (x : string) :
  In x (union_columns dfs) <-> exists df, In df dfs /\ In x (columns df).
Proof.
  unfold union_columns. rewrite union_columns_acc. simpl. tauto.
Qed.

Lemma union_columns_repeat (dfs : list DataFrame) (df : DataFrame) :
  In df dfs -> union_columns (dfs ++ [df]) = union_columns dfs.
Proof.
  intros Hdf. unfold union_columns. rewrite fold_left_app. cbn [fold_left].
  apply fold_add_label_absorb. intros c Hc.
  apply union_columns_In. now exists df.
Qed.

Lemma keep_first_seen (l seen : list (list cell)) :
  (forall r, In r l -> In r seen) -> keep_first seen l = [].
Proof.
  revert seen. induction l as [|x l IH]; intros seen H; simpl; [reflexivity |].
  destruct (decide (x ∈ seen)) as [_|Hx].
  - apply IH. intros; apply H; now right.
  - exfalso. apply Hx, list_elem_of_In, H. now left.
Qed.

Lemma keep_first_app (l l' seen : list (list cell)) :
  (forall r, In r l' -> In r l \/ In r seen) ->
  keep_first seen (l ++ l') = keep_first seen l.
Proof.
  revert seen. induction l as [|x l IH]; intros seen H; simpl.
  - apply keep_first_seen. intros r Hr. destruct (H r Hr); [contradiction | assumption].
  - destruct (decide (x ∈ seen)).
    + apply IH. intros r Hr. destruct (H r Hr) as [[<-|Hl]|Hs]; try tauto.
      right. now apply list_elem_of_In.
    + f_equal. apply IH. intros r Hr. destruct (H r Hr) as [[<-|Hl]|Hs];
        simpl; tauto.
Qed.

Lemma keep_first_NoDup_id (l seen : list (list cell)) :
  List.NoDup l -> (forall r, In r l -> ~ In r seen) -> keep_first seen l = l.
Proof.
  revert seen. induction l as [|x l IH]; intros seen Hnd Hs; simpl;
    [reflexivity |].
  inversion Hnd as [|? ? Hx Hnd']; subst.
  destruct (decide (x ∈ seen)) as [Hin|_].
  - exfalso. apply (Hs x); [now left | now apply list_elem_of_In].
  - f_equal. apply IH; [assumption |].
    intros r Hr [<-|Hrs]; [contradiction |]. apply (Hs r); [now right | assumption].
Qed.

Lemma drop_duplicates_repeat (vazio : string -> cell) (dfs : list DataFrame)
    (df : DataFrame) :
  In df dfs ->
  drop_duplicates (concat vazio (dfs ++ [df]))
  = drop_duplicates (concat vazio dfs).
Proof.
  intros Hdf. unfold drop_duplicates, concat. cbv zeta. cbn [columns rows].
  rewrite union_columns_repeat by assumption. f_equal.
  rewrite flat_map_app. cbn [flat_map]. rewrite app_nil_r.
  apply keep_first_app. intros r Hr. left.
  apply in_flat_map. now exists df.
Qed.

(** [consolidar] looks at its frames only through their deduplicated
    concatenation. *)
Lemma consolidar_ext (vazio : string -> cell) (dfs dfs' : list DataFrame) :
  dfs <> [] -> dfs' <> [] ->
  drop_duplicates (concat vazio dfs) = drop_duplicates (concat vazio dfs') ->
  consolidar vazio dfs = consolidar vazio dfs'.
Proof.
  intros H H' E. unfold consolidar.
  destruct dfs as [|d dfs]; [congruence |].
  destruct dfs' as [|d' dfs']; [congruence |].
  cbv zeta. now rewrite E.
Qed.

(** *** The importer *)

Lemma apply_column_shape (f : cell -> cell) (c : string) (df : DataFrame) :
  columns (apply_column f c df) = columns df
  /\ rows (apply_column f c df)
     = map (fun r => match index_of c (columns df) with
                     | Some i => update_nth i f r
                     | None => r
                     end) (rows df).
Proof.
  unfold apply_column. destruct (index_of c (columns df)); cbn [columns rows];
    [now split | now rewrite map_id].
Qed.

End ConsolidarExtra.

(** * Further properties *)

Import TextExtra FrameExtra.



(** The cleaned cells are outside the columns the melt reads. *)
Lemma limpeza_fora_do_melt
    (to_datetime : cell -> cell) (df : DataFrame) (servico : string) :
  ~ In "VALOR" (columns df) ->
  classificar_id (columns df) <> [] ->
  classificar_data (columns df) <> [] ->
  transformar_para_formato_longo to_datetime
    (normalizar_colunas_data (limpar_valores_decimais df)) servico
  = transformar_para_formato_longo to_datetime df servico.
Proof.
  intros HV Hid Hdata. rewrite normalizar_colunas_data_id.
  rewrite limpar_valores_decimais_rows.
  rewrite !transformar_melted by assumption. cbn [columns rows].
  f_equal. apply flat_map_ext_in. intros d Hd. rewrite map_map.
  apply map_ext. intros r. f_equal.
  - apply map_ext_in. intros c Hc.
    apply limpar_linha_ignorada. eapply classificar_id_ignorada, Hc.
  - rewrite limpar_linha_ignorada; [reflexivity |].
    eapply classificar_data_ignorada, Hd.
Qed.

(** X2: the two cleaning passes that run before the reshape do not change
    what the reshape produces.  [limpar_valores_decimais] skips exactly the
    identifier and year-month columns that the melt reads, and
    [normalizar_colunas_data] renames nothing, so on a region that is
    melted the long frame is the same with or without them. *)
Theorem X2_cleaning_does_not_reach_the_melt
    (to_datetime : cell -> cell) (df : DataFrame) (servico : string) :
  List.NoDup (columns df) ->
  ~ In "VALOR" (columns df) ->
  classificar_id (columns df) <> [] ->
  classificar_data (columns df) <> [] ->
  transformar_para_formato_longo to_datetime
    (normalizar_colunas_data (limpar_valores_decimais df)) servico
  = transformar_para_formato_longo to_datetime df servico.
Proof.
  intros _ HV Hid Hdata. now apply limpeza_fora_do_melt.
Qed.

Lemma X2_cleaning_does_not_reach_the_melt_witness :
  let df := mkDF ["GRUPO_ECONOMICO"; "VARIAVEL"; "2020-01"; "Total"]
                 [[Str "OI"; Str "x"; Str "15.00"; Str "15.00"]] in
  rows (transformar_para_formato_longo to_datetime_ano_mes
          (normalizar_colunas_data (limpar_valores_decimais df)) "SCM")
  = [[Str "OI"; Str "x"; Ts 2020 1; Str "15.00"; Str "SCM"]].
Proof.
  cbv zeta. rewrite X2_cleaning_does_not_reach_the_melt.
  - reflexivity.
  - repeat constructor; vm_compute; intuition discriminate.
  - vm_compute. intuition discriminate.
  - vm_compute. discriminate.
  - vm_compute. discriminate.
Defined.

(** X3: whatever the cell, [converter_para_numero] returns a text, and
    that text has no comma; for a cell whose text is Latin text, it is
    made of digits and periods only: no sign, no letter, no space. *)
Theorem X3_converter_para_numero_alphabet (valor : cell) :
  (exists s,
      converter_para_numero valor = Str s /\ contains_char "," s = false)
  /\ (texto_latino (str valor) = true ->
      exists s,
        converter_para_numero valor = Str s
        /\ all_chars (fun a => is_digit a || Ascii.eqb a ".") s = true).
Proof.
  destruct (converter_para_numero_decimal valor) as (s & E & Hs).
  split.
  - exists s. split; [exact E |].
    revert Hs. apply all_chars_absent. reflexivity.
  - intros _. now exists s.
Qed.

Lemma X3_converter_para_numero_alphabet_witness :
  exists s,
    converter_para_numero (Str " R$ -1.234,50 ") = Str s
    /\ all_chars (fun a => is_digit a || Ascii.eqb a ".") s = true.
Proof.
  apply (proj2 (X3_converter_para_numero_alphabet (Str " R$ -1.234,50 "))).
  reflexivity.
Defined.

(** X4: whatever the cell, [limpar_valor_final] returns a text with at
    most one period, and a result that has a period ends neither with a
    zero nor with the period. *)
Theorem X4_limpar_valor_final_shape (valor : cell) :
  exists s,
    limpar_valor_final valor = Str s
    /\ count_char "." s <= 1
    /\ (contains_char "." s = true ->
        Spec.last_char s <> Some "0"%char /\ Spec.last_char s <> Some "."%char).
Proof. apply limpar_valor_final_shape. Qed.

Import ReshapeExtra.

(** X5: on every path (melted, or returned wide because a column kind is
    missing or the melt raised), every row the reshaper returns carries the
    category label in the column SERVICO. *)
Theorem X5_every_row_is_tagged
    (to_datetime : cell -> cell) (df : DataFrame) (servico : string)
    (r : list cell) :
  List.NoDup (columns df) ->
  Forall (fun r => length r = length (columns df)) (rows df) ->
  In r (rows (transformar_para_formato_longo to_datetime df servico)) ->
  get_cell (columns (transformar_para_formato_longo to_datetime df servico))
           r "SERVICO"
  = Str servico.
Proof.
  intros _ Hwf Hr.
  destruct (transformar_paths to_datetime df servico) as [E|(HV & Hid & Hd)].
  - rewrite E in *. now apply set_column_get.
  - destruct (melted_row to_datetime df servico r HV Hid Hd Hr)
      as (_ & _ & _ & _ & _ & _ & H). exact H.
Qed.

Lemma X5_every_row_is_tagged_witness :
  let df := mkDF ["GRUPO_ECONOMICO"; "SERVICO"; "Total"]
                 [[Str "OI"; Str "antigo"; Str "7"]] in
  get_cell (columns (transformar_para_formato_longo to_datetime_ano_mes df "SMP"))
           [Str "OI"; Str "SMP"; Str "7"] "SERVICO"
  = Str "SMP".
Proof.
  cbv zeta. apply X5_every_row_is_tagged.
  - repeat constructor; vm_compute; intuition discriminate.
  - repeat constructor.
  - vm_compute. tauto.
Defined.

(** X6: in the melted frame, every cell of the column VALOR is a text, the
    coercion of the cell of some row under some period column, and the cell
    of REFERENCIA_MES is the date read from that column's label; when the
    text of the source cell is Latin text, the VALOR cell is made of digits
    and periods only (it may be empty). *)
Theorem X6_melted_value_cells
    (to_datetime : cell -> cell) (df : DataFrame) (servico : string)
    (r : list cell) :
  List.NoDup (columns df) ->
  ~ In "VALOR" (columns df) ->
  classificar_id (columns df) <> [] ->
  classificar_data (columns df) <> [] ->
  let out := transformar_para_formato_longo to_datetime df servico in
  In r (rows out) ->
  exists (d : string) (r0 : list cell) (s : string),
    In d (classificar_data (columns df)) /\ In r0 (rows df)
    /\ get_cell (columns out) r "REFERENCIA_MES" = to_datetime (Str d)
    /\ get_cell (columns out) r "VALOR" = Str s
    /\ Str s = converter_para_numero (get_cell (columns df) r0 d)
    /\ (texto_latino (str (get_cell (columns df) r0 d)) = true ->
        all_chars (fun a => is_digit a || Ascii.eqb a ".") s = true).
Proof.
  intros _ HV Hid Hd out Hr.
  destruct (melted_row to_datetime df servico r HV Hid Hd Hr)
    as (d & r0 & Hd' & Hr0 & Hmes & Hval & _).
  destruct (converter_para_numero_decimal (get_cell (columns df) r0 d))
    as (s & Es & Hs).
  exists d, r0, s.
  split; [assumption |]. split; [assumption |]. split; [assumption |].
  split; [fold out in Hval; now rewrite Hval |].
  split; [now rewrite Es | intros _; exact Hs].
Qed.

Lemma X6_melted_value_cells_witness :
  let df := mkDF ["GRUPO_ECONOMICO"; "VARIAVEL"; "2020-01"]
                 [[Str "OI"; Str "x"; Str "R$ 1.234,50"]] in
  let out := transformar_para_formato_longo to_datetime_ano_mes df "SCM" in
  exists s,
    get_cell (columns out) [Str "OI"; Str "x"; Ts 2020 1; Str "1234.50"; Str "SCM"]
             "VALOR" = Str s
    /\ all_chars (fun a => is_digit a || Ascii.eqb a ".") s = true.
Proof.
  cbv zeta.
  destruct (X6_melted_value_cells to_datetime_ano_mes
              (mkDF ["GRUPO_ECONOMICO"; "VARIAVEL"; "2020-01"]
                    [[Str "OI"; Str "x"; Str "R$ 1.234,50"]])
              "SCM"
              [Str "OI"; Str "x"; Ts 2020 1; Str "1234.50"; Str "SCM"])
    as (d & r0 & s & Hd & Hr0 & _ & Hs & _ & Hall).
  - repeat constructor; vm_compute; intuition discriminate.
  - vm_compute. intuition discriminate.
  - vm_compute. discriminate.
  - vm_compute. discriminate.
  - vm_compute. tauto.
  - exists s. split; [exact Hs |]. apply Hall.
    vm_compute in Hd, Hr0.
    destruct Hd as [<-|[]]. destruct Hr0 as [<-|[]]. reflexivity.
Defined.

Import ExtractExtra.

(** X7: when the header marker is in the very first row, or in no row at
    all, [extrair_dados_reais] returns the table exactly as it received it:
    no row is promoted to labels and no row is removed, metadata rows and
    empty rows included. *)
Theorem X7_extrair_dados_reais_unchanged
    (upper : string -> string) (contem : string -> string -> bool)
    (df : Regiao) :
  (forall l0, linhas df !! 0 = Some l0 -> tem_marcador upper l0 = true ->
              extrair_dados_reais upper contem df = df)
  /\ ((forall l, In l (linhas df) -> tem_marcador upper l = false) ->
      extrair_dados_reais upper contem df = df).
Proof.
  split.
  - intros l0 Hl0 Hm. apply extrair_unchanged.
    unfold encontrar_linha_inicio_dados.
    rewrite (percorrer_first upper (linhas df) 0 0 l0 Hl0 Hm); [reflexivity |].
    intros j l Hj. lia.
  - intros Hnone. apply extrair_unchanged.
    unfold encontrar_linha_inicio_dados.
    now rewrite (percorrer_none upper (linhas df) 0 Hnone).
Qed.

Lemma X7_extrair_dados_reais_unchanged_witness :
  let df := mkRegiao [Int 0; Int 1]
              [[Str "GRUPO ECONÔMICO"; Str "2020-01"];
               [Str "FONTE: ANATEL"; NaN]; [NaN; NaN]] in
  extrair_dados_reais upper_latin contem_latin df = df
  /\ extrair_dados_reais upper_latin contem_latin
       (mkRegiao [Int 0] [[Str "FONTE: ANATEL"]; [NaN]])
     = mkRegiao [Int 0] [[Str "FONTE: ANATEL"]; [NaN]].
Proof.
  cbv zeta. split.
  - apply (proj1 (X7_extrair_dados_reais_unchanged upper_latin contem_latin _)
             [Str "GRUPO ECONÔMICO"; Str "2020-01"]); reflexivity.
  - apply (proj2 (X7_extrair_dados_reais_unchanged upper_latin contem_latin _)).
    intros l [<-|[<-|[]]]; reflexivity.
Defined.

(** X8: when the first row with the header marker is row i > 0,
    [extrair_dados_reais] promotes that row to labels and keeps, in their
    order, exactly the rows after it that are not entirely missing and in
    which no column with a text label holds one of the metadata phrases. *)
Theorem X8_extrair_dados_reais_region
    (upper : string -> string) (contem : string -> string -> bool)
    (df : Regiao) (i : nat) (header : list cell) :
  0 < i ->
  linhas df !! i = Some header ->
  tem_marcador upper header = true ->
  (forall j l, j < i -> linhas df !! j = Some l -> tem_marcador upper l = false) ->
  List.NoDup (List.filter rotulo_texto header) ->
  let out := extrair_dados_reais upper contem df in
  rotulos out = header
  /\ sublist (linhas out) (skipn (S i) (linhas df))
  /\ forall linha,
      In linha (linhas out) <->
      (In linha (skipn (S i) (linhas df))
       /\ forallb isna linha = false
       /\ forall col padrao,
            In col header -> rotulo_texto col = true ->
            In padrao padroes_metadados ->
            contem padrao (str (celula header linha col)) = false).
Proof.
  intros Hi Hh Hm Hbefore _. cbv zeta.
  assert (encontrar_linha_inicio_dados upper (linhas df) = i) as He.
  { unfold encontrar_linha_inicio_dados.
    now rewrite (percorrer_first upper (linhas df) 0 i header Hh Hm Hbefore). }
  rewrite (extrair_promoted upper contem df i header Hi Hh He).
  cbn [rotulos linhas]. split; [reflexivity |]. split; [apply filter_sublist |].
  intros linha. rewrite filter_In, andb_true_iff, negb_true_iff.
  unfold Spec.sem_metadados. rewrite forallb_forall.
  split.
  - intros (Hin & Hna & Hsem). repeat split; try assumption.
    intros col padrao Hcol Htxt Hp. specialize (Hsem col Hcol).
    rewrite Htxt in Hsem. cbn [negb orb] in Hsem.
    rewrite forallb_forall in Hsem. specialize (Hsem padrao Hp).
    now apply negb_true_iff in Hsem.
  - intros (Hin & Hna & Hsem). repeat split; try assumption.
    intros col Hcol. destruct (rotulo_texto col) eqn:Htxt; [| reflexivity].
    cbn [negb orb]. apply forallb_forall. intros padrao Hp.
    apply negb_true_iff. now apply Hsem.
Qed.

Lemma X8_extrair_dados_reais_region_witness :
  let df := mkRegiao [Int 0; Int 1; Int 2]
              [[Str "IDA"; NaN; NaN];
               [Str "Grupo Econômico"; Str "Variável"; Str "2020-01"];
               [Str "OI"; Str "x"; Str "1,5"];
               [NaN; NaN; NaN];
               [Str "Fonte: Anatel"; NaN; NaN]] in
  let out := extrair_dados_reais upper_latin contem_latin df in
  rotulos out = [Str "Grupo Econômico"; Str "Variável"; Str "2020-01"]
  /\ In [Str "OI"; Str "x"; Str "1,5"] (linhas out)
  /\ ~ In [NaN; NaN; NaN] (linhas out)
  /\ ~ In [Str "Fonte: Anatel"; NaN; NaN] (linhas out).
Proof.
  cbv zeta.
  destruct (X8_extrair_dados_reais_region upper_latin contem_latin
              (mkRegiao [Int 0; Int 1; Int 2]
                 [[Str "IDA"; NaN; NaN];
                  [Str "Grupo Econômico"; Str "Variável"; Str "2020-01"];
                  [Str "OI"; Str "x"; Str "1,5"];
                  [NaN; NaN; NaN];
                  [Str "Fonte: Anatel"; NaN; NaN]])
              1 [Str "Grupo Econômico"; Str "Variável"; Str "2020-01"])
    as (Hlab & _ & Hrows).
  - lia.
  - reflexivity.
  - reflexivity.
  - intros j l Hj Hl. destruct j as [|j]; [| lia]. injection Hl as <-.
    reflexivity.
  - repeat constructor; vm_compute; intuition discriminate.
  - split; [exact Hlab |]. split; [| split].
    + apply Hrows. split; [vm_compute; tauto |]. split; [reflexivity |].
      intros col padrao Hcol _ Hp. vm_compute in Hcol, Hp.
      repeat (destruct Hcol as [<-|Hcol]);
        try contradiction;
        repeat (destruct Hp as [<-|Hp]); try contradiction; reflexivity.
    + intros H. apply Hrows in H as (_ & H & _). discriminate.
    + intros H. apply Hrows in H as (_ & _ & H).
      specialize (H (Str "Grupo Econômico") "FONTE:").
      assert (contem_latin "FONTE:"
                (str (celula [Str "Grupo Econômico"; Str "Variável";
                              Str "2020-01"]
                             [Str "Fonte: Anatel"; NaN; NaN]
                             (Str "Grupo Econômico"))) = true) as E
        by reflexivity.
      rewrite H in E; [discriminate | vm_compute; tauto | reflexivity
                       | vm_compute; tauto].
Defined.

(** What one resource contributes to the filtered list. *)
Lemma extrair_urls_passo_cases (upper : string -> string) (rec : recurso) :
  extrair_urls_passo upper rec = []
  \/ (r_link rec <> ""
      /\ existsb (fun s => contains s (upper (r_titulo rec)))
                 ["SCM"; "SMP"; "STFC"] = true
      /\ contains "ODS" (upper (r_formato rec))
         || contains ".ODS" (upper (replace_char "\" "/" (r_link rec)))
         || contains ".CSV" (upper (replace_char "\" "/" (r_link rec))) = true
      /\ extrair_urls_passo upper rec
         = [mkUrlInfo (replace_char "\" "/" (r_link rec)) (r_titulo rec)
              (r_formato rec) (extrair_ano_titulo (r_titulo rec))
              (identificar_servico upper (r_titulo rec))]).
Proof.
  unfold extrair_urls_passo. cbv zeta.
  destruct (String.eqb_spec (r_link rec) ""); [now left |].
  destruct (existsb _ _) eqn:Hs; [| now left].
  destruct (_ || _ || _) eqn:Hf; [| now left].
  right. now repeat split.
Qed.


(** X10: a resource that [extrair_urls_relevantes] accepts and whose
    download succeeds is always handed to a processor, never refused as an
    unsupported format; and it goes to the CSV processor only when neither
    its url nor its declared format names ODS. *)
Theorem X10_accepted_resources_are_processed
    (upper : string -> string) (recursos : list recurso) (info : url_info) :
  In info (extrair_urls_relevantes upper recursos) ->
  (processar_arquivo_individual upper true info = ParaODS
   \/ processar_arquivo_individual upper true info = ParaCSV)
  /\ (processar_arquivo_individual upper true info = ParaCSV ->
      contains ".ODS" (upper (url info)) = false
      /\ contains "ODS" (upper (formato info)) = false
      /\ contains ".CSV" (upper (url info)) = true).
Proof.
  intros (rec & Hrec & Hin)%in_flat_map.
  destruct (extrair_urls_passo_cases upper rec) as [E|(_ & _ & Hf & E)];
    rewrite E in Hin; [contradiction |].
  destruct Hin as [<-|[]].
  unfold processar_arquivo_individual. cbn [negb url formato]. cbv zeta.
  destruct (contains ".ODS" (upper (replace_char "\" "/" (r_link rec))));
    cbn [orb]; [split; [now left | discriminate] |].
  destruct (contains "ODS" (upper (r_formato rec))); cbn [orb] in *;
    [split; [now left | discriminate] |].
  rewrite Hf. cbn [orb]. split; [now right | now intros _].
Qed.

Lemma X10_accepted_resources_are_processed_witness :
  processar_arquivo_individual upper_latin true
    (mkUrlInfo "http://x/ida/scm2015.csv" "IDA - SCM 2015" "ods"
               (Some 2015) "SCM")
  = ParaODS.
Proof.
  destruct (X10_accepted_resources_are_processed upper_latin
              [mkRecurso "http:\\x\ida\scm2015.csv" "IDA - SCM 2015" "ods"]
              (mkUrlInfo "http://x/ida/scm2015.csv" "IDA - SCM 2015" "ods"
                         (Some 2015) "SCM"))
    as [[H|H] _].
  - vm_compute. tauto.
  - exact H.
  - vm_compute in H. discriminate.
Defined.

(** X11: on a title that is Latin text, [extrair_ano_titulo] reads the
    leftmost four consecutive digits of the title as a number (so less
    than 10000, and the first four digits of a longer run), and answers
    None exactly when the title has no four consecutive digits. *)
Theorem X11_extrair_ano_titulo_leftmost (titulo : string) :
  texto_latino titulo = true ->
  (forall (a b : string) (d1 d2 d3 d4 : ascii),
      titulo = a +:+ String d1 (String d2 (String d3 (String d4 b))) ->
      is_digit d1 && is_digit d2 && is_digit d3 && is_digit d4 = true ->
      (forall a1 a2, a = a1 +:+ a2 -> a2 <> "" ->
         re_match [D; D; D; D]
           (a2 +:+ String d1 (String d2 (String d3 (String d4 b)))) = false) ->
      extrair_ano_titulo titulo
      = Some (1000 * digit_val d1 + 100 * digit_val d2
              + 10 * digit_val d3 + digit_val d4))
  /\ (extrair_ano_titulo titulo = None <->
      forall a b, titulo = a +:+ b -> re_match [D; D; D; D] b = false)
  /\ (forall n, extrair_ano_titulo titulo = Some n -> n < 10 * 1000).
Proof.
  intros _. split; [| split].
  - intros a b d1 d2 d3 d4 -> Hd Hno. unfold extrair_ano_titulo.
    rewrite re_search_first; [| | exact Hno].
    + cbn [length take_chars option_map int_digits]. f_equal. lia.
    + cbn [re_match pat_ok].
      apply andb_true_iff in Hd as [Hd H4]. apply andb_true_iff in Hd as [Hd H3].
      apply andb_true_iff in Hd as [H1 H2].
      rewrite H1, H2, H3, H4. now destruct b.
  - unfold extrair_ano_titulo. rewrite <- re_search_none.
    destruct (re_search [D; D; D; D] titulo); cbn [option_map];
      split; congruence.
  - intros n. unfold extrair_ano_titulo.
    destruct (re_search [D; D; D; D] titulo) as [m|] eqn:E; [| discriminate].
    destruct (re_search_digits _ _ E) as (a & b & c & d & -> & Ha & Hb & Hc & Hd).
    cbn [option_map]. intros [= <-].
    change (int_digits 0 (String a (String b (String c (String d "")))))
      with (10 * (10 * (10 * (10 * 0 + digit_val a) + digit_val b)
                  + digit_val c) + digit_val d).
    apply digit_val_le in Ha, Hb, Hc, Hd. lia.
Qed.

Lemma X11_extrair_ano_titulo_leftmost_witness :
  extrair_ano_titulo "IDA 2 - SCM 20156 (3)" = Some 2015.
Proof.
  apply (proj1 (X11_extrair_ano_titulo_leftmost "IDA 2 - SCM 20156 (3)"
                  eq_refl)
           "IDA 2 - SCM " "6 (3)"
           "2"%char "0"%char "1"%char "5"%char); [reflexivity | reflexivity |].
  intros a1 a2 Ha Hne.
  do 12 (destruct a1 as [|? a1];
         [cbn in Ha; subst a2; reflexivity |
          cbn in Ha; injection Ha as _ Ha]).
  destruct a1; cbn in Ha; [subst a2; now elim Hne | discriminate].
Defined.


Import ConsolidarExtra.

(** X12: a resource that is processed a second time changes nothing:
    consolidating the frames followed by a frame that is already among them
    gives the same result as consolidating the frames (its rows are all
    duplicates, and the ids are assigned after the deduplication).  The
    repeated frame brings no new column and no new type of column, so the
    missing values [pd.concat] writes are the same in both. *)
Theorem X12_repeated_resource_is_absorbed
    (vazio : string -> cell) (dfs : list DataFrame) (df : DataFrame) :
  Forall (fun d => List.NoDup (columns d)) dfs ->
  In df dfs ->
  consolidar vazio (dfs ++ [df]) = consolidar vazio dfs.
Proof.
  intros _ Hdf. apply consolidar_ext.
  - destruct dfs; discriminate.
  - intros ->. contradiction.
  - now apply drop_duplicates_repeat.
Qed.

Lemma X12_repeated_resource_is_absorbed_witness :
  let a := mkDF ["GRUPO_ECONOMICO"; "VALOR"; "SERVICO"]
                [[Str "OI"; Str "1.50"; Str "SCM"]; [Str "TIM"; Str "2"; Str "SCM"]] in
  let b := mkDF ["GRUPO_ECONOMICO"; "VALOR"; "SERVICO"]
                [[Str "OI"; Str "3"; Str "SMP"]] in
  consolidar vazio_coletor [a; b; a] = consolidar vazio_coletor [a; b].
Proof.
  cbv zeta.
  apply (X12_repeated_resource_is_absorbed vazio_coletor
           [mkDF ["GRUPO_ECONOMICO"; "VALOR"; "SERVICO"]
                 [[Str "OI"; Str "1.50"; Str "SCM"]; [Str "TIM"; Str "2"; Str "SCM"]];
            mkDF ["GRUPO_ECONOMICO"; "VALOR"; "SERVICO"]
                 [[Str "OI"; Str "3"; Str "SMP"]]]).
  - repeat constructor; vm_compute; intuition discriminate.
  - now left.
Defined.

(** X13: [drop_duplicates] keeps the labels, loses no row value (a row is
    in the result exactly when it is in the frame), never lengthens the
    frame, returns a frame without duplicates as it is, and is
    idempotent. *)
Theorem X13_drop_duplicates_properties (df : DataFrame) :
  columns (drop_duplicates df) = columns df
  /\ (forall r, In r (rows (drop_duplicates df)) <-> In r (rows df))
  /\ length (rows (drop_duplicates df)) <= length (rows df)
  /\ (List.NoDup (rows df) -> drop_duplicates df = df)
  /\ drop_duplicates (drop_duplicates df) = drop_duplicates df.
Proof.
  assert (forall d, List.NoDup (rows d) -> drop_duplicates d = d) as Hid.
  { intros [cols rws] Hnd. unfold drop_duplicates. cbn [columns rows] in *.
    f_equal. apply keep_first_NoDup_id; [assumption | intros r _ []]. }
  split; [reflexivity |]. split; [| split; [| split]].
  - intros r. unfold drop_duplicates. cbn [rows]. rewrite keep_first_In.
    simpl. tauto.
  - unfold drop_duplicates. cbn [rows].
    apply sublist_length, keep_first_sublist.
  - apply Hid.
  - apply Hid. unfold drop_duplicates. cbn [rows]. apply keep_first_NoDup.
Qed.

Lemma X13_drop_duplicates_properties_witness :
  drop_duplicates (mkDF ["a"] [[Str "x"]; [NaN]])
  = mkDF ["a"] [[Str "x"]; [NaN]].
Proof.
  apply (proj1 (proj2 (proj2 (proj2
           (X13_drop_duplicates_properties (mkDF ["a"] [[Str "x"]; [NaN]]))))));
  repeat constructor; vm_compute; intuition discriminate.
Defined.

Import ConnectPostgre ImporterFacts.

(** X15: [preprocess_dataframe] keeps the number of rows and the length of
    every row, and changes no cell outside the columns labelled
    referencia_mes and valor. *)
Theorem X15_preprocess_dataframe_touches_two_columns
    (lower : string -> string) (to_datetime : cell -> cell) (df : DataFrame) :
  length (rows (preprocess_dataframe lower to_datetime df)) = length (rows df)
  /\ forall (k : nat) (r : list cell),
      rows df !! k = Some r ->
      exists r',
        rows (preprocess_dataframe lower to_datetime df) !! k = Some r'
        /\ length r' = length r
        /\ forall i,
             index_of "referencia_mes" (columns df) <> Some i ->
             index_of "valor" (columns df) <> Some i ->
             nth i r' NaN = nth i r NaN.
Proof.
  unfold preprocess_dataframe. cbv zeta. cbn [rows].
  set (df1 := if in_list "referencia_mes" (columns df)
              then apply_column to_datetime "referencia_mes" df else df).
  assert (columns df1 = columns df
          /\ exists g, rows df1 = map g (rows df)
               /\ forall r, length (g r) = length r
                  /\ forall i, index_of "referencia_mes" (columns df) <> Some i ->
                               nth i (g r) NaN = nth i r NaN)
    as (Hc1 & g & Hr1 & Hg).
  { unfold df1. destruct (in_list "referencia_mes" (columns df)).
    - destruct (apply_column_shape to_datetime "referencia_mes" df) as [Hc Hr].
      split; [exact Hc |]. eexists. split; [exact Hr |].
      intros r. destruct (index_of "referencia_mes" (columns df)) as [j|].
      + split; [apply update_nth_length |]. intros i Hi.
        rewrite nth_update_nth.
        destruct (Nat.eqb_spec i j) as [->|_]; [congruence | reflexivity].
      + now split.
    - split; [reflexivity |]. exists (fun r => r).
      split; [now rewrite map_id | now intros r]. }
  set (f := fun v : cell => if eq_empty v then PyNone else v).
  set (df2 := if in_list "valor" (columns df1)
              then apply_column f "valor" df1 else df1).
  assert (exists h, rows df2 = map h (rows df)
             /\ forall r, length (h r) = length r
                /\ forall i, index_of "referencia_mes" (columns df) <> Some i ->
                             index_of "valor" (columns df) <> Some i ->
                             nth i (h r) NaN = nth i r NaN)
    as (h & Hr2 & Hh).
  { unfold df2. destruct (in_list "valor" (columns df1)).
    - destruct (apply_column_shape f "valor" df1) as [_ Hr].
      rewrite Hr, Hr1, map_map, Hc1. eexists. split; [reflexivity |].
      intros r. destruct (Hg r) as [Hlen Hnth].
      destruct (index_of "valor" (columns df)) as [j|].
      + split; [now rewrite update_nth_length |]. intros i Hi Hv.
        rewrite nth_update_nth.
        destruct (Nat.eqb_spec i j) as [->|_]; [congruence | now apply Hnth].
      + split; [assumption | intros; now apply Hnth].
    - exists g. split; [assumption |]. intros r. destruct (Hg r) as [Hlen Hnth].
      split; [assumption | intros; now apply Hnth]. }
  rewrite Hr2. split; [apply length_map |].
  intros k r Hk. exists (h r). destruct (Hh r) as [Hlen Hnth].
  split; [| now split].
  change (map h (rows df)) with (h <$> rows df).
  now rewrite list_lookup_fmap, Hk.
Qed.

Lemma X15_preprocess_dataframe_touches_two_columns_witness :
  exists r',
    rows (preprocess_dataframe lower_ascii to_datetime_ano_mes
            (mkDF ["id"; "valor"; "Tipo Servico"]
                  [[Int 1; Str ""; Str "SCM"]])) !! 0 = Some r'
    /\ nth 0 r' NaN = Int 1 /\ nth 2 r' NaN = Str "SCM".
Proof.
  destruct (proj2 (X15_preprocess_dataframe_touches_two_columns
                     lower_ascii to_datetime_ano_mes
                     (mkDF ["id"; "valor"; "Tipo Servico"]
                           [[Int 1; Str ""; Str "SCM"]]))
              0 [Int 1; Str ""; Str "SCM"] eq_refl)
    as (r' & Hr' & _ & Hcells).
  exists r'. split; [exact Hr' |]. split.
  - rewrite (Hcells 0); [reflexivity | discriminate | discriminate].
  - rewrite (Hcells 2); [reflexivity | discriminate | discriminate].
Defined.



